(** * PyQt5_FFmpeg_Screen_Recorder: the recording session controller

    A shallow embedding of [PyQt5_FFmpeg_Screen_Recorder.py]: the process
    supervisor [FFmpegThread] (its [run] and [stop] methods), the region
    selector's rectangle, and the parts of [ScreenRecorder] that resolve the
    capture geometry, build the ffmpeg argument list and react to the
    supervisor's notifications.

    Conventions.
    - A Python [int] is a [Z]; a Python [str] is a [string], one [ascii] per
      character (code points below 256); [bytes] is a [list byte].
    - A method that mutates [self] is a function from the object's record to
      its updated record, together with whatever it emits.
    - What the operating system, the Qt desktop or the user decides (whether
      [Popen] raises, the exit status, whether [send_signal] raises, the
      screen's geometry) is an explicit argument or an event of a trace. *)

From Stdlib Require Import ZArith List String Ascii Bool Lia DecimalString.
From Stdlib.Strings Require Import Byte.
Import ListNotations.

#[local] Open Scope string_scope.
#[local] Open Scope Z_scope.

(* ================================================================== *)
(** ** Python built-ins used by the program *)

Module Py.

(** [str.isspace] on one character, for code points below 256:
    TAB..CR, FS..US, SPACE, NEL and NBSP. *)
Definition isspace (c : ascii) : bool :=
  let n := N_of_ascii c in
  (((9 <=? n) && (n <=? 13)) || ((28 <=? n) && (n <=? 32))
   || (n =? 133) || (n =? 160))%N.

(** [str.lstrip()], [str.rstrip()] and [str.strip()] without argument. *)
Fixpoint lstrip (s : string) : string :=
  match s with
  | EmptyString => EmptyString
  | String c s' => if isspace c then lstrip s' else s
  end.

Fixpoint rstrip (s : string) : string :=
  match s with
  | EmptyString => EmptyString
  | String c s' =>
      match rstrip s' with
      | EmptyString => if isspace c then EmptyString else String c EmptyString
      | r => String c r
      end
  end.

Definition strip (s : string) : string := rstrip (lstrip s).

(** [str(n)] for an [int]: decimal digits, with a leading minus sign for a
    negative number. *)
Definition str (n : Z) : string := NilZero.string_of_int (Z.to_int n).

(** [x in (a, b, ...)] for integers. *)
Definition int_in (x : Z) (t : list Z) : bool := existsb (Z.eqb x) t.

End Py.

(* ================================================================== *)
(** ** The process supervisor: class [FFmpegThread] *)

(** The two interrupt signals of [stop]. *)
Inductive Signal : Type := CTRL_BREAK_EVENT | SIGINT.

(** The two Qt signals of the class: [finished] and [error_occurred(str)]. *)
Inductive Notification : Type :=
| finished
| error_occurred (msg : string).

(** A [subprocess.Popen] handle together with the operating system's side of
    it: [returncode] is [None] while the child is alive and its exit status
    afterwards; [sent] lists the signals sent to the child with
    [send_signal], in order (what the child makes of them, and whether it
    handles two pending ones once, is not part of the model). *)
Record Popen : Type := mkPopen {
  returncode : option Z;
  sent : list Signal
}.

(** [Popen.poll()]: [None] while the child runs, its status once it has
    exited. *)
Definition poll (p : Popen) : option Z := returncode p.

(** [Popen.send_signal(sig)] when it does not raise. *)
Definition send_signal (sig : Signal) (p : Popen) : Popen :=
  {| returncode := returncode p; sent := sent p ++ [sig] |}.

Module FFmpegThread.

(** The attributes of an [FFmpegThread] object. *)
Record t : Type := mk {
  cmd : list string;
  process : option Popen;
  _stopping : bool
}.

(** [FFmpegThread.__init__(cmd)]. *)
Definition init (c : list string) : t :=
  {| cmd := c; process := None; _stopping := false |}.

Section Host.

(** [platform.system() == "Windows"]. *)
Variable windows : bool.

(** [bytes.decode(errors="ignore")], a built-in the program calls on the
    captured standard error. *)
Variable decode : list byte -> string.

(** [stderr.decode(errors="ignore") if stderr else ""]: [None] and the
    empty [bytes] are both false. *)
Definition stderr_output (stderr : option (list byte)) : string :=
  match stderr with
  | None | Some [] => ""
  | Some (b :: bs) => decode (b :: bs)
  end.

(** [run], first statement of the [try]: the handle returned by
    [subprocess.Popen] is stored in [self.process]. *)
Definition run_spawn (th : t) : t :=
  {| cmd := cmd th;
     process := Some {| returncode := None; sent := [] |};
     _stopping := _stopping th |}.

(** [run], after [communicate()] has returned: the [if]/[elif]/[else] on
    [self._stopping] and [self.process.returncode]. *)
Definition run_classify (th : t) (rc : Z)
           (stderr : option (list byte)) : Notification :=
  if _stopping th then finished
  else if negb (Py.int_in rc [0; 2; 130])
       then error_occurred (Py.strip (stderr_output stderr))
       else finished.

(** [run], the [except Exception as e] handler. *)
Definition run_except (e : string) : Notification := error_occurred e.

(** The signal [stop] chooses for the host platform. *)
Definition interrupt : Signal :=
  if windows then CTRL_BREAK_EVENT else SIGINT.

(** [stop()].  [raises] is what [send_signal] does if it is reached:
    [None] when the signal is sent, [Some e] when it raises [e].
    A [Popen] object is always true, so [self.process and ...] only
    tests for [None]. *)
Definition stop (raises : option string) (th : t)
  : t * list Notification :=
  match process th with
  | None => (th, [])
  | Some p =>
      match poll p with
      | Some _ => (th, [])
      | None =>
          match raises with
          | None =>
              ({| cmd := cmd th;
                  process := Some (send_signal interrupt p);
                  _stopping := true |}, [])
          | Some e =>
              ({| cmd := cmd th; process := Some p; _stopping := true |},
               [error_occurred ("Failed to stop FFmpeg: " ++ e)])
          end
      end
  end.

End Host.

End FFmpegThread.

(* ================================================================== *)
(** ** One session of the supervisor, as a trace of events

    [run] executes on its own thread and blocks in [communicate()] while
    [stop] is called from the window's thread, so a session is an
    interleaving of the steps of [run], of the child's exit and of calls to
    [stop]. *)

Module Session.

(** Where [run] stands. *)
Inductive Phase : Type :=
| NotStarted      (* [start()] was called, [Popen] not yet *)
| Communicating   (* blocked in [self.process.communicate()] *)
| Returned.       (* [run] has returned *)

(** Which method emitted a notification. *)
Inductive Emitter : Type := InRun | InStop.

Record t : Type := mk {
  thread : FFmpegThread.t;
  phase : Phase;
  emitted : list (Emitter * Notification)
}.

(** What can happen in a session: the two outcomes of [subprocess.Popen]
    in [run], the child's exit with a status, the two outcomes of
    [communicate()], and a call of [stop] with what [send_signal] would do
    in it. *)
Inductive Event : Type :=
| Popen_returns
| Popen_raises (e : string)
| Process_exits (rc : Z)
| Communicate_returns (stderr : option (list byte))
| Communicate_raises (e : string)
| Stop_called (raises : option string).

Definition init (c : list string) : t :=
  {| thread := FFmpegThread.init c; phase := NotStarted; emitted := [] |}.

(** The child is alive: a handle exists and [poll()] is [None]. *)
Definition alive (s : t) : bool :=
  match FFmpegThread.process (thread s) with
  | Some p => match poll p with None => true | Some _ => false end
  | None => false
  end.

(** The exit status the handle reports, if any. *)
Definition exit_status (s : t) : option Z :=
  match FFmpegThread.process (thread s) with
  | Some p => returncode p
  | None => None
  end.

(** The signals sent to the child so far. *)
Definition signals (s : t) : list Signal :=
  match FFmpegThread.process (thread s) with
  | Some p => sent p
  | None => []
  end.

Definition tag (e : Emitter) (l : list Notification)
  : list (Emitter * Notification) := map (pair e) l.

(** The notifications of one emitter, in order. *)
Definition emitted_by (e : Emitter) (s : t) : list Notification :=
  map snd (filter (fun x => match fst x, e with
                            | InRun, InRun | InStop, InStop => true
                            | _, _ => false
                            end) (emitted s)).

Section Host.

Variable windows : bool.
Variable decode : list byte -> string.

(** [run] ends by emitting [n]. *)
Definition finish (s : t) (n : Notification) : t :=
  {| thread := thread s; phase := Returned;
     emitted := emitted s ++ [(InRun, n)] |}.

(** One event; [None] when the event cannot happen in [s]. *)
Definition step (s : t) (ev : Event) : option t :=
  match ev with
  | Popen_returns =>
      match phase s with
      | NotStarted =>
          Some {| thread := FFmpegThread.run_spawn (thread s);
                  phase := Communicating;
                  emitted := emitted s |}
      | _ => None
      end
  | Popen_raises e =>
      match phase s with
      | NotStarted => Some (finish s (FFmpegThread.run_except e))
      | _ => None
      end
  | Process_exits rc =>
      match FFmpegThread.process (thread s) with
      | Some p =>
          match returncode p with
          | None =>
              Some {| thread :=
                        {| FFmpegThread.cmd := FFmpegThread.cmd (thread s);
                           FFmpegThread.process :=
                             Some {| returncode := Some rc;
                                     sent := sent p |};
                           FFmpegThread._stopping :=
                             FFmpegThread._stopping (thread s) |};
                      phase := phase s;
                      emitted := emitted s |}
          | Some _ => None
          end
      | None => None
      end
  | Communicate_returns stderr =>
      match phase s, exit_status s with
      | Communicating, Some rc =>
          Some (finish s (FFmpegThread.run_classify decode (thread s)
                                                    rc stderr))
      | _, _ => None
      end
  | Communicate_raises e =>
      match phase s with
      | Communicating => Some (finish s (FFmpegThread.run_except e))
      | _ => None
      end
  | Stop_called raises =>
      let '(th, out) := FFmpegThread.stop windows raises (thread s) in
      Some {| thread := th; phase := phase s;
              emitted := emitted s ++ tag InStop out |}
  end.

(** A trace of events, from left to right. *)
Fixpoint exec (tr : list Event) (s : t) : option t :=
  match tr with
  | [] => Some s
  | ev :: tr' =>
      match step s ev with
      | Some s' => exec tr' s'
      | None => None
      end
  end.

End Host.

End Session.

(* ================================================================== *)
(** ** Qt's [QPoint] and [QRect]

    A [QRect] stores its two corners, both inclusive, so a rectangle built
    from one point twice is one pixel wide and one pixel high.  Coordinates
    are C [int]s in Qt; screen coordinates stay far from their limits, and
    they are integers here. *)

Record QPoint : Type := mkQPoint { px : Z; py : Z }.

Module QRect.

Record t : Type := mk { x1 : Z; y1 : Z; x2 : Z; y2 : Z }.

(** [QRect()]: the null rectangle. *)
Definition null : t := {| x1 := 0; y1 := 0; x2 := -1; y2 := -1 |}.

(** [QRect(topLeft, bottomRight)]. *)
Definition of_points (a b : QPoint) : t :=
  {| x1 := px a; y1 := py a; x2 := px b; y2 := py b |}.

(** [QRect(left, top, width, height)]. *)
Definition of_size (left top w h : Z) : t :=
  {| x1 := left; y1 := top; x2 := left + w - 1; y2 := top + h - 1 |}.

Definition x (r : t) : Z := x1 r.
Definition y (r : t) : Z := y1 r.
Definition width (r : t) : Z := x2 r - x1 r + 1.
Definition height (r : t) : Z := y2 r - y1 r + 1.

(** [isValid()]: [left <= right] and [top <= bottom]. *)
Definition isValid (r : t) : bool := (x1 r <=? x2 r) && (y1 r <=? y2 r).

(** [bool(rect)]: PyQt5 binds [QRect.__bool__] to [isValid()]. *)
Definition truth (r : t) : bool := isValid r.

(** [normalized()] of Qt 5: the corners of a dimension are swapped when
    its width (height) is negative. *)
Definition normalized (r : t) : t :=
  let '(a1, a2) := if x2 r <? x1 r - 1 then (x2 r, x1 r) else (x1 r, x2 r) in
  let '(b1, b2) := if y2 r <? y1 r - 1 then (y2 r, y1 r) else (y1 r, y2 r) in
  {| x1 := a1; y1 := b1; x2 := a2; y2 := b2 |}.

End QRect.

(* ================================================================== *)
(** ** The region selector: class [RegionSelector] *)

Module RegionSelector.

Record t : Type := mk {
  start_pos : option QPoint;
  end_pos : option QPoint;
  selection : QRect.t;
  start_pos_global : option QPoint;
  end_pos_global : option QPoint;
  selection_global : QRect.t
}.

(** A [QMouseEvent]: [pos()] and [globalPos()]. *)
Record QMouseEvent : Type := mkEvent { pos : QPoint; globalPos : QPoint }.

Definition init : t :=
  {| start_pos := None; end_pos := None; selection := QRect.null;
     start_pos_global := None; end_pos_global := None;
     selection_global := QRect.null |}.

Definition mousePressEvent (ev : QMouseEvent) (w : t) : t :=
  {| start_pos := Some (pos ev); end_pos := Some (pos ev);
     selection := selection w;
     start_pos_global := Some (globalPos ev);
     end_pos_global := Some (globalPos ev);
     selection_global := selection_global w |}.

Definition mouseMoveEvent (ev : QMouseEvent) (w : t) : t :=
  {| start_pos := start_pos w; end_pos := Some (pos ev);
     selection := selection w;
     start_pos_global := start_pos_global w;
     end_pos_global := Some (globalPos ev);
     selection_global := selection_global w |}.

(** [mouseReleaseEvent]: the widget after the event and the two
    rectangles [regionSelected] carries; [None] when no press came first
    ([QRect(None, ...)] raises). *)
Definition mouseReleaseEvent (ev : QMouseEvent) (w : t)
  : option (t * (QRect.t * QRect.t)) :=
  match start_pos w, start_pos_global w with
  | Some s, Some sg =>
      let sel := QRect.normalized (QRect.of_points s (pos ev)) in
      let selg := QRect.normalized (QRect.of_points sg (globalPos ev)) in
      Some ({| start_pos := start_pos w; end_pos := Some (pos ev);
               selection := sel;
               start_pos_global := start_pos_global w;
               end_pos_global := Some (globalPos ev);
               selection_global := selg |}, (sel, selg))
  | _, _ => None
  end.

(** What a press at [a] followed by a release at [b] selects. *)
Definition drag (a b : QMouseEvent) : option (QRect.t * QRect.t) :=
  option_map snd (mouseReleaseEvent b (mousePressEvent a init)).

End RegionSelector.

(* ================================================================== *)
(** ** The main window: class [ScreenRecorder] *)

Module ScreenRecorder.

(** The child widgets [initUI] puts in the window's layout, which are
    what [findChildren(QWidget)] returns. *)
Inductive Widget : Type :=
| screen_label | screen_combo | res_label | res_combo
| fps_label | fps_spin | audio_label | audio_combo
| bit_rate_label | bit_rate_combo
| output_path_label | output_path_line_edit | output_path_button
| preview_label | preview | region_checkbox
| start_button | stop_button.

Definition all_widgets : list Widget :=
  [screen_label; screen_combo; res_label; res_combo; fps_label; fps_spin;
   audio_label; audio_combo; bit_rate_label; bit_rate_combo;
   output_path_label; output_path_line_edit; output_path_button;
   preview_label; preview; region_checkbox; start_button; stop_button].

Definition widget_id (w : Widget) : nat :=
  match w with
  | screen_label => 0 | screen_combo => 1 | res_label => 2 | res_combo => 3
  | fps_label => 4 | fps_spin => 5 | audio_label => 6 | audio_combo => 7
  | bit_rate_label => 8 | bit_rate_combo => 9
  | output_path_label => 10 | output_path_line_edit => 11
  | output_path_button => 12 | preview_label => 13 | preview => 14
  | region_checkbox => 15 | start_button => 16 | stop_button => 17
  end%nat.

Definition widget_eqb (a b : Widget) : bool :=
  Nat.eqb (widget_id a) (widget_id b).

(** A modal [QMessageBox]: [information(self, title, text)] or
    [critical(self, title, text)]. *)
Inductive Dialog : Type :=
| information (title text : string)
| critical (title text : string).

(** The levels of the log lines kept here ([debug] lines are left out). *)
Inductive Level : Type := INFO | ERROR.

(** The items [initUI] gives the resolution and the bit rate combo box. *)
Definition res_items : list string := ["1920x1080"; "1280x720"; "640x480"].
Definition bit_rate_items : list string :=
  ["96k"; "128k"; "160k"; "192k"; "256k"; "320k"].

(** The window's attributes and what its widgets show.  [threads] holds
    every [FFmpegThread] object created so far with the state of its
    [run]; [ffmpeg_thread] refers to one of them by position. *)
Record t : Type := mk {
  output_path : option string;
  ffmpeg_thread : option nat;
  capture_rect : option QRect.t;
  capture_rect_global : option QRect.t;
  selector : option RegionSelector.t;
  screen_index : Z;            (* [screen_combo.currentIndex()] *)
  res_text : string;           (* [res_combo.currentText()] *)
  fps_value : Z;               (* [fps_spin.value()] *)
  audio_text : string;         (* [audio_combo.currentText()] *)
  bit_rate_text : string;      (* [bit_rate_combo.currentText()] *)
  region_checked : bool;       (* [region_checkbox.isChecked()] *)
  enabled : Widget -> bool;
  minimized : bool;            (* [isMinimized() or isHidden()] *)
  overlay_shown : bool;        (* the blinking REC overlay *)
  key_listener_started : bool;
  dialogs : list Dialog;
  log : list (Level * string);
  threads : list Session.t
}.

(** What the geometry part of [start_recording] leaves in its locals. *)
Record Geometry : Type := mkGeometry {
  offset_x : Z;
  offset_y : Z;
  resolution : string
}.

(** The capture geometry of the spec's data model. *)
Record CaptureGeometry : Type := mkCaptureGeometry {
  offsetX : Z;
  offsetY : Z;
  width : Z;
  height : Z
}.

(** [n if n % 2 == 0 else n + 1] (Python's [%] with a positive modulus is
    [Z.modulo]). *)
Definition even_up (n : Z) : Z := if n mod 2 =? 0 then n else n + 1.

(** The body of [if self.capture_rect_global:] up to [height]. *)
Definition region_geometry (r : QRect.t) : CaptureGeometry :=
  {| offsetX := QRect.x r; offsetY := QRect.y r;
     width := even_up (QRect.width r);
     height := even_up (QRect.height r) |}.

(** [f"{width}x{height}"]. *)
Definition format_resolution (w h : Z) : string :=
  (Py.str w ++ "x" ++ Py.str h)%string.

(** [enable_widgets(enable)]. *)
Definition enable_widgets (b : bool) : Widget -> bool := fun _ => b.

(** [w.setEnabled(b)]. *)
Definition setEnabled (w : Widget) (b : bool) (en : Widget -> bool)
  : Widget -> bool :=
  fun w' => if widget_eqb w' w then b else en w'.

(** The line feed of ["Recording failed:\n..."]. *)
Definition nl : string := String (ascii_of_nat 10) EmptyString.

(** The argument list of [start_recording], from [cmd = ['ffmpeg']] to
    the last [cmd.extend]. *)
Definition build_cmd (g : Geometry) (fps audio_device bit_rate out : string)
  : list string :=
  let extend (cmd args : list string) : list string := List.app cmd args in
  let cmd := ["ffmpeg"] in
  let cmd := extend cmd ["-f"; "gdigrab";
                         "-framerate"; fps;
                         "-offset_x"; Py.str (offset_x g);
                         "-offset_y"; Py.str (offset_y g);
                         "-video_size"; resolution g;
                         "-i"; "desktop"] in
  let cmd := if negb (audio_device =? "None")%string
             then extend cmd ["-f"; "dshow";
                              "-i"; ("audio=" ++ audio_device)%string]
             else cmd in
  let cmd := extend cmd ["-vcodec"; "libx264";
                         "-pix_fmt"; "yuv420p";
                         "-preset"; "ultrafast"] in
  let cmd := if negb (audio_device =? "None")%string
             then extend cmd ["-acodec"; "aac"; "-b:a"; bit_rate]
             else cmd in
  extend cmd ["-y"; out].

(** [l[i] = v] for an index within the list. *)
Fixpoint list_set {A : Type} (i : nat) (v : A) (l : list A) : list A :=
  match l, i with
  | [], _ => []
  | _ :: l', O => v :: l'
  | a :: l', S i' => a :: list_set i' v l'
  end.

Section Desktop.

(** [QApplication.desktop().screenGeometry(i)] and
    [len(QApplication.screens())]. *)
Variable screenGeometry : Z -> QRect.t.
Variable screen_count : Z.

Variable windows : bool.
Variable decode : list byte -> string.

(** [start_recording], from [screen_index = ...] to
    [self.capture_rect_global = None]: the geometry and the value left
    in [self.capture_rect_global]. *)
Definition resolve (win : t) : Geometry * option QRect.t :=
  let screen_geometry := screenGeometry (screen_index win) in
  let full := {| offset_x := QRect.x screen_geometry;
                 offset_y := QRect.y screen_geometry;
                 resolution := res_text win |} in
  match capture_rect_global win with
  | None => (full, None)
  | Some r =>
      if QRect.truth r
      then let g := region_geometry r in
           ({| offset_x := offsetX g; offset_y := offsetY g;
               resolution := format_resolution (width g) (height g) |},
            None)
      else (full, Some r)
  end.

(** The command [start_recording] hands to the new thread when the
    output path is [out]. *)
Definition built_cmd (win : t) (out : string) : list string :=
  build_cmd (fst (resolve win)) (Py.str (fps_value win))
            (audio_text win) (bit_rate_text win) out.

(** [start_recording()]. *)
Definition start_recording (win : t) : t :=
  match output_path win with
  | None | Some EmptyString => win
  | Some out =>
      {| output_path := output_path win;
         ffmpeg_thread := Some (List.length (threads win));
         capture_rect := capture_rect win;
         capture_rect_global := snd (resolve win);
         selector := selector win;
         screen_index := screen_index win;
         res_text := res_text win;
         fps_value := fps_value win;
         audio_text := audio_text win;
         bit_rate_text := bit_rate_text win;
         region_checked := region_checked win;
         enabled := setEnabled stop_button true (enable_widgets false);
         minimized := true;
         overlay_shown := true;
         key_listener_started := true;
         dialogs := dialogs win;
         log := log win;
         threads := (threads win ++ [Session.init (built_cmd win out)])%list |}
  end.

(** A click on the Start button: a disabled button emits no
    [clicked]. *)
Definition click_start (win : t) : t :=
  if enabled win start_button then start_recording win else win.

(** [recording_finished()]. *)
Definition recording_finished (win : t) : t :=
  {| output_path := output_path win;
     ffmpeg_thread := ffmpeg_thread win;
     capture_rect := capture_rect win;
     capture_rect_global := capture_rect_global win;
     selector := selector win;
     screen_index := screen_index win;
     res_text := res_text win;
     fps_value := fps_value win;
     audio_text := audio_text win;
     bit_rate_text := bit_rate_text win;
     region_checked := region_checked win;
     enabled := setEnabled stop_button false (enable_widgets true);
     minimized := false;
     overlay_shown := false;
     key_listener_started := key_listener_started win;
     dialogs := (dialogs win
                 ++ [information "Done" "Recording stopped and saved."])%list;
     log := (log win ++ [(INFO, "Recording stopped and saved.")])%list;
     threads := threads win |}.

(** [recording_failed(error_msg)]. *)
Definition recording_failed (error_msg : string) (win : t) : t :=
  {| output_path := output_path win;
     ffmpeg_thread := ffmpeg_thread win;
     capture_rect := capture_rect win;
     capture_rect_global := capture_rect_global win;
     selector := selector win;
     screen_index := screen_index win;
     res_text := res_text win;
     fps_value := fps_value win;
     audio_text := audio_text win;
     bit_rate_text := bit_rate_text win;
     region_checked := region_checked win;
     enabled := setEnabled stop_button false
                  (setEnabled start_button true (enabled win));
     minimized := minimized win;
     overlay_shown := false;
     key_listener_started := key_listener_started win;
     dialogs := (dialogs win
                 ++ [critical "Error"
                       ("Recording failed:" ++ nl ++ error_msg)%string])%list;
     log := (log win
             ++ [(ERROR,
                  ("Recording failed:" ++ nl ++ error_msg)%string)])%list;
     threads := threads win |}.

(** The slots [start_recording] connects to the thread's signals. *)
Definition deliver (win : t) (n : Notification) : t :=
  match n with
  | finished => recording_finished win
  | error_occurred msg => recording_failed msg win
  end.

(** Thread [i] takes the step [ev]; what it emits reaches the slots. *)
Definition thread_event (i : nat) (ev : Session.Event) (win : t)
  : option t :=
  match nth_error (threads win) i with
  | None => None
  | Some s =>
      match Session.step windows decode s ev with
      | None => None
      | Some s' =>
          let out := skipn (List.length (Session.emitted s))
                           (Session.emitted s') in
          let win' :=
            {| output_path := output_path win;
               ffmpeg_thread := ffmpeg_thread win;
               capture_rect := capture_rect win;
               capture_rect_global := capture_rect_global win;
               selector := selector win;
               screen_index := screen_index win;
               res_text := res_text win;
               fps_value := fps_value win;
               audio_text := audio_text win;
               bit_rate_text := bit_rate_text win;
               region_checked := region_checked win;
               enabled := enabled win;
               minimized := minimized win;
               overlay_shown := overlay_shown win;
               key_listener_started := key_listener_started win;
               dialogs := dialogs win;
               log := log win;
               threads := list_set i s' (threads win) |} in
          Some (fold_left deliver (map snd out) win')
      end
  end.

(** [stop_recording()] on the window's attributes; its last statement,
    [if self.selector: self.selector.close()], changes none of them and
    is given by [Lifecycle.stop_recording_aside]. *)
Definition stop_recording (raises : option string) (win : t) : t :=
  match ffmpeg_thread win with
  | None => win
  | Some i =>
      match thread_event i (Session.Stop_called raises) win with
      | Some win' => win'
      | None => win
      end
  end.

(** [update_preview()]: of the state kept here it only clears
    [self.capture_rect], when the screen index is a valid one. *)
Definition update_preview (win : t) : t :=
  {| output_path := output_path win;
     ffmpeg_thread := ffmpeg_thread win;
     capture_rect :=
       if (0 <=? screen_index win) && (screen_index win <? screen_count)
       then None else capture_rect win;
     capture_rect_global := capture_rect_global win;
     selector := selector win;
     screen_index := screen_index win;
     res_text := res_text win;
     fps_value := fps_value win;
     audio_text := audio_text win;
     bit_rate_text := bit_rate_text win;
     region_checked := region_checked win;
     enabled := enabled win;
     minimized := minimized win;
     overlay_shown := overlay_shown win;
     key_listener_started := key_listener_started win;
     dialogs := dialogs win;
     log := log win;
     threads := threads win |}.

(** [set_region(rect, global_rect)]. *)
Definition set_region (rect global_rect : QRect.t) (win : t) : t :=
  let win1 :=
    update_preview
      {| output_path := output_path win;
         ffmpeg_thread := ffmpeg_thread win;
         capture_rect := Some rect;
         capture_rect_global := Some global_rect;
         selector := selector win;
         screen_index := screen_index win;
         res_text := res_text win;
         fps_value := fps_value win;
         audio_text := audio_text win;
         bit_rate_text := bit_rate_text win;
         region_checked := region_checked win;
         enabled := enabled win;
         minimized := minimized win;
         overlay_shown := overlay_shown win;
         key_listener_started := key_listener_started win;
         dialogs := dialogs win;
         log := log win;
         threads := threads win |} in
  {| output_path := output_path win1;
     ffmpeg_thread := ffmpeg_thread win1;
     capture_rect := capture_rect win1;
     capture_rect_global := capture_rect_global win1;
     selector := selector win1;
     screen_index := screen_index win1;
     res_text := res_text win1;
     fps_value := fps_value win1;
     audio_text := audio_text win1;
     bit_rate_text := bit_rate_text win1;
     region_checked := false;
     enabled := enable_widgets true;
     minimized := false;
     overlay_shown := overlay_shown win1;
     key_listener_started := key_listener_started win1;
     dialogs := dialogs win1;
     log := log win1;
     threads := threads win1 |}.

End Desktop.

(** The window as [__init__] leaves it, with the default output path
    [out], an audio combo box showing ["None"] and the first screen
    selected. *)
Definition initial (out : string) : t :=
  {| output_path := Some out;
     ffmpeg_thread := None;
     capture_rect := None;
     capture_rect_global := None;
     selector := None;
     screen_index := 0;
     res_text := "1920x1080";
     fps_value := 30;
     audio_text := "None";
     bit_rate_text := "96k";
     region_checked := false;
     enabled := setEnabled stop_button false (enable_widgets true);
     minimized := false;
     overlay_shown := false;
     key_listener_started := false;
     dialogs := [];
     log := [(INFO, "Application started.")];
     threads := [] |}.

(** The encoder processes alive at this moment. *)
Definition alive_processes (win : t) : nat :=
  List.length (filter Session.alive (threads win)).

(** The arguments before the destination path that ends the list. *)
Definition options (cmd : list string) : list string := removelast cmd.

(** How often the argument [a] occurs in [l]. *)
Definition occurrences (a : string) (l : list string) : nat :=
  List.length (filter (String.eqb a) l).

End ScreenRecorder.

(* ================================================================== *)
(** ** Statements about a session, in the words of the specification *)

Module Supervision.

Import Session.

(** A stop request reaches a running process somewhere in the trace: a
    call of [stop] that comes after [Popen] has returned and before the
    child has exited.  [running] says whether the child is alive where
    the trace starts. *)
Fixpoint stop_requested_from (running : bool) (tr : list Event) : bool :=
  match tr with
  | [] => false
  | Popen_returns :: tr' => stop_requested_from true tr'
  | Process_exits _ :: tr' => stop_requested_from false tr'
  | Stop_called _ :: tr' => running || stop_requested_from running tr'
  | _ :: tr' => stop_requested_from running tr'
  end.

Definition stop_requested (tr : list Event) : bool :=
  stop_requested_from false tr.

(** The acceptable exit statuses. *)
Definition acceptable (rc : Z) : Prop := rc = 0 \/ rc = 2 \/ rc = 130.

(** A notification of [stop] about a signal it could not send. *)
Definition signal_failure (n : Notification) : Prop :=
  exists e, n = error_occurred ("Failed to stop FFmpeg: " ++ e)%string.

(** The calls of [stop] in a trace that reach a running process and at
    which [send_signal] raises. *)
Fixpoint failed_sends_from (running : bool) (tr : list Event) : nat :=
  match tr with
  | [] => O
  | Popen_returns :: tr' => failed_sends_from true tr'
  | Process_exits _ :: tr' => failed_sends_from false tr'
  | Stop_called (Some _) :: tr' =>
      ((if running then 1 else 0) + failed_sends_from running tr')%nat
  | _ :: tr' => failed_sends_from running tr'
  end.

Definition failed_sends (tr : list Event) : nat :=
  failed_sends_from false tr.

(** [run] has returned. *)
Definition returned (s : t) : nat :=
  match phase s with Returned => 1%nat | _ => 0%nat end.

(** The session a trace leads to from a fresh thread (the fresh thread
    itself if the trace cannot happen). *)
Definition after (windows : bool) (decode : list byte -> string)
           (tr : list Event) (c : list string) : t :=
  match exec windows decode tr (init c) with
  | Some s => s
  | None => init c
  end.

(** An ASCII reading of [bytes.decode], for concrete runs. *)
Definition ascii_decode (b : list byte) : string := string_of_list_byte b.

(** The session has emitted exactly one notification. *)
Definition exactly_one_notification (s : t) : Prop :=
  exists n, map snd (emitted s) = [n].

(** Concrete sessions on a POSIX host: a started encoder; the same after
    one call of [stop]; after two calls; and a whole session in which the
    send raised. *)
Definition started : t :=
  after false ascii_decode [Popen_returns] ["ffmpeg"].

(** A trace in which the encoder is interrupted and exits with status 1,
    up to the return of [communicate()]. *)
Definition interrupted : list Event :=
  [Popen_returns; Stop_called None; Process_exits 1].

Definition stop_pending : t :=
  after false ascii_decode [Popen_returns; Stop_called None] ["ffmpeg"].

Definition stopped_twice : t :=
  after false ascii_decode
        [Popen_returns; Stop_called None; Stop_called None] ["ffmpeg"].

Definition send_raised : t :=
  after false ascii_decode
        [Popen_returns; Stop_called (Some "boom"); Process_exits 255;
         Communicate_returns None] ["ffmpeg"].

End Supervision.

(* ================================================================== *)
(** ** Statements about the window, in the words of the specification *)

Module Recorder.

Import ScreenRecorder.

(** No usable region is stored: none at all, or a rectangle of zero (or
    negative) width or height. *)
Definition no_region (win : t) : Prop :=
  match capture_rect_global win with
  | None => True
  | Some r => QRect.width r <= 0 \/ QRect.height r <= 0
  end.

(** The full geometry of the chosen screen as the display describes it:
    its origin and its own resolution. *)
Definition display_geometry (screenGeometry : Z -> QRect.t) (win : t)
  : Geometry :=
  let g := screenGeometry (screen_index win) in
  {| offset_x := QRect.x g; offset_y := QRect.y g;
     resolution := format_resolution (QRect.width g) (QRect.height g) |}.

(** The fallback the code takes: the chosen screen's origin with the
    size shown in the resolution combo box. *)
Definition combo_geometry (screenGeometry : Z -> QRect.t) (win : t)
  : Geometry :=
  let g := screenGeometry (screen_index win) in
  {| offset_x := QRect.x g; offset_y := QRect.y g;
     resolution := res_text win |}.

Definition is_digit (c : ascii) : bool :=
  let n := N_of_ascii c in ((48 <=? n) && (n <=? 57))%N.

(** The argument starts like a number: with a digit, or with a minus
    sign and a digit. *)
Definition numeric_head (a : string) : bool :=
  match a with
  | String c r =>
      is_digit c
      || (Ascii.eqb c "-"
          && match r with String d _ => is_digit d | EmptyString => false end)
  | EmptyString => false
  end.

(** The arguments that name an audio device to read. *)
Definition audio_inputs (l : list string) : list string :=
  filter (String.prefix "audio=") l.

(** Thread [i] takes the step [ev], if it can. *)
Definition after_event (windows : bool) (decode : list byte -> string)
           (i : nat) (ev : Session.Event) (win : t) : t :=
  match thread_event windows decode i ev win with
  | Some win' => win'
  | None => win
  end.

(** A desktop with one 2560x1440 screen at the origin. *)
Definition wide_desktop (i : Z) : QRect.t := QRect.of_size 0 0 2560 1440.

(** A desktop with one 1920x1080 screen at the origin. *)
Definition hd_desktop (i : Z) : QRect.t := QRect.of_size 0 0 1920 1080.

(** The fresh window, saving to [/tmp/out.mp4]. *)
Definition fresh : t := initial "/tmp/out.mp4".

(** A mouse event at the same local and global position. *)
Definition mouse_at (x y : Z) : RegionSelector.QMouseEvent :=
  RegionSelector.mkEvent (mkQPoint x y) (mkQPoint x y).

(** The fresh window with the global region [r] stored. *)
Definition with_region (r : QRect.t) : t := set_region 1 r r fresh.

(** The fresh window with the microphone selected. *)
Definition with_microphone : t :=
  {| output_path := output_path fresh;
     ffmpeg_thread := ffmpeg_thread fresh;
     capture_rect := capture_rect fresh;
     capture_rect_global := capture_rect_global fresh;
     selector := selector fresh;
     screen_index := screen_index fresh;
     res_text := res_text fresh;
     fps_value := fps_value fresh;
     audio_text := "Microphone";
     bit_rate_text := "128k";
     region_checked := region_checked fresh;
     enabled := enabled fresh;
     minimized := minimized fresh;
     overlay_shown := overlay_shown fresh;
     key_listener_started := key_listener_started fresh;
     dialogs := dialogs fresh;
     log := log fresh;
     threads := threads fresh |}.

(** A recording in progress on a POSIX host: Start was clicked and the
    encoder has been spawned. *)
Definition recording : t :=
  after_event false Supervision.ascii_decode 0 Session.Popen_returns
              (click_start hd_desktop fresh).

(** The user stops it, and the signal cannot be sent. *)
Definition stop_failed : t :=
  stop_recording false Supervision.ascii_decode (Some "boom") recording.

(** The user clicks Start again and a second encoder is spawned. *)
Definition started_again : t :=
  after_event false Supervision.ascii_decode 1 Session.Popen_returns
              (click_start hd_desktop stop_failed).

(** A session whose encoder cannot be launched. *)
Definition spawn_failed : t :=
  after_event false Supervision.ascii_decode 0
              (Session.Popen_raises "[WinError 2] file not found")
              (click_start hd_desktop fresh).

(** A session whose encoder exits with status 1 and a diagnostic. *)
Definition encoder_failed : t :=
  after_event false Supervision.ascii_decode 0
    (Session.Communicate_returns (Some (list_byte_of_string "bad option")))
    (after_event false Supervision.ascii_decode 0 (Session.Process_exits 1)
                 recording).

(** A session that ends well. *)
Definition encoder_finished : t :=
  after_event false Supervision.ascii_decode 0
    (Session.Communicate_returns None)
    (after_event false Supervision.ascii_decode 0 (Session.Process_exits 0)
                 recording).

(** The widgets through which the user changes the settings. *)
Definition setting_controls : list Widget :=
  [screen_combo; res_combo; fps_spin; audio_combo; bit_rate_combo;
   output_path_line_edit; output_path_button; region_checkbox].

End Recorder.

(* ================================================================== *)
(** ** The key listener: class [KeyListenerThread] *)

Module KeyListenerThread.

(** [event.event_type]: [keyboard.KEY_DOWN] or [keyboard.KEY_UP]. *)
Inductive EventType : Type := KEY_DOWN | KEY_UP.

(** A [keyboard.KeyboardEvent]; [name] is [None] for a key without a
    name. *)
Record KeyboardEvent : Type := mkKey {
  event_type : EventType;
  name : option string
}.

(** Where [run] stands: not executing, at [while self.running], or
    blocked in [keyboard.read_event()]. *)
Inductive Pc : Type := NotRunning | AtWhile | InRead.

(** The thread object: its control flag, where its [run] stands, and
    the keys [key_pressed] has carried so far. *)
Record t : Type := mk {
  running : bool;
  pc : Pc;
  key_pressed : list string
}.

(** [KeyListenerThread.__init__()]. *)
Definition init : t :=
  {| running := true; pc := NotRunning; key_pressed := [] |}.

(** [event.event_type == keyboard.KEY_DOWN and event.name in
    ['s', 'p', 'u']]. *)
Definition allowed (ev : KeyboardEvent) : bool :=
  match event_type ev, name ev with
  | KEY_DOWN, Some n => existsb (String.eqb n) ["s"; "p"; "u"]
  | _, _ => false
  end.

(** What the body of the loop emits for one event. *)
Definition emits (ev : KeyboardEvent) : list string :=
  match name ev with
  | Some n => if allowed ev then [n] else []
  | None => []
  end.

(** [stop()]. *)
Definition stop (k : t) : t :=
  {| running := false; pc := pc k; key_pressed := key_pressed k |}.

(** [QThread.isRunning()]. *)
Definition isRunning (k : t) : bool :=
  match pc k with NotRunning => false | _ => true end.

(** What can happen to the thread: [start()] is called, [run] evaluates
    the loop condition, [read_event()] returns an event, [stop()] is
    called. *)
Inductive Event : Type :=
| Start
| While
| Read (ev : KeyboardEvent)
| Stop.

(** One event; [None] when it cannot happen.  [start()] on a thread that
    is running does nothing. *)
Definition step (k : t) (e : Event) : option t :=
  match e with
  | Start =>
      match pc k with
      | NotRunning =>
          Some {| running := running k; pc := AtWhile;
                  key_pressed := key_pressed k |}
      | _ => Some k
      end
  | While =>
      match pc k with
      | AtWhile =>
          Some {| running := running k;
                  pc := if running k then InRead else NotRunning;
                  key_pressed := key_pressed k |}
      | _ => None
      end
  | Read ev =>
      match pc k with
      | InRead =>
          Some {| running := running k; pc := AtWhile;
                  key_pressed := key_pressed k ++ emits ev |}
      | _ => None
      end
  | Stop => Some (stop k)
  end.

Fixpoint exec (tr : list Event) (k : t) : option t :=
  match tr with
  | [] => Some k
  | e :: tr' =>
      match step k e with
      | Some k' => exec tr' k'
      | None => None
      end
  end.

(** The keyboard events a trace reads, in order. *)
Fixpoint reads (tr : list Event) : list KeyboardEvent :=
  match tr with
  | [] => []
  | Read ev :: tr' => ev :: reads tr'
  | _ :: tr' => reads tr'
  end.

End KeyListenerThread.

(* ================================================================== *)
(** ** The overlay: class [RecordingOverlay] *)

Module RecordingOverlay.

(** The overlay's attributes: [duration] is the [QTime] in seconds since
    midnight; [timer_active] and [visible] are the state of [self.timer]
    and of the widget. *)
Record t : Type := mk {
  blink : bool;
  duration : Z;
  timer_active : bool;
  visible : bool
}.

(** What [paintEvent] draws. *)
Inductive Draw : Type :=
| Ellipse (x y w h : Z)
| Text (x y : Z) (s : string).

(** [RecordingOverlay.__init__()]. *)
Definition init : t :=
  {| blink := true; duration := 0; timer_active := false; visible := false |}.

Definition start_blinking (o : t) : t :=
  {| blink := true; duration := 0; timer_active := true; visible := true |}.

Definition stop_blinking (o : t) : t :=
  {| blink := blink o; duration := duration o;
     timer_active := false; visible := false |}.

(** [QTime.addSecs(1)]: the time wraps around at midnight. *)
Definition addSecs (d n : Z) : Z := (d + n) mod 86400.

(** [update_overlay()]. *)
Definition update_overlay (o : t) : t :=
  {| blink := blink o; duration := addSecs (duration o) 1;
     timer_active := timer_active o; visible := visible o |}.

(** Two digits, as the format [hh], [mm] and [ss] prints them. *)
Definition two_digits (n : Z) : string :=
  if n <? 10 then ("0" ++ Py.str n)%string else Py.str n.

(** [QTime.toString("hh:mm:ss")]. *)
Definition toString (d : Z) : string :=
  (two_digits (d / 3600) ++ ":" ++ two_digits (d / 60 mod 60) ++ ":"
   ++ two_digits (d mod 60))%string.

(** [paintEvent(event)]: what is drawn, and the overlay afterwards. *)
Definition paintEvent (o : t) : list Draw * t :=
  (List.app (if blink o then [Ellipse 10 15 20 20; Text 40 30 "REC"] else [])
             [Text 100 30 (toString (duration o))],
   {| blink := negb (blink o); duration := duration o;
      timer_active := timer_active o; visible := visible o |}).

(** What happens to a shown overlay: its timer fires, or it is painted. *)
Inductive Event : Type := Timeout | Paint.

(** One event: the overlay afterwards and what was drawn.  A stopped
    timer does not fire. *)
Definition step (o : t) (e : Event) : list Draw * t :=
  match e with
  | Timeout => ([], if timer_active o then update_overlay o else o)
  | Paint => paintEvent o
  end.

(** A sequence of events: every painting, in order, and the overlay
    afterwards. *)
Fixpoint exec (tr : list Event) (o : t) : list (list Draw) * t :=
  match tr with
  | [] => ([], o)
  | e :: tr' =>
      let '(d, o1) := step o e in
      let '(ds, o2) := exec tr' o1 in
      (match e with Paint => d :: ds | Timeout => ds end, o2)
  end.

Definition timeouts (tr : list Event) : Z :=
  Z.of_nat (List.length (filter (fun e => match e with
                                          | Timeout => true
                                          | Paint => false
                                          end) tr)).

Definition paints (tr : list Event) : nat :=
  List.length (filter (fun e => match e with
                                | Paint => true
                                | Timeout => false
                                end) tr).

End RecordingOverlay.

(* ================================================================== *)
(** ** The main window: the remaining slots of [ScreenRecorder] *)

Module MainWindow.

Import ScreenRecorder.

(** [QThread.isRunning()] of an encoder thread: from [start()] until
    [run] has returned. *)
Definition isRunning (s : Session.t) : bool :=
  match Session.phase s with
  | Session.Returned => false
  | _ => true
  end.

(** [save_output_path()], given the path the file dialog returns (empty
    when the user cancels).  The text of the line edit is not kept. *)
Definition save_output_path (chosen : string) (win : t) : t :=
  {| output_path :=
       match chosen with
       | EmptyString => output_path win
       | _ => Some chosen
       end;
     ffmpeg_thread := ffmpeg_thread win;
     capture_rect := capture_rect win;
     capture_rect_global := capture_rect_global win;
     selector := selector win;
     screen_index := screen_index win;
     res_text := res_text win;
     fps_value := fps_value win;
     audio_text := audio_text win;
     bit_rate_text := bit_rate_text win;
     region_checked := region_checked win;
     enabled := enabled win;
     minimized := minimized win;
     overlay_shown := overlay_shown win;
     key_listener_started := key_listener_started win;
     dialogs :=
       match chosen with
       | EmptyString =>
           (dialogs win
            ++ [critical "Error"
                  "No file chosen to save the screen recording"])%list
       | _ => dialogs win
       end;
     log :=
       match chosen with
       | EmptyString =>
           (log win
            ++ [(ERROR, "No file chosen to save the screen recording")])%list
       | _ => log win
       end;
     threads := threads win |}.

(** [select_region()]. *)
Definition select_region (win : t) : t :=
  if region_checked win
  then {| output_path := output_path win;
          ffmpeg_thread := ffmpeg_thread win;
          capture_rect := capture_rect win;
          capture_rect_global := capture_rect_global win;
          selector := Some RegionSelector.init;
          screen_index := screen_index win;
          res_text := res_text win;
          fps_value := fps_value win;
          audio_text := audio_text win;
          bit_rate_text := bit_rate_text win;
          region_checked := region_checked win;
          enabled := setEnabled stop_button true (enable_widgets false);
          minimized := true;
          overlay_shown := overlay_shown win;
          key_listener_started := key_listener_started win;
          dialogs := dialogs win;
          log := log win;
          threads := threads win |}
  else win.

(** The user clicks the region check box, which toggles it and calls
    [select_region] through [stateChanged]. *)
Definition toggle_region (win : t) : t :=
  select_region
    {| output_path := output_path win;
       ffmpeg_thread := ffmpeg_thread win;
       capture_rect := capture_rect win;
       capture_rect_global := capture_rect_global win;
       selector := selector win;
       screen_index := screen_index win;
       res_text := res_text win;
       fps_value := fps_value win;
       audio_text := audio_text win;
       bit_rate_text := bit_rate_text win;
       region_checked := negb (region_checked win);
       enabled := enabled win;
       minimized := minimized win;
       overlay_shown := overlay_shown win;
       key_listener_started := key_listener_started win;
       dialogs := dialogs win;
       log := log win;
       threads := threads win |}.

Section Host.

Variable screenGeometry : Z -> QRect.t.
Variable screen_count : Z.
Variable windows : bool.
Variable decode : list byte -> string.

(** [handle_key(key)] on the window's attributes; [raises] is what
    [send_signal] does if the stop reaches it.  What it prints and logs at
    DEBUG level is given by [Lifecycle.handle_key_aside]. *)
Definition handle_key (raises : option string) (key : string) (win : t) : t :=
  if (key =? "s")%string
  then stop_recording windows decode raises win
  else win.

(** A press on the selector at [a] and a release at [b]: the selector
    emits [regionSelected], which calls [set_region]. *)
Definition select_by_drag (a b : RegionSelector.QMouseEvent) (win : t) : t :=
  match selector win, RegionSelector.drag a b with
  | Some _, Some (rect, global_rect) =>
      set_region screen_count rect global_rect win
  | _, _ => win
  end.

(** What the user and the encoder threads can do to the window. *)
Inductive Op : Type :=
| Click_start
| Click_stop (raises : option string)
| Press_key (raises : option string) (key : string)
| Save_to (chosen : string)
| Toggle_region
| Drag (a b : RegionSelector.QMouseEvent)
| Thread_does (i : nat) (ev : Session.Event).

Definition apply_op (win : t) (op : Op) : t :=
  match op with
  | Click_start => click_start screenGeometry win
  | Click_stop raises =>
      if enabled win stop_button
      then stop_recording windows decode raises win
      else win
  | Press_key raises key => handle_key raises key win
  | Save_to chosen =>
      if enabled win output_path_button
      then save_output_path chosen win
      else win
  | Toggle_region =>
      if enabled win region_checkbox then toggle_region win else win
  | Drag a b => select_by_drag a b win
  | Thread_does i ev => Recorder.after_event windows decode i ev win
  end.

Definition apply_ops (ops : list Op) (win : t) : t :=
  fold_left apply_op ops win.

(** The application: the window and its key listener. *)
Record App : Type := mkApp {
  window : t;
  key_listener : KeyListenerThread.t
}.

(** [closeEvent(event)]: the application afterwards, and whether the
    event was accepted. *)
Definition closeEvent (raises : option string) (a : App) : App * bool :=
  let accept :=
    ({| window :=
          {| output_path := output_path (window a);
             ffmpeg_thread := ffmpeg_thread (window a);
             capture_rect := capture_rect (window a);
             capture_rect_global := capture_rect_global (window a);
             selector := selector (window a);
             screen_index := screen_index (window a);
             res_text := res_text (window a);
             fps_value := fps_value (window a);
             audio_text := audio_text (window a);
             bit_rate_text := bit_rate_text (window a);
             region_checked := region_checked (window a);
             enabled := enabled (window a);
             minimized := minimized (window a);
             overlay_shown := overlay_shown (window a);
             key_listener_started := key_listener_started (window a);
             dialogs := dialogs (window a);
             log := (log (window a) ++ [(INFO, "Application finished.")])%list;
             threads := threads (window a) |};
        key_listener :=
          if KeyListenerThread.isRunning (key_listener a)
          then KeyListenerThread.stop (key_listener a)
          else key_listener a |}, true) in
  match ffmpeg_thread (window a) with
  | None => accept
  | Some i =>
      match nth_error (threads (window a)) i with
      | None => accept
      | Some s =>
          if isRunning s
          then ({| window :=
                     Recorder.after_event windows decode i
                       (Session.Stop_called raises) (window a);
                   key_listener := key_listener a |}, false)
          else accept
      end
  end.

End Host.

End MainWindow.

(* ================================================================== *)
(** ** More vocabulary for sessions and selections *)

Module Lifecycle.

Import Session.

(** The calls of [stop] in a trace that reach a running process and
    whose [send_signal] does not raise. *)
Fixpoint sends_from (running : bool) (tr : list Event) : nat :=
  match tr with
  | [] => O
  | Popen_returns :: tr' => sends_from true tr'
  | Process_exits _ :: tr' => sends_from false tr'
  | Stop_called None :: tr' =>
      ((if running then 1 else 0) + sends_from running tr')%nat
  | _ :: tr' => sends_from running tr'
  end.

Definition sends (tr : list Event) : nat := sends_from false tr.

(** No exception is raised in [run]. *)
Definition run_raises (ev : Event) : bool :=
  match ev with
  | Popen_raises _ | Communicate_raises _ => true
  | _ => false
  end.

(** Until [Popen] has returned there is no handle. *)
Definition fresh_handle (s : t) : Prop :=
  phase s = NotStarted -> FFmpegThread.process (thread s) = None.

(** While the child is alive, [run] is blocked in [communicate()]. *)
Definition blocked_while_alive (s : t) : Prop :=
  alive s = true -> phase s = Communicating.

(** The first and the last character of a string. *)
Definition first_char (s : string) : option ascii :=
  match s with
  | EmptyString => None
  | String c _ => Some c
  end.

Fixpoint last_char (s : string) : option ascii :=
  match s with
  | EmptyString => None
  | String c EmptyString => Some c
  | String _ r => last_char r
  end.

(** The character is not white space. *)
Definition solid (c : option ascii) : Prop :=
  match c with
  | Some a => Py.isspace a = false
  | None => True
  end.

(** A mouse event at the local position [p] on a selector whose top-left
    corner is at [origin] on the desktop. *)
Definition mouse_on (origin p : QPoint) : RegionSelector.QMouseEvent :=
  RegionSelector.mkEvent p (mkQPoint (px origin + px p) (py origin + py p)).

(** A press at [a], any number of moves, and a release at [b]. *)
Definition gesture (w : RegionSelector.t)
           (a : RegionSelector.QMouseEvent)
           (moves : list RegionSelector.QMouseEvent)
           (b : RegionSelector.QMouseEvent)
  : option (QRect.t * QRect.t) :=
  option_map snd
    (RegionSelector.mouseReleaseEvent b
       (fold_left (fun w m => RegionSelector.mouseMoveEvent m w) moves
                  (RegionSelector.mousePressEvent a w))).

(** The window with its list of threads replaced. *)
Definition with_threads (ths : list Session.t) (win : ScreenRecorder.t)
  : ScreenRecorder.t :=
  {| ScreenRecorder.output_path := ScreenRecorder.output_path win;
     ScreenRecorder.ffmpeg_thread := ScreenRecorder.ffmpeg_thread win;
     ScreenRecorder.capture_rect := ScreenRecorder.capture_rect win;
     ScreenRecorder.capture_rect_global :=
       ScreenRecorder.capture_rect_global win;
     ScreenRecorder.selector := ScreenRecorder.selector win;
     ScreenRecorder.screen_index := ScreenRecorder.screen_index win;
     ScreenRecorder.res_text := ScreenRecorder.res_text win;
     ScreenRecorder.fps_value := ScreenRecorder.fps_value win;
     ScreenRecorder.audio_text := ScreenRecorder.audio_text win;
     ScreenRecorder.bit_rate_text := ScreenRecorder.bit_rate_text win;
     ScreenRecorder.region_checked := ScreenRecorder.region_checked win;
     ScreenRecorder.enabled := ScreenRecorder.enabled win;
     ScreenRecorder.minimized := ScreenRecorder.minimized win;
     ScreenRecorder.overlay_shown := ScreenRecorder.overlay_shown win;
     ScreenRecorder.key_listener_started :=
       ScreenRecorder.key_listener_started win;
     ScreenRecorder.dialogs := ScreenRecorder.dialogs win;
     ScreenRecorder.log := ScreenRecorder.log win;
     ScreenRecorder.threads := ths |}.

(** The session of the thread [self.ffmpeg_thread] refers to. *)
Definition current_session (win : ScreenRecorder.t) : option Session.t :=
  match ScreenRecorder.ffmpeg_thread win with
  | Some i => nth_error (ScreenRecorder.threads win) i
  | None => None
  end.

(** The encoder of the current thread is alive. *)
Definition encoder_alive (win : ScreenRecorder.t) : bool :=
  match current_session win with
  | Some s => alive s
  | None => false
  end.

(** The position of the last of [n] threads. *)
Definition last_index (n : nat) : option nat :=
  match n with
  | O => None
  | S m => Some m
  end.

(** [self.ffmpeg_thread] is the thread started last. *)
Definition points_at_last (win : ScreenRecorder.t) : Prop :=
  ScreenRecorder.ffmpeg_thread win
  = last_index (List.length (ScreenRecorder.threads win)).

(** An output path is set. *)
Definition path_set (win : ScreenRecorder.t) : Prop :=
  exists out : string,
    ScreenRecorder.output_path win = Some out /\ out <> EmptyString.

(** What the encoder thread [i] goes through in a session that the user
    stops, or does not stop, and that ends with the exit status [rc]. *)
Definition session_ops (i : nat) (stopped : bool) (rc : Z)
           (stderr : option (list byte)) : list MainWindow.Op :=
  (MainWindow.Thread_does i Popen_returns
   :: (if stopped then [MainWindow.Click_stop None] else [])
   ++ [MainWindow.Thread_does i (Process_exits rc);
       MainWindow.Thread_does i (Communicate_returns stderr)])%list.

(** A painting shows the REC indicator. *)
Definition shows_rec (d : list RecordingOverlay.Draw) : bool :=
  existsb (fun x => match x with
                    | RecordingOverlay.Text _ _ s => String.eqb s "REC"
                    | RecordingOverlay.Ellipse _ _ _ _ => false
                    end) d.

(** [b], not [b], [b], ... : [n] values in all. *)
Fixpoint alternate (b : bool) (n : nat) : list bool :=
  match n with
  | O => []
  | S m => b :: alternate (negb b) m
  end.

(** The window and its invariant under everything that can happen to
    it. *)
Definition settled (win : ScreenRecorder.t) : Prop :=
  path_set win /\ points_at_last win.

(** A listener is started and reads a release of s, a press of x, a
    press of p and a press of s. *)
Definition some_typing : list KeyListenerThread.Event :=
  [KeyListenerThread.Start; KeyListenerThread.While;
   KeyListenerThread.Read
     (KeyListenerThread.mkKey KeyListenerThread.KEY_UP (Some "s"));
   KeyListenerThread.While;
   KeyListenerThread.Read
     (KeyListenerThread.mkKey KeyListenerThread.KEY_DOWN (Some "x"));
   KeyListenerThread.While;
   KeyListenerThread.Read
     (KeyListenerThread.mkKey KeyListenerThread.KEY_DOWN (Some "p"));
   KeyListenerThread.While;
   KeyListenerThread.Read
     (KeyListenerThread.mkKey KeyListenerThread.KEY_DOWN (Some "s"))].

(** The extent of a selection along one axis when the mouse went from
    [a] to [b]: empty when the release is one pixel before the press,
    and otherwise both ends and what lies between. *)
Definition extent (a b : Z) : Z :=
  if b =? a - 1 then 0 else Z.abs (b - a) + 1.

(** Every character of the string is white space. *)
Fixpoint all_space (s : string) : bool :=
  match s with
  | EmptyString => true
  | String c r => Py.isspace c && all_space r
  end.

(** [m] is [text] without the white space at its two ends: [text] is [m]
    between two runs of white space, and [m] neither starts nor ends with
    white space. *)
Definition stripped_of (text m : string) : Prop :=
  exists pre post : string,
    text = (pre ++ m ++ post)%string
    /\ all_space pre = true /\ all_space post = true
    /\ solid (first_char m) /\ solid (last_char m).

(** A trace in which the encoder exits by itself with status 1, up to the
    return of [communicate()], and what it wrote to its standard error. *)
Definition failed_run : list Event := [Popen_returns; Process_exits 1].

Definition noisy_stderr : list byte :=
  list_byte_of_string
    (ScreenRecorder.nl ++ "  Unknown option " ++ ScreenRecorder.nl)%string.

(** What one call of [stop] on a running process adds to the signals
    sent and to the notifications, by the outcome of its send. *)
Definition sent_by (windows : bool) (raises : option string) : list Signal :=
  match raises with
  | None => [FFmpegThread.interrupt windows]
  | Some _ => []
  end.

Definition emitted_by_stop (raises : option string)
  : list (Emitter * Notification) :=
  match raises with
  | None => []
  | Some e => [(InStop, error_occurred ("Failed to stop FFmpeg: " ++ e)%string)]
  end.

(** The double quote. *)
Definition quote : string := String (ascii_of_nat 34) EmptyString.

(** What a slot does besides changing the window's attributes: the lines
    it prints, the lines it logs at DEBUG level, and whether it closes
    the region selector. *)
Record Aside : Type := mkAside {
  printed : list string;
  debug : list string;
  selector_closed : bool
}.

(** [stop_recording()] besides the thread's [stop]:
    [if self.selector: self.selector.close()]. *)
Definition stop_recording_aside (win : ScreenRecorder.t) : Aside :=
  {| printed := []; debug := [];
     selector_closed := match ScreenRecorder.selector win with
                        | Some _ => true
                        | None => false
                        end |}.

(** [handle_key(key)] besides the window: the [print], and for the key s
    what [stop_recording] does and the DEBUG line. *)
Definition handle_key_aside (key : string) (win : ScreenRecorder.t) : Aside :=
  {| printed := [("Key pressed: " ++ key)%string];
     debug := if (key =? "s")%string
              then [("The key " ++ quote ++ "s" ++ quote
                     ++ " was pressed to stop recording")%string]
              else [];
     selector_closed := if (key =? "s")%string
                        then selector_closed (stop_recording_aside win)
                        else false |}.

(** The keys the specification has the listener report for the events it
    reads: the name of every key-down event whose key is s, p or u. *)
Fixpoint presses (evs : list KeyListenerThread.KeyboardEvent) : list string :=
  match evs with
  | [] => []
  | KeyListenerThread.mkKey KeyListenerThread.KEY_DOWN (Some n) :: evs' =>
      if (n =? "s")%string then "s" :: presses evs'
      else if (n =? "p")%string then "p" :: presses evs'
      else if (n =? "u")%string then "u" :: presses evs'
      else presses evs'
  | _ :: evs' => presses evs'
  end.

(** A decimal digit, and a number below 100 in two digits. *)
Definition digit (n : Z) : ascii := ascii_of_N (48 + Z.to_N n).

Definition two (n : Z) : string :=
  String (digit (n / 10)) (String (digit (n mod 10)) EmptyString).

(** The clock [hh:mm:ss] of [d] seconds since midnight. *)
Definition clock (d : Z) : string :=
  (two (d / 3600) ++ ":" ++ two (d / 60 mod 60) ++ ":" ++ two (d mod 60))%string.

(** The clocks the paintings of a trace are to show: for each painting,
    the ticks that came before it, wrapping around after 24 hours. *)
Fixpoint clocks (ticks : Z) (tr : list RecordingOverlay.Event) : list string :=
  match tr with
  | [] => []
  | RecordingOverlay.Timeout :: tr' => clocks (ticks + 1) tr'
  | RecordingOverlay.Paint :: tr' => clock (ticks mod 86400) :: clocks ticks tr'
  end.

(** The texts a painting draws at the place of the clock. *)
Definition clock_shown (d : list RecordingOverlay.Draw) : list string :=
  flat_map (fun x => match x with
                     | RecordingOverlay.Text 100 30 s => [s]
                     | _ => []
                     end) d.

(** The recording window of [Recorder.recording] with its output path
    taken away. *)
Definition pathless : ScreenRecorder.t :=
  {| ScreenRecorder.output_path := None;
     ScreenRecorder.ffmpeg_thread :=
       ScreenRecorder.ffmpeg_thread Recorder.recording;
     ScreenRecorder.capture_rect :=
       ScreenRecorder.capture_rect Recorder.recording;
     ScreenRecorder.capture_rect_global :=
       ScreenRecorder.capture_rect_global Recorder.recording;
     ScreenRecorder.selector := ScreenRecorder.selector Recorder.recording;
     ScreenRecorder.screen_index :=
       ScreenRecorder.screen_index Recorder.recording;
     ScreenRecorder.res_text := ScreenRecorder.res_text Recorder.recording;
     ScreenRecorder.fps_value := ScreenRecorder.fps_value Recorder.recording;
     ScreenRecorder.audio_text := ScreenRecorder.audio_text Recorder.recording;
     ScreenRecorder.bit_rate_text :=
       ScreenRecorder.bit_rate_text Recorder.recording;
     ScreenRecorder.region_checked :=
       ScreenRecorder.region_checked Recorder.recording;
     ScreenRecorder.enabled := ScreenRecorder.enabled Recorder.recording;
     ScreenRecorder.minimized := ScreenRecorder.minimized Recorder.recording;
     ScreenRecorder.overlay_shown :=
       ScreenRecorder.overlay_shown Recorder.recording;
     ScreenRecorder.key_listener_started :=
       ScreenRecorder.key_listener_started Recorder.recording;
     ScreenRecorder.dialogs := ScreenRecorder.dialogs Recorder.recording;
     ScreenRecorder.log := ScreenRecorder.log Recorder.recording;
     ScreenRecorder.threads := ScreenRecorder.threads Recorder.recording |}.

End Lifecycle.

(* ================================================================== *)
(** ** Lemmas on the supervisor *)

Section SupervisorFacts.

Variable windows : bool.
Variable decode : list byte -> string.

#[local] Abbreviation step := (Session.step windows decode).
#[local] Abbreviation exec := (Session.exec windows decode).
#[local] Abbreviation stop := (FFmpegThread.stop windows).

Lemma int_in_acceptable (rc : Z) :
  Py.int_in rc [0; 2; 130] = true <-> Supervision.acceptable rc.
Proof.
  unfold Py.int_in, Supervision.acceptable; cbn [existsb].
  rewrite !orb_true_iff, !Z.eqb_eq. intuition discriminate.
Qed.

Lemma stop_without_process (raises : option string) (th : FFmpegThread.t) :
  FFmpegThread.process th = None -> stop raises th = (th, []).
Proof. intros H. unfold FFmpegThread.stop. now rewrite H. Qed.

Lemma stop_after_exit (raises : option string) (th : FFmpegThread.t)
      (p : Popen) (rc : Z) :
  FFmpegThread.process th = Some p -> returncode p = Some rc ->
  stop raises th = (th, []).
Proof.
  intros H Hrc. unfold FFmpegThread.stop, poll. now rewrite H, Hrc.
Qed.

Lemma stop_not_alive (raises : option string) (s : Session.t) :
  Session.alive s = false -> stop raises (Session.thread s) = (Session.thread s, []).
Proof.
  unfold Session.alive, FFmpegThread.stop.
  destruct (FFmpegThread.process (Session.thread s)) as [p|]; [|reflexivity].
  destruct (poll p); [reflexivity|discriminate].
Qed.

Lemma stop_alive_sets_flag (raises : option string) (s : Session.t) :
  Session.alive s = true ->
  FFmpegThread._stopping (fst (stop raises (Session.thread s))) = true.
Proof.
  unfold Session.alive, FFmpegThread.stop.
  destruct (FFmpegThread.process (Session.thread s)) as [p|]; [|discriminate].
  destruct (poll p); [discriminate|]. now destruct raises.
Qed.

Lemma stop_keeps_liveness (raises : option string) (s : Session.t)
      (th : FFmpegThread.t) (out : list Notification) :
  stop raises (Session.thread s) = (th, out) ->
  forall ph em, Session.alive (Session.mk th ph em) = Session.alive s.
Proof.
  unfold FFmpegThread.stop, Session.alive; cbn.
  destruct (FFmpegThread.process (Session.thread s)) as [p|] eqn:Hp.
  - unfold poll. destruct (returncode p) eqn:Hrc.
    + intros [= <- _] _ _. now rewrite Hp, Hrc.
    + destruct raises; intros [= <- _] _ _; cbn; now rewrite Hrc.
  - intros [= <- _] _ _. now rewrite Hp.
Qed.

(** The flag [_stopping] after a trace is exactly "a stop request reached
    the running process". *)
Lemma exec_stopping (tr : list Session.Event) :
  forall s s' : Session.t,
    exec tr s = Some s' ->
    FFmpegThread._stopping (Session.thread s')
    = FFmpegThread._stopping (Session.thread s)
      || Supervision.stop_requested_from (Session.alive s) tr.
Proof.
  induction tr as [|ev tr IH]; intros s s' H; cbn in H.
  - injection H as <-. cbn. now rewrite orb_false_r.
  - destruct (step s ev) as [s1|] eqn:Hstep; [|discriminate].
    specialize (IH _ _ H). rewrite IH. clear IH H.
    destruct ev; cbn in Hstep |- *.
    + destruct (Session.phase s); try discriminate.
      injection Hstep as <-. reflexivity.
    + destruct (Session.phase s); try discriminate.
      injection Hstep as <-. reflexivity.
    + unfold Session.alive.
      destruct (FFmpegThread.process (Session.thread s)) as [p|];
        [|discriminate].
      destruct (returncode p); [discriminate|].
      injection Hstep as <-. reflexivity.
    + destruct (Session.phase s); try discriminate.
      destruct (Session.exit_status s); [|discriminate].
      injection Hstep as <-. reflexivity.
    + destruct (Session.phase s); try discriminate.
      injection Hstep as <-. reflexivity.
    + destruct (stop raises (Session.thread s)) as [th out] eqn:Hs.
      injection Hstep as <-.
      rewrite (stop_keeps_liveness _ _ _ _ Hs).
      destruct (Session.alive s) eqn:Ha; cbn [Session.thread].
      * pose proof (stop_alive_sets_flag raises _ Ha) as Hf.
        rewrite Hs in Hf. cbn in Hf. rewrite Hf.
        cbn. now rewrite !orb_true_r.
      * pose proof (stop_not_alive raises _ Ha) as Hf.
        rewrite Hs in Hf. injection Hf as -> _. reflexivity.
Qed.

End SupervisorFacts.

Section SessionInvariants.

Variable windows : bool.
Variable decode : list byte -> string.

#[local] Abbreviation step := (Session.step windows decode).
#[local] Abbreviation exec := (Session.exec windows decode).
#[local] Abbreviation stop := (FFmpegThread.stop windows).

Lemma emitted_by_app (e e' : Session.Emitter) (th : FFmpegThread.t)
      (ph : Session.Phase) (em : list (Session.Emitter * Notification))
      (out : list Notification) :
  Session.emitted_by e (Session.mk th ph (em ++ Session.tag e' out))
  = (Session.emitted_by e (Session.mk th ph em)
     ++ match e', e with
        | Session.InRun, Session.InRun
        | Session.InStop, Session.InStop => out
        | _, _ => []
        end)%list.
Proof.
  unfold Session.emitted_by, Session.tag; cbn [Session.emitted].
  rewrite filter_app, map_app. f_equal.
  induction out as [|n out IH]; [now destruct e, e'|].
  destruct e, e'; cbn in *; try rewrite IH; reflexivity.
Qed.

Lemma emitted_by_same (e : Session.Emitter) (th th' : FFmpegThread.t)
      (ph ph' : Session.Phase) (em : list (Session.Emitter * Notification)) :
  Session.emitted_by e (Session.mk th ph em)
  = Session.emitted_by e (Session.mk th' ph' em).
Proof. reflexivity. Qed.

(** What [stop] emits: nothing, or one signal failure when the send
    raises on a running process. *)
Lemma stop_output (raises : option string) (s : Session.t) :
  snd (stop raises (Session.thread s))
  = match raises with
    | Some e => if Session.alive s
                then [error_occurred ("Failed to stop FFmpeg: " ++ e)%string]
                else []
    | None => []
    end.
Proof.
  unfold FFmpegThread.stop, Session.alive.
  destruct (FFmpegThread.process (Session.thread s)) as [p|];
    [|now destruct raises].
  destruct (poll p); now destruct raises.
Qed.

(** One step: [run] emits exactly when it returns, and [stop] emits
    exactly its signal failures. *)
Lemma step_emissions (s s' : Session.t) (ev : Session.Event) :
  step s ev = Some s' ->
  (List.length (Session.emitted_by Session.InRun s') + Supervision.returned s
   = List.length (Session.emitted_by Session.InRun s) + Supervision.returned s')%nat
  /\ (Supervision.returned s <= Supervision.returned s')%nat
  /\ (List.length (Session.emitted_by Session.InStop s')
      = List.length (Session.emitted_by Session.InStop s)
        + Supervision.failed_sends_from (Session.alive s) [ev])%nat
  /\ (Forall Supervision.signal_failure (Session.emitted_by Session.InStop s) ->
      Forall Supervision.signal_failure (Session.emitted_by Session.InStop s')).
Proof.
  destruct s as [th ph em].
  destruct ev; cbn [Session.step Session.phase Session.thread Session.emitted].
  - destruct ph; try discriminate. intros [= <-]. cbn.
    repeat split; auto; lia.
  - destruct ph; try discriminate. intros [= <-].
    unfold Session.finish; cbn [Session.thread Session.emitted].
    change [(Session.InRun, FFmpegThread.run_except e)]
      with (Session.tag Session.InRun [FFmpegThread.run_except e]).
    rewrite !emitted_by_app, !length_app. cbn.
    repeat split; auto; try lia. now rewrite app_nil_r.
  - destruct (FFmpegThread.process th) as [p|]; [|discriminate].
    destruct (returncode p); [discriminate|]. intros [= <-]. cbn.
    repeat split; auto; lia.
  - destruct ph; try discriminate.
    destruct (Session.exit_status _) as [rc|]; [|discriminate].
    intros [= <-].
    unfold Session.finish; cbn [Session.thread Session.emitted].
    change [(Session.InRun, FFmpegThread.run_classify decode th rc stderr)]
      with (Session.tag Session.InRun
              [FFmpegThread.run_classify decode th rc stderr]).
    rewrite !emitted_by_app, !length_app. cbn.
    repeat split; auto; try lia. now rewrite app_nil_r.
  - destruct ph; try discriminate. intros [= <-].
    unfold Session.finish; cbn [Session.thread Session.emitted].
    change [(Session.InRun, FFmpegThread.run_except e)]
      with (Session.tag Session.InRun [FFmpegThread.run_except e]).
    rewrite !emitted_by_app, !length_app. cbn.
    repeat split; auto; try lia. now rewrite app_nil_r.
  - pose proof (stop_output raises (Session.mk th ph em)) as Hout.
    cbn [Session.thread] in Hout.
    destruct (stop raises th) as [th' out]. cbn [snd] in Hout.
    intros [= <-]. rewrite !emitted_by_app, !length_app.
    rewrite (emitted_by_same _ th' th ph ph em).
    rewrite (emitted_by_same Session.InStop th' th ph ph em).
    subst out. unfold Supervision.returned.
    cbn [Session.phase Supervision.failed_sends_from List.length].
    repeat split; try lia.
    + destruct raises as [e|]; [|cbn; lia].
      destruct (Session.alive _); cbn; lia.
    + intros HF. apply Forall_app; split; [exact HF|].
      destruct raises as [e|]; [|constructor].
      destruct (Session.alive _); constructor; [|constructor].
      now exists e.
Qed.

(** Which events change whether the child is alive. *)
Lemma step_alive (s s' : Session.t) (ev : Session.Event) :
  step s ev = Some s' ->
  Session.alive s' = match ev with
                     | Session.Popen_returns => true
                     | Session.Process_exits _ => false
                     | _ => Session.alive s
                     end.
Proof.
  destruct ev; cbn [Session.step].
  - destruct (Session.phase s); try discriminate. now intros [= <-].
  - destruct (Session.phase s); try discriminate. now intros [= <-].
  - destruct (FFmpegThread.process (Session.thread s)) as [p|];
      [|discriminate].
    destruct (returncode p); [discriminate|]. now intros [= <-].
  - destruct (Session.phase s); try discriminate.
    destruct (Session.exit_status s); [|discriminate]. now intros [= <-].
  - destruct (Session.phase s); try discriminate. now intros [= <-].
  - destruct (stop raises (Session.thread s)) as [th out] eqn:Hs.
    intros [= <-]. apply (stop_keeps_liveness _ _ _ _ _ Hs).
Qed.

Lemma failed_sends_cons (b : bool) (ev : Session.Event)
      (tr : list Session.Event) :
  Supervision.failed_sends_from b (ev :: tr)
  = (Supervision.failed_sends_from b [ev]
     + Supervision.failed_sends_from
         match ev with
         | Session.Popen_returns => true
         | Session.Process_exits _ => false
         | _ => b
         end tr)%nat.
Proof.
  destruct ev; cbn; try reflexivity.
  destruct raises; cbn; [lia|reflexivity].
Qed.

(** A whole trace: [run] has emitted once if it has returned and nothing
    otherwise; [stop] has emitted one signal failure for each send that
    raised. *)
Lemma exec_emissions (tr : list Session.Event) :
  forall s s' : Session.t,
    exec tr s = Some s' ->
    (List.length (Session.emitted_by Session.InRun s') + Supervision.returned s
     = List.length (Session.emitted_by Session.InRun s)
       + Supervision.returned s')%nat
    /\ (List.length (Session.emitted_by Session.InStop s')
        = List.length (Session.emitted_by Session.InStop s)
          + Supervision.failed_sends_from (Session.alive s) tr)%nat
    /\ (Forall Supervision.signal_failure (Session.emitted_by Session.InStop s) ->
        Forall Supervision.signal_failure (Session.emitted_by Session.InStop s')).
Proof.
  induction tr as [|ev tr IH]; intros s s' H; cbn [Session.exec] in H.
  - injection H as <-. cbn. repeat split; auto; lia.
  - destruct (step s ev) as [s1|] eqn:Hstep; [|discriminate].
    destruct (step_emissions _ _ _ Hstep) as (R1 & _ & S1 & F1).
    destruct (IH _ _ H) as (R2 & S2 & F2).
    rewrite failed_sends_cons, <- (step_alive _ _ _ Hstep).
    repeat split; auto; lia.
Qed.

(** The total number of notifications is the sum over the emitters. *)
Lemma emitted_split (s : Session.t) :
  List.length (Session.emitted s)
  = (List.length (Session.emitted_by Session.InRun s)
     + List.length (Session.emitted_by Session.InStop s))%nat.
Proof.
  unfold Session.emitted_by. rewrite !length_map.
  induction (Session.emitted s) as [|[[] n] l IH]; cbn; lia.
Qed.

End SessionInvariants.

(* ================================================================== *)
(** ** Lemmas on [strip] *)

Lemma lstrip_first (s : string) :
  Lifecycle.solid (Lifecycle.first_char (Py.lstrip s)).
Proof.
  induction s as [|c s IH]; cbn; [exact I|].
  destruct (Py.isspace c) eqn:E; [exact IH|exact E].
Qed.

Lemma lstrip_fixed (s : string) :
  Lifecycle.solid (Lifecycle.first_char s) -> Py.lstrip s = s.
Proof. destruct s as [|c s]; cbn; [reflexivity|]. now intros ->. Qed.

Lemma rstrip_first (s : string) :
  Lifecycle.solid (Lifecycle.first_char s) ->
  Lifecycle.solid (Lifecycle.first_char (Py.rstrip s)).
Proof.
  destruct s as [|c s]; cbn; [trivial|]. intros H.
  destruct (Py.rstrip s); [now rewrite H|exact H].
Qed.

Lemma rstrip_last (s : string) :
  Lifecycle.solid (Lifecycle.last_char (Py.rstrip s)).
Proof.
  induction s as [|c s IH]; cbn [Py.rstrip]; [exact I|].
  destruct (Py.rstrip s) as [|d r].
  - destruct (Py.isspace c) eqn:E; [exact I|exact E].
  - exact IH.
Qed.

Lemma rstrip_fixed (s : string) :
  Lifecycle.solid (Lifecycle.last_char s) -> Py.rstrip s = s.
Proof.
  induction s as [|c s IH]; [reflexivity|].
  cbn [Lifecycle.last_char Py.rstrip]. destruct s as [|d r].
  - cbn. now intros ->.
  - intros H. now rewrite (IH H).
Qed.

Lemma strip_fixed (s : string) : Py.strip (Py.strip s) = Py.strip s.
Proof.
  unfold Py.strip.
  rewrite (lstrip_fixed (Py.rstrip (Py.lstrip s)));
    [|apply rstrip_first, lstrip_first].
  apply rstrip_fixed, rstrip_last.
Qed.

Lemma lstrip_split (s : string) :
  exists pre : string,
    s = (pre ++ Py.lstrip s)%string /\ Lifecycle.all_space pre = true.
Proof.
  induction s as [|c s (pre & H1 & H2)]; [now exists EmptyString|].
  cbn [Py.lstrip]. destruct (Py.isspace c) eqn:E.
  - exists (String c pre). cbn. rewrite E, H2. split; [now f_equal|reflexivity].
  - now exists EmptyString.
Qed.

Lemma rstrip_split (s : string) :
  exists post : string,
    s = (Py.rstrip s ++ post)%string /\ Lifecycle.all_space post = true.
Proof.
  induction s as [|c s (post & H1 & H2)]; [now exists EmptyString|].
  cbn [Py.rstrip]. destruct (Py.rstrip s) as [|d r].
  - cbn in H1. subst s. destruct (Py.isspace c) eqn:E.
    + exists (String c post). cbn. now rewrite E, H2.
    + now exists post.
  - exists post. cbn. split; [now f_equal|exact H2].
Qed.

(** [strip] takes away white space at the two ends and nothing else. *)
Lemma strip_stripped_of (s : string) : Lifecycle.stripped_of s (Py.strip s).
Proof.
  destruct (lstrip_split s) as (pre & H1 & H2).
  destruct (rstrip_split (Py.lstrip s)) as (post & H3 & H4).
  exists pre, post. unfold Py.strip. repeat split; auto.
  - now rewrite <- H3.
  - apply rstrip_first, lstrip_first.
  - apply rstrip_last.
Qed.

(* ================================================================== *)
(** ** Theorems on the supervisor *)

(** C1. Exit classification.  In every session, when [communicate()]
    returns, [run] emits one notification: [finished] if a stop request
    reached the process before it exited, whatever the exit status; without
    such a request, [finished] for an exit status 0, 2 or 130, and
    otherwise [error_occurred] with the captured standard-error text,
    stripped: the decoded bytes without the white space at their two ends,
    and the empty text when nothing was captured. *)
Theorem exit_classification
        (windows : bool) (decode : list byte -> string) (c : list string)
        (tr : list Session.Event) (s s' : Session.t)
        (stderr : option (list byte)) :
  Session.exec windows decode tr (Session.init c) = Some s ->
  Session.step windows decode s (Session.Communicate_returns stderr) = Some s' ->
  exists (rc : Z) (n : Notification),
    Session.exit_status s = Some rc
    /\ Session.emitted s' = (Session.emitted s ++ [(Session.InRun, n)])%list
    /\ FFmpegThread._stopping (Session.thread s) = Supervision.stop_requested tr
    /\ (Supervision.stop_requested tr = true -> n = finished)
    /\ (Supervision.stop_requested tr = false -> Supervision.acceptable rc ->
        n = finished)
    /\ (Supervision.stop_requested tr = false -> ~ Supervision.acceptable rc ->
        n = error_occurred
              (Py.strip (FFmpegThread.stderr_output decode stderr))
        /\ exists msg : string,
             n = error_occurred msg
             /\ (stderr = None \/ stderr = Some [] -> msg = EmptyString)
             /\ (forall captured : list byte,
                   stderr = Some captured -> captured <> [] ->
                   Lifecycle.stripped_of (decode captured) msg)).
Proof.
  intros Hexec Hstep.
  pose proof (exec_stopping windows decode tr _ _ Hexec) as Hflag.
  cbn in Hflag. fold (Supervision.stop_requested tr) in Hflag.
  cbn [Session.step] in Hstep.
  destruct (Session.phase s); try discriminate.
  destruct (Session.exit_status s) as [rc|]; [|discriminate].
  injection Hstep as <-.
  exists rc, (FFmpegThread.run_classify decode (Session.thread s) rc stderr).
  split; [reflexivity|]. split; [reflexivity|]. split; [exact Hflag|].
  unfold FFmpegThread.run_classify; rewrite Hflag.
  split; [|split].
  - now intros ->.
  - intros -> Hacc. apply int_in_acceptable in Hacc. now rewrite Hacc.
  - intros -> Hacc.
    destruct (Py.int_in rc [0; 2; 130]) eqn:E;
      [apply int_in_acceptable in E; contradiction|].
    cbn [negb]. split; [reflexivity|].
    eexists. split; [reflexivity|]. split.
    + intros [->| ->]; reflexivity.
    + intros captured -> Hne. destruct captured as [|b bs]; [contradiction|].
      cbn [FFmpegThread.stderr_output]. apply strip_stripped_of.
Qed.

(** C1 at a concrete session: the encoder exits by itself with status 1
    and has written a diagnostic between blank lines. *)
Lemma exit_classification_witness :
  Session.emitted
    (Supervision.after false Supervision.ascii_decode
       (Lifecycle.failed_run
        ++ [Session.Communicate_returns (Some Lifecycle.noisy_stderr)])
       ["ffmpeg"])
  = [(Session.InRun, error_occurred "Unknown option")]
  /\ Lifecycle.stripped_of
       (Supervision.ascii_decode Lifecycle.noisy_stderr) "Unknown option".
Proof.
  destruct (exit_classification false Supervision.ascii_decode ["ffmpeg"]
              Lifecycle.failed_run
              (Supervision.after false Supervision.ascii_decode
                 Lifecycle.failed_run ["ffmpeg"])
              (Supervision.after false Supervision.ascii_decode
                 (Lifecycle.failed_run
                  ++ [Session.Communicate_returns
                        (Some Lifecycle.noisy_stderr)])
                 ["ffmpeg"])
              (Some Lifecycle.noisy_stderr) eq_refl eq_refl)
    as (rc & n & Hrc & Hem & _ & _ & _ & Hfail).
  change (Some 1 = Some rc) in Hrc. injection Hrc as <-.
  assert (Hno : ~ Supervision.acceptable 1)
    by (intros [H|[H|H]]; discriminate H).
  destruct (Hfail eq_refl Hno) as (Hn & msg & Hm & _ & Hst).
  rewrite Hn in Hm. injection Hm as <-. split.
  - rewrite Hem, Hn. reflexivity.
  - apply (Hst Lifecycle.noisy_stderr eq_refl). discriminate.
Defined.

(** C2, as the code has it.  [stop] does nothing when no process is
    running.  A pending stop does not hold it back: every call made while
    the process runs sets the flag and makes one send, which sends one
    interrupt signal and emits nothing, or, if it raises, sends nothing
    and emits [error_occurred].  So two successive calls on a running
    process whose sends do not raise send two signals, emit nothing and
    leave the flag set. *)
Theorem stop_sends_one_signal_per_call
        (windows : bool) (decode : list byte -> string) (s : Session.t) :
  (Session.alive s = false ->
   forall raises : option string,
     Session.step windows decode s (Session.Stop_called raises) = Some s)
  /\ (Session.alive s = true ->
      forall r1 r2 : option string,
      exists s2 : Session.t,
        Session.exec windows decode
          [Session.Stop_called r1; Session.Stop_called r2] s = Some s2
        /\ Session.signals s2
           = (Session.signals s ++ Lifecycle.sent_by windows r1
              ++ Lifecycle.sent_by windows r2)%list
        /\ FFmpegThread._stopping (Session.thread s2) = true
        /\ Session.alive s2 = true
        /\ Session.emitted s2
           = (Session.emitted s ++ Lifecycle.emitted_by_stop r1
              ++ Lifecycle.emitted_by_stop r2)%list
        /\ Session.phase s2 = Session.phase s)
  /\ (Session.alive s = true ->
      exists s2 : Session.t,
        Session.exec windows decode
          [Session.Stop_called None; Session.Stop_called None] s = Some s2
        /\ Session.signals s2
           = (Session.signals s
              ++ [FFmpegThread.interrupt windows;
                  FFmpegThread.interrupt windows])%list
        /\ FFmpegThread._stopping (Session.thread s2) = true
        /\ Session.alive s2 = true
        /\ Session.emitted s2 = Session.emitted s
        /\ Session.phase s2 = Session.phase s).
Proof.
  split; [|split].
  - intros Ha raises. cbn [Session.step].
    rewrite (stop_not_alive windows raises s Ha).
    destruct s as [th ph em]; cbn. now rewrite app_nil_r.
  - destruct s as [[c pr fl] ph em].
    unfold Session.alive, Session.signals; cbn.
    destruct pr as [[rc rcv]|]; [|discriminate].
    unfold FFmpegThread.stop, poll; cbn.
    destruct rc; [discriminate|]. intros _ r1 r2.
    destruct r1, r2; (eexists; split; [reflexivity|]); cbn;
      rewrite <- ?app_assoc, ?app_nil_r; repeat split.
  - destruct s as [[c pr fl] ph em].
    unfold Session.alive, Session.signals; cbn.
    destruct pr as [[rc rcv]|]; [|discriminate].
    unfold FFmpegThread.stop, poll; cbn.
    destruct rc; [discriminate|]. intros _.
    eexists; split; [reflexivity|]. cbn.
    rewrite <- !app_assoc, !app_nil_r. repeat split.
Qed.

(** C2 at a concrete session: two calls of [stop] on a started encoder,
    first with sends that succeed, then with a first send that raises. *)
Lemma stop_sends_one_signal_per_call_witness :
  (exists s2 : Session.t,
     Session.exec false Supervision.ascii_decode
       [Session.Stop_called None; Session.Stop_called None] Supervision.started
     = Some s2
     /\ Session.signals s2
        = (Session.signals Supervision.started
           ++ [FFmpegThread.interrupt false; FFmpegThread.interrupt false])%list
     /\ FFmpegThread._stopping (Session.thread s2) = true
     /\ Session.alive s2 = true
     /\ Session.emitted s2 = Session.emitted Supervision.started
     /\ Session.phase s2 = Session.phase Supervision.started)
  /\ (exists s2 : Session.t,
        Session.exec false Supervision.ascii_decode
          [Session.Stop_called (Some "denied"); Session.Stop_called None]
          Supervision.started
        = Some s2
        /\ Session.signals s2 = [SIGINT]
        /\ Session.emitted s2
           = [(Session.InStop,
               error_occurred "Failed to stop FFmpeg: denied")]).
Proof.
  split.
  - apply (proj2 (proj2 (stop_sends_one_signal_per_call
                           false Supervision.ascii_decode
                           Supervision.started))).
    reflexivity.
  - destruct (proj1 (proj2 (stop_sends_one_signal_per_call
                              false Supervision.ascii_decode
                              Supervision.started))
                    eq_refl (Some "denied") None)
      as (s2 & H1 & H2 & _ & _ & H3 & _).
    exists s2. split; [exact H1|]. split; [exact H2|exact H3].
Defined.

(** C2 fails as stated: with a stop already pending on a running encoder,
    a second call of [stop] is not a no-op, and the two calls have sent two
    interrupt signals, not one. *)
Lemma stop_twice_counterexample :
  Session.alive Supervision.stop_pending = true
  /\ FFmpegThread._stopping (Session.thread Supervision.stop_pending) = true
  /\ Session.step false Supervision.ascii_decode Supervision.stop_pending
       (Session.Stop_called None) = Some Supervision.stopped_twice
  /\ Supervision.stopped_twice <> Supervision.stop_pending
  /\ Session.signals Supervision.started = []
  /\ Session.signals Supervision.stopped_twice = [SIGINT; SIGINT]
  /\ List.length (Session.signals Supervision.stopped_twice) <> 1%nat.
Proof.
  repeat split; try reflexivity; cbv; discriminate.
Qed.

(** C3, as the code has it.  In every session [run] emits nothing before
    it returns and exactly one notification once it has returned; [stop]
    emits one [error_occurred] for each send that raises on the running
    process and nothing else.  So a session in which no send raised ends
    with exactly one notification, and the others with one more for each
    failed send. *)
Theorem run_emits_exactly_once
        (windows : bool) (decode : list byte -> string) (c : list string)
        (tr : list Session.Event) (s : Session.t) :
  Session.exec windows decode tr (Session.init c) = Some s ->
  (Session.phase s <> Session.Returned ->
   Session.emitted_by Session.InRun s = [])
  /\ (Session.phase s = Session.Returned ->
      exists n : Notification, Session.emitted_by Session.InRun s = [n])
  /\ Forall Supervision.signal_failure (Session.emitted_by Session.InStop s)
  /\ List.length (Session.emitted_by Session.InStop s) = Supervision.failed_sends tr
  /\ List.length (Session.emitted s)
     = (Supervision.returned s + Supervision.failed_sends tr)%nat
  /\ (Session.phase s = Session.Returned -> Supervision.failed_sends tr = 0%nat ->
      Supervision.exactly_one_notification s).
Proof.
  intros Hexec.
  destruct (exec_emissions windows decode tr _ _ Hexec) as (R & S & F).
  cbn in R, S. specialize (F (Forall_nil _)).
  fold (Supervision.failed_sends tr) in S.
  assert (Hrun : List.length (Session.emitted_by Session.InRun s)
                 = Supervision.returned s) by lia.
  assert (Htot : List.length (Session.emitted s)
                 = (Supervision.returned s + Supervision.failed_sends tr)%nat)
    by (rewrite emitted_split; lia).
  unfold Supervision.returned in *.
  repeat split; auto.
  - intros Hph. destruct (Session.phase s); try contradiction;
      now apply length_zero_iff_nil.
  - intros Hph. rewrite Hph in Hrun.
    destruct (Session.emitted_by Session.InRun s) as [|n [|m l]];
      try discriminate. now exists n.
  - intros Hph H0. rewrite Hph, H0 in Htot. unfold Supervision.exactly_one_notification.
    rewrite <- (length_map snd) in Htot.
    destruct (map snd (Session.emitted s)) as [|n [|m l]]; try discriminate.
    now exists n.
Qed.

(** C3 at a concrete session: the encoder is started and exits by itself
    with status 1. *)
Lemma run_emits_exactly_once_witness :
  Supervision.exactly_one_notification
    (Supervision.after true Supervision.ascii_decode
       [Session.Popen_returns; Session.Process_exits 1;
        Session.Communicate_returns None] ["ffmpeg"]).
Proof.
  refine (proj2 (proj2 (proj2 (proj2 (proj2
            (run_emits_exactly_once true Supervision.ascii_decode ["ffmpeg"]
               [Session.Popen_returns; Session.Process_exits 1;
                Session.Communicate_returns None] _ eq_refl))))) eq_refl eq_refl).
Defined.

(** C3 fails as stated: when the send raises, [stop] emits
    [error_occurred] and [run] later emits [finished], so the session ends
    with both notifications. *)
Lemma both_notifications_counterexample :
  Session.phase Supervision.send_raised = Session.Returned
  /\ Session.emitted Supervision.send_raised
     = [(Session.InStop, error_occurred "Failed to stop FFmpeg: boom");
        (Session.InRun, finished)]
  /\ ~ Supervision.exactly_one_notification Supervision.send_raised.
Proof.
  repeat split. intros [n H]. discriminate H.
Qed.

(** C10. A call of [stop] while no process is alive, before the handle
    exists or after the process has exited, changes nothing: the flag
    stays as it was, no signal is sent, nothing is emitted, and the session
    goes on as if the call had not been made.  After such an early call
    the exit is classified by the exit status alone. *)
Theorem stop_without_live_process_is_dropped
        (windows : bool) (decode : list byte -> string) (s : Session.t)
        (raises : option string) :
  Session.alive s = false ->
  FFmpegThread.stop windows raises (Session.thread s) = (Session.thread s, [])
  /\ Session.step windows decode s (Session.Stop_called raises) = Some s
  /\ (forall tr : list Session.Event,
        Session.exec windows decode (Session.Stop_called raises :: tr) s
        = Session.exec windows decode tr s)
  /\ (forall (c : list string) (rc : Z) (stderr : option (list byte)),
        exists s' : Session.t,
          Session.exec windows decode
            [Session.Stop_called raises; Session.Popen_returns;
             Session.Process_exits rc; Session.Communicate_returns stderr]
            (Session.init c) = Some s'
          /\ FFmpegThread._stopping (Session.thread s') = false
          /\ Session.signals s' = []
          /\ (Supervision.acceptable rc ->
              Session.emitted s' = [(Session.InRun, finished)])
          /\ (~ Supervision.acceptable rc ->
              Session.emitted s'
              = [(Session.InRun,
                  error_occurred
                    (Py.strip (FFmpegThread.stderr_output decode stderr)))])).
Proof.
  intros Ha.
  assert (Hstep : Session.step windows decode s (Session.Stop_called raises)
                  = Some s).
  { cbn [Session.step]. rewrite (stop_not_alive windows raises s Ha).
    destruct s as [th ph em]; cbn. now rewrite app_nil_r. }
  repeat split.
  - now apply stop_not_alive.
  - exact Hstep.
  - intros tr. cbn [Session.exec]. now rewrite Hstep.
  - intros c rc stderr. eexists; split; [reflexivity|].
    cbn -[Py.int_in Py.strip FFmpegThread.stderr_output].
    repeat split.
    + intros Hacc. apply int_in_acceptable in Hacc. now rewrite Hacc.
    + intros Hacc. destruct (Py.int_in rc [0; 2; 130]) eqn:E; [|reflexivity].
      apply int_in_acceptable in E. contradiction.
Qed.

(** C10 at a concrete session: [stop] is called on a thread whose [run]
    has not reached [Popen] yet. *)
Lemma stop_without_live_process_is_dropped_witness :
  FFmpegThread.stop true (Some "boom")
    (Session.thread (Session.init ["ffmpeg"]))
  = (Session.thread (Session.init ["ffmpeg"]), [])
  /\ Session.step true Supervision.ascii_decode (Session.init ["ffmpeg"])
       (Session.Stop_called (Some "boom")) = Some (Session.init ["ffmpeg"]).
Proof.
  pose proof (stop_without_live_process_is_dropped true Supervision.ascii_decode
                (Session.init ["ffmpeg"]) (Some "boom") eq_refl) as H.
  exact (conj (proj1 H) (proj1 (proj2 H))).
Defined.

(* ================================================================== *)
(** ** Lemmas on the geometry *)

Section GeometryFacts.

Import ScreenRecorder.

Variable screenGeometry : Z -> QRect.t.

Lemma even_up_even (n : Z) : Z.even n = true -> even_up n = n.
Proof. intros H. unfold even_up. now rewrite Zmod_even, H. Qed.

Lemma even_up_odd (n : Z) : Z.odd n = true -> even_up n = n + 1.
Proof.
  intros H. unfold even_up. rewrite Zmod_odd, H. reflexivity.
Qed.

Lemma even_up_is_even (n : Z) : Z.even (even_up n) = true.
Proof.
  unfold even_up. rewrite Zmod_even.
  destruct (Z.even n) eqn:E; cbn [Z.eqb]; [exact E|].
  rewrite Z.even_add, E. reflexivity.
Qed.

Lemma even_up_idempotent (n : Z) : even_up (even_up n) = even_up n.
Proof. apply even_up_even, even_up_is_even. Qed.

(** A true rectangle is one of positive width and height. *)
Lemma truth_iff_positive (r : QRect.t) :
  QRect.truth r = true <-> 0 < QRect.width r /\ 0 < QRect.height r.
Proof.
  unfold QRect.truth, QRect.isValid, QRect.width, QRect.height.
  rewrite andb_true_iff, !Z.leb_le. lia.
Qed.

(** The geometry [start_recording] resolves, by cases on the stored
    rectangle. *)
Lemma resolve_region (win : t) (r : QRect.t) :
  capture_rect_global win = Some r -> QRect.truth r = true ->
  resolve screenGeometry win
  = ({| offset_x := QRect.x r; offset_y := QRect.y r;
        resolution := format_resolution (even_up (QRect.width r))
                                        (even_up (QRect.height r)) |},
     None).
Proof. intros H Ht. unfold resolve. now rewrite H, Ht. Qed.

Lemma resolve_no_region (win : t) :
  Recorder.no_region win ->
  resolve screenGeometry win
  = (Recorder.combo_geometry screenGeometry win, capture_rect_global win).
Proof.
  unfold Recorder.no_region, resolve.
  destruct (capture_rect_global win) as [r|]; [|reflexivity].
  intros H. destruct (QRect.truth r) eqn:Ht; [|reflexivity].
  apply truth_iff_positive in Ht. lia.
Qed.

(** The command begins with the capture input stage. *)
Lemma build_cmd_head (g : Geometry) (fps dev br out : string) :
  exists rest : list string,
    build_cmd g fps dev br out
    = (["ffmpeg"; "-f"; "gdigrab"; "-framerate"; fps;
        "-offset_x"; Py.str (offset_x g); "-offset_y"; Py.str (offset_y g);
        "-video_size"; resolution g; "-i"; "desktop"] ++ rest)%list.
Proof.
  unfold build_cmd. destruct (negb (dev =? "None")%string);
    eexists; cbn; reflexivity.
Qed.

(** What [start_recording] does once the output path is set. *)
Lemma start_recording_proceeds (win : t) (out : string) :
  output_path win = Some out -> out <> EmptyString ->
  threads (start_recording screenGeometry win)
  = (threads win ++ [Session.init (built_cmd screenGeometry win out)])%list
  /\ capture_rect_global (start_recording screenGeometry win)
     = snd (resolve screenGeometry win)
  /\ ffmpeg_thread (start_recording screenGeometry win)
     = Some (List.length (threads win))
  /\ dialogs (start_recording screenGeometry win) = dialogs win
  /\ log (start_recording screenGeometry win) = log win
  /\ enabled (start_recording screenGeometry win)
     = setEnabled stop_button true (enable_widgets false).
Proof.
  intros H Hne. unfold start_recording. rewrite H.
  destruct out; [contradiction|]. cbn. repeat split.
Qed.

End GeometryFacts.

(* ================================================================== *)
(** ** Theorems on the capture geometry *)

(** C4. Even alignment.  For every selected global rectangle the resolved
    offsets are its top-left corner; an odd width (height) is increased by
    one and an even one is kept; the result is even and aligning it again
    changes nothing; and the rectangle at (100,50) of width and height 201
    resolves to offsets 100 and 50 and the size 202x202, which the command
    carries. *)
Theorem region_even_alignment
        (screenGeometry : Z -> QRect.t) (win : ScreenRecorder.t)
        (r : QRect.t) :
  ScreenRecorder.capture_rect_global win = Some r ->
  QRect.truth r = true ->
  let g := ScreenRecorder.region_geometry r in
  fst (ScreenRecorder.resolve screenGeometry win)
  = {| ScreenRecorder.offset_x := ScreenRecorder.offsetX g;
       ScreenRecorder.offset_y := ScreenRecorder.offsetY g;
       ScreenRecorder.resolution :=
         ScreenRecorder.format_resolution (ScreenRecorder.width g)
                                          (ScreenRecorder.height g) |}
  /\ ScreenRecorder.offsetX g = QRect.x1 r
  /\ ScreenRecorder.offsetY g = QRect.y1 r
  /\ (Z.odd (QRect.width r) = true ->
      ScreenRecorder.width g = QRect.width r + 1)
  /\ (Z.even (QRect.width r) = true ->
      ScreenRecorder.width g = QRect.width r)
  /\ (Z.odd (QRect.height r) = true ->
      ScreenRecorder.height g = QRect.height r + 1)
  /\ (Z.even (QRect.height r) = true ->
      ScreenRecorder.height g = QRect.height r)
  /\ Z.even (ScreenRecorder.width g) = true
  /\ Z.even (ScreenRecorder.height g) = true
  /\ ScreenRecorder.region_geometry
       (QRect.of_size (ScreenRecorder.offsetX g) (ScreenRecorder.offsetY g)
                      (ScreenRecorder.width g) (ScreenRecorder.height g)) = g
  /\ ScreenRecorder.region_geometry (QRect.of_size 100 50 201 201)
     = {| ScreenRecorder.offsetX := 100; ScreenRecorder.offsetY := 50;
          ScreenRecorder.width := 202; ScreenRecorder.height := 202 |}
  /\ ScreenRecorder.region_geometry
       (QRect.of_points (mkQPoint 100 50) (mkQPoint 301 251))
     = {| ScreenRecorder.offsetX := 100; ScreenRecorder.offsetY := 50;
          ScreenRecorder.width := 202; ScreenRecorder.height := 202 |}
  /\ (forall out : string,
        exists rest : list string,
          ScreenRecorder.built_cmd screenGeometry win out
          = (["ffmpeg"; "-f"; "gdigrab";
              "-framerate"; Py.str (ScreenRecorder.fps_value win);
              "-offset_x"; Py.str (ScreenRecorder.offsetX g);
              "-offset_y"; Py.str (ScreenRecorder.offsetY g);
              "-video_size";
              ScreenRecorder.format_resolution (ScreenRecorder.width g)
                                               (ScreenRecorder.height g);
              "-i"; "desktop"] ++ rest)%list).
Proof.
  intros H Ht g. subst g. unfold ScreenRecorder.region_geometry.
  cbn [ScreenRecorder.offsetX ScreenRecorder.offsetY ScreenRecorder.width
       ScreenRecorder.height].
  unfold ScreenRecorder.built_cmd.
  rewrite (resolve_region screenGeometry win r H Ht).
  repeat split; [| | | | | | |intros out; apply build_cmd_head].
  - apply even_up_odd.
  - apply even_up_even.
  - apply even_up_odd.
  - apply even_up_even.
  - apply even_up_is_even.
  - apply even_up_is_even.
  - unfold QRect.of_size, QRect.x, QRect.y, QRect.width, QRect.height.
    cbn [QRect.x1 QRect.y1 QRect.x2 QRect.y2].
    replace (QRect.x1 r + ScreenRecorder.even_up (QRect.x2 r - QRect.x1 r + 1)
             - 1 - QRect.x1 r + 1)
      with (ScreenRecorder.even_up (QRect.x2 r - QRect.x1 r + 1)) by lia.
    replace (QRect.y1 r + ScreenRecorder.even_up (QRect.y2 r - QRect.y1 r + 1)
             - 1 - QRect.y1 r + 1)
      with (ScreenRecorder.even_up (QRect.y2 r - QRect.y1 r + 1)) by lia.
    now rewrite !even_up_idempotent.
Qed.

(** C4 at the scenario's rectangle, stored by [set_region] in a fresh
    window. *)
Lemma region_even_alignment_witness :
  fst (ScreenRecorder.resolve Recorder.hd_desktop
         (Recorder.with_region (QRect.of_size 100 50 201 201)))
  = {| ScreenRecorder.offset_x := 100; ScreenRecorder.offset_y := 50;
       ScreenRecorder.resolution := "202x202" |}.
Proof.
  exact (proj1 (region_even_alignment Recorder.hd_desktop
                  (Recorder.with_region (QRect.of_size 100 50 201 201))
                  (QRect.of_size 100 50 201 201) eq_refl eq_refl)).
Defined.

(** C7, as the code has it.  When no region is stored, or the stored
    rectangle has zero width or zero height, the capture falls back to the
    chosen screen: the offset is the screen's origin, taken from the
    display, and the size is the text of the resolution combo box, which
    is one of its three items and so never a zero area. *)
Theorem fallback_uses_combo_resolution
        (screenGeometry : Z -> QRect.t) (win : ScreenRecorder.t) :
  Recorder.no_region win ->
  In (ScreenRecorder.res_text win) ScreenRecorder.res_items ->
  fst (ScreenRecorder.resolve screenGeometry win)
  = {| ScreenRecorder.offset_x :=
         QRect.x (screenGeometry (ScreenRecorder.screen_index win));
       ScreenRecorder.offset_y :=
         QRect.y (screenGeometry (ScreenRecorder.screen_index win));
       ScreenRecorder.resolution := ScreenRecorder.res_text win |}
  /\ In (ScreenRecorder.resolution
           (fst (ScreenRecorder.resolve screenGeometry win)))
        ["1920x1080"; "1280x720"; "640x480"]
  /\ (forall out : string,
        exists rest : list string,
          ScreenRecorder.built_cmd screenGeometry win out
          = (["ffmpeg"; "-f"; "gdigrab";
              "-framerate"; Py.str (ScreenRecorder.fps_value win);
              "-offset_x";
              Py.str (QRect.x (screenGeometry (ScreenRecorder.screen_index win)));
              "-offset_y";
              Py.str (QRect.y (screenGeometry (ScreenRecorder.screen_index win)));
              "-video_size"; ScreenRecorder.res_text win;
              "-i"; "desktop"] ++ rest)%list).
Proof.
  intros Hno Hres. unfold ScreenRecorder.built_cmd.
  rewrite (resolve_no_region screenGeometry win Hno).
  cbn [fst Recorder.combo_geometry ScreenRecorder.resolution].
  repeat split; [exact Hres|].
  intros out. apply build_cmd_head.
Qed.

(** C7 at a concrete selection: the mouse is released one pixel to the
    left of where it was pressed, which selects a rectangle of width
    zero. *)
Lemma fallback_uses_combo_resolution_witness :
  RegionSelector.drag (Recorder.mouse_at 300 200) (Recorder.mouse_at 299 260)
  = Some (QRect.mk 300 200 299 260, QRect.mk 300 200 299 260)
  /\ QRect.width (QRect.mk 300 200 299 260) = 0
  /\ fst (ScreenRecorder.resolve Recorder.hd_desktop
            (Recorder.with_region (QRect.mk 300 200 299 260)))
     = {| ScreenRecorder.offset_x := 0; ScreenRecorder.offset_y := 0;
          ScreenRecorder.resolution := "1920x1080" |}.
Proof.
  split; [reflexivity|]. split; [reflexivity|].
  refine (proj1 (fallback_uses_combo_resolution Recorder.hd_desktop
                   (Recorder.with_region (QRect.mk 300 200 299 260)) _ _)).
  - left. cbn. lia.
  - left. reflexivity.
Defined.

(** C7 fails as stated.  On a 2560x1440 screen the fresh window, with no
    region selected, asks for the combo box's 1920x1080 and not for the
    screen's resolution; and a click without a drag selects a rectangle one
    pixel wide and high, which is taken as a region and resolves to a
    capture of 2x2 at the click, not to the screen. *)
Lemma full_screen_fallback_counterexample :
  Recorder.no_region Recorder.fresh
  /\ Recorder.display_geometry Recorder.wide_desktop Recorder.fresh
     = {| ScreenRecorder.offset_x := 0; ScreenRecorder.offset_y := 0;
          ScreenRecorder.resolution := "2560x1440" |}
  /\ fst (ScreenRecorder.resolve Recorder.wide_desktop Recorder.fresh)
     = {| ScreenRecorder.offset_x := 0; ScreenRecorder.offset_y := 0;
          ScreenRecorder.resolution := "1920x1080" |}
  /\ fst (ScreenRecorder.resolve Recorder.wide_desktop Recorder.fresh)
     <> Recorder.display_geometry Recorder.wide_desktop Recorder.fresh
  /\ RegionSelector.drag (Recorder.mouse_at 300 200) (Recorder.mouse_at 300 200)
     = Some (QRect.mk 300 200 300 200, QRect.mk 300 200 300 200)
  /\ QRect.width (QRect.mk 300 200 300 200) = 1
  /\ QRect.height (QRect.mk 300 200 300 200) = 1
  /\ fst (ScreenRecorder.resolve Recorder.wide_desktop
            (Recorder.with_region (QRect.mk 300 200 300 200)))
     = {| ScreenRecorder.offset_x := 300; ScreenRecorder.offset_y := 200;
          ScreenRecorder.resolution := "2x2" |}.
Proof.
  repeat split. cbv. discriminate.
Qed.

(** C9. A region serves one session.  After [set_region] has stored a
    region, [start_recording] resolves the command from it and leaves
    [capture_rect_global] at [None]; a second [start_recording] without a
    new selection builds its command from the chosen screen's origin and
    the resolution combo box. *)
Theorem region_consumed_by_one_session
        (screenGeometry : Z -> QRect.t) (screen_count : Z)
        (win0 : ScreenRecorder.t) (rect global_rect : QRect.t)
        (out : string) :
  ScreenRecorder.output_path win0 = Some out ->
  out <> EmptyString ->
  QRect.truth global_rect = true ->
  let win := ScreenRecorder.set_region screen_count rect global_rect win0 in
  let win1 := ScreenRecorder.start_recording screenGeometry win in
  let win2 := ScreenRecorder.start_recording screenGeometry win1 in
  ScreenRecorder.capture_rect_global win = Some global_rect
  /\ ScreenRecorder.capture_rect_global win1 = None
  /\ ScreenRecorder.threads win1
     = (ScreenRecorder.threads win0
        ++ [Session.init
              (ScreenRecorder.build_cmd
                 {| ScreenRecorder.offset_x := QRect.x global_rect;
                    ScreenRecorder.offset_y := QRect.y global_rect;
                    ScreenRecorder.resolution :=
                      ScreenRecorder.format_resolution
                        (ScreenRecorder.even_up (QRect.width global_rect))
                        (ScreenRecorder.even_up (QRect.height global_rect)) |}
                 (Py.str (ScreenRecorder.fps_value win0))
                 (ScreenRecorder.audio_text win0)
                 (ScreenRecorder.bit_rate_text win0) out)])%list
  /\ ScreenRecorder.threads win2
     = (ScreenRecorder.threads win1
        ++ [Session.init
              (ScreenRecorder.build_cmd
                 {| ScreenRecorder.offset_x :=
                      QRect.x (screenGeometry (ScreenRecorder.screen_index win0));
                    ScreenRecorder.offset_y :=
                      QRect.y (screenGeometry (ScreenRecorder.screen_index win0));
                    ScreenRecorder.resolution := ScreenRecorder.res_text win0 |}
                 (Py.str (ScreenRecorder.fps_value win0))
                 (ScreenRecorder.audio_text win0)
                 (ScreenRecorder.bit_rate_text win0) out)])%list
  /\ ScreenRecorder.capture_rect_global win2 = None.
Proof.
  intros Hout Hne Ht win win1 win2.
  assert (Hw : ScreenRecorder.capture_rect_global win = Some global_rect)
    by reflexivity.
  assert (Ho : ScreenRecorder.output_path win = Some out) by exact Hout.
  destruct (start_recording_proceeds screenGeometry win out Ho Hne)
    as (T1 & G1 & _).
  fold win1 in T1, G1.
  unfold ScreenRecorder.built_cmd in T1.
  rewrite (resolve_region screenGeometry win global_rect Hw Ht) in T1, G1.
  cbn [fst snd] in T1, G1.
  assert (Ho1 : ScreenRecorder.output_path win1 = Some out).
  { unfold win1, ScreenRecorder.start_recording. rewrite Ho.
    destruct out; [contradiction|]. reflexivity. }
  destruct (start_recording_proceeds screenGeometry win1 out Ho1 Hne)
    as (T2 & G2 & _).
  fold win2 in T2, G2.
  assert (Hno : Recorder.no_region win1).
  { unfold Recorder.no_region. now rewrite G1. }
  unfold ScreenRecorder.built_cmd in T2.
  rewrite (resolve_no_region screenGeometry win1 Hno) in T2, G2.
  cbn [fst snd] in T2, G2.
  repeat split; auto.
  - rewrite T2. unfold Recorder.combo_geometry.
    unfold win1, ScreenRecorder.start_recording. rewrite Ho.
    destruct out; [contradiction|]. reflexivity.
  - now rewrite G2.
Qed.

(** C9 at the scenario's region on a 1920x1080 screen. *)
Lemma region_consumed_by_one_session_witness :
  ScreenRecorder.capture_rect_global
    (ScreenRecorder.start_recording Recorder.hd_desktop
       (Recorder.with_region (QRect.of_size 100 50 201 201))) = None
  /\ map Session.thread
       (ScreenRecorder.threads
          (ScreenRecorder.start_recording Recorder.hd_desktop
             (ScreenRecorder.start_recording Recorder.hd_desktop
                (Recorder.with_region (QRect.of_size 100 50 201 201)))))
     = [FFmpegThread.init
          ["ffmpeg"; "-f"; "gdigrab"; "-framerate"; "30";
           "-offset_x"; "100"; "-offset_y"; "50"; "-video_size"; "202x202";
           "-i"; "desktop"; "-vcodec"; "libx264"; "-pix_fmt"; "yuv420p";
           "-preset"; "ultrafast"; "-y"; "/tmp/out.mp4"];
        FFmpegThread.init
          ["ffmpeg"; "-f"; "gdigrab"; "-framerate"; "30";
           "-offset_x"; "0"; "-offset_y"; "0"; "-video_size"; "1920x1080";
           "-i"; "desktop"; "-vcodec"; "libx264"; "-pix_fmt"; "yuv420p";
           "-preset"; "ultrafast"; "-y"; "/tmp/out.mp4"]].
Proof.
  pose proof (region_consumed_by_one_session Recorder.hd_desktop 1
                Recorder.fresh (QRect.of_size 100 50 201 201)
                (QRect.of_size 100 50 201 201) "/tmp/out.mp4"
                eq_refl ltac:(discriminate) eq_refl) as H.
  cbv zeta in H. destruct H as (_ & H1 & _ & H2 & _).
  split; [exact H1|]. unfold Recorder.with_region. rewrite H2. reflexivity.
Defined.


(* ================================================================== *)
(** ** Lemmas on the command *)

Section CommandFacts.

Import ScreenRecorder.

Variable screenGeometry : Z -> QRect.t.

Lemma uint_numeric_head (d : Decimal.uint) :
  Recorder.numeric_head (NilZero.string_of_uint d) = true.
Proof. destruct d; reflexivity. Qed.

Lemma uint_digit_head (d : Decimal.uint) :
  match NilZero.string_of_uint d with
  | String c _ => Recorder.is_digit c
  | EmptyString => false
  end = true.
Proof. destruct d; reflexivity. Qed.

(** [str(n)] starts like a number. *)
Lemma str_numeric_head (n : Z) : Recorder.numeric_head (Py.str n) = true.
Proof.
  unfold Py.str. destruct n as [|p|p]; cbn [Z.to_int NilZero.string_of_int].
  - reflexivity.
  - apply uint_numeric_head.
  - pose proof (uint_digit_head (Pos.to_uint p)) as H.
    cbn [Recorder.numeric_head].
    destruct (NilZero.string_of_uint (Pos.to_uint p)); [discriminate|].
    rewrite H. reflexivity.
Qed.

Lemma numeric_head_append (a b : string) :
  Recorder.numeric_head a = true -> Recorder.numeric_head (a ++ b) = true.
Proof.
  destruct a as [|c [|d r]]; cbn; try discriminate.
  - rewrite andb_false_r, orb_false_r. now intros ->.
  - trivial.
Qed.

Lemma resolution_numeric_head (w h : Z) :
  Recorder.numeric_head (format_resolution w h) = true.
Proof. apply numeric_head_append, str_numeric_head. Qed.

Lemma item_numeric_head (a : string) :
  In a res_items \/ In a bit_rate_items -> Recorder.numeric_head a = true.
Proof.
  unfold res_items, bit_rate_items; cbn [In].
  intros [H|H]; repeat (destruct H as [<-|H]; [reflexivity|]); contradiction.
Qed.

(** An argument that starts like a number is none of the audio options
    and names no audio device. *)
Lemma numeric_head_not_audio (a : string) :
  Recorder.numeric_head a = true ->
  a <> "dshow" /\ a <> "-acodec" /\ a <> "-b:a"
  /\ String.prefix "audio=" a = false.
Proof.
  intros H. repeat split; try (intros ->; discriminate H).
  destruct a as [|c r]; [discriminate|].
  cbn [String.prefix]. destruct (Ascii.ascii_dec "a" c) as [<-|]; [|reflexivity].
  discriminate H.
Qed.

(** The resolved size starts like a number when the combo box shows one of
    its items. *)
Lemma resolve_numeric_head (win : t) :
  In (res_text win) res_items ->
  Recorder.numeric_head (resolution (fst (resolve screenGeometry win))) = true.
Proof.
  intros Hres. unfold resolve.
  destruct (capture_rect_global win) as [r|].
  - destruct (QRect.truth r); cbn [fst resolution].
    + apply resolution_numeric_head.
    + apply item_numeric_head; now left.
  - apply item_numeric_head; now left.
Qed.

(** The command without and with an audio device, written out. *)
Lemma build_cmd_silent (g : Geometry) (fps br out : string) :
  build_cmd g fps "None" br out
  = ["ffmpeg"; "-f"; "gdigrab"; "-framerate"; fps;
     "-offset_x"; Py.str (offset_x g); "-offset_y"; Py.str (offset_y g);
     "-video_size"; resolution g; "-i"; "desktop";
     "-vcodec"; "libx264"; "-pix_fmt"; "yuv420p"; "-preset"; "ultrafast";
     "-y"; out].
Proof. reflexivity. Qed.

Lemma build_cmd_audio (g : Geometry) (fps dev br out : string) :
  dev <> "None" ->
  build_cmd g fps dev br out
  = ["ffmpeg"; "-f"; "gdigrab"; "-framerate"; fps;
     "-offset_x"; Py.str (offset_x g); "-offset_y"; Py.str (offset_y g);
     "-video_size"; resolution g; "-i"; "desktop";
     "-f"; "dshow"; "-i"; ("audio=" ++ dev)%string;
     "-vcodec"; "libx264"; "-pix_fmt"; "yuv420p"; "-preset"; "ultrafast";
     "-acodec"; "aac"; "-b:a"; br;
     "-y"; out].
Proof.
  intros H. apply String.eqb_neq in H. unfold build_cmd. now rewrite H.
Qed.

Lemma occurrences_zero (a : string) (l : list string) :
  Forall (fun b => b <> a) l -> occurrences a l = 0%nat.
Proof.
  unfold occurrences. induction 1 as [|b l Hb _ IH]; [reflexivity|].
  cbn [filter]. apply not_eq_sym, String.eqb_neq in Hb. now rewrite Hb.
Qed.

Lemma occurrences_one (a : string) (pre post : list string) :
  Forall (fun b => b <> a) pre -> Forall (fun b => b <> a) post ->
  occurrences a (pre ++ a :: post) = 1%nat.
Proof.
  intros Hpre Hpost.
  pose proof (occurrences_zero a pre Hpre) as H1.
  pose proof (occurrences_zero a post Hpost) as H2.
  unfold occurrences in *. rewrite filter_app, length_app, H1.
  cbn [filter]. rewrite String.eqb_refl. cbn [List.length]. now rewrite H2.
Qed.

Lemma audio_inputs_zero (l : list string) :
  Forall (fun b => String.prefix "audio=" b = false) l ->
  Recorder.audio_inputs l = [].
Proof.
  unfold Recorder.audio_inputs. induction 1 as [|b l Hb _ IH]; [reflexivity|].
  cbn [filter]. now rewrite Hb.
Qed.

Lemma audio_inputs_one (dev : string) (pre post : list string) :
  Forall (fun b => String.prefix "audio=" b = false) pre ->
  Forall (fun b => String.prefix "audio=" b = false) post ->
  Recorder.audio_inputs (pre ++ ("audio=" ++ dev)%string :: post)
  = [("audio=" ++ dev)%string].
Proof.
  intros Hpre Hpost.
  pose proof (audio_inputs_zero pre Hpre) as H1.
  pose proof (audio_inputs_zero post Hpost) as H2.
  unfold Recorder.audio_inputs in *. rewrite filter_app, H1.
  cbn [filter].
  assert (Hd : String.prefix "audio=" ("audio=" ++ dev) = true)
    by (destruct dev; reflexivity).
  now rewrite Hd, H2.
Qed.

End CommandFacts.

(* ================================================================== *)
(** ** Theorem on the command *)

(** Settles a property of every argument of a command: the literal ones
    by computation, the others from the context. *)
Ltac each_argument :=
  cbn [List.app];
  repeat (apply Forall_cons; [first [assumption | discriminate | reflexivity]|]);
  apply Forall_nil.

(** C5. The audio stages follow the audio device.  The command ends with
    the destination path; among the arguments before it, with the device
    ["None"] there is no [dshow] input, no [audio=] device, no [-acodec]
    and no [-b:a]; with any other device there is exactly one [dshow]
    input stage, reading that device, and exactly one audio codec stage,
    which carries the selected bit rate. *)
Theorem audio_stages_follow_device
        (screenGeometry : Z -> QRect.t) (win : ScreenRecorder.t)
        (out : string) :
  In (ScreenRecorder.res_text win) ScreenRecorder.res_items ->
  In (ScreenRecorder.bit_rate_text win) ScreenRecorder.bit_rate_items ->
  let cmd := ScreenRecorder.built_cmd screenGeometry win out in
  let opts := ScreenRecorder.options cmd in
  cmd = (opts ++ [out])%list
  /\ (ScreenRecorder.audio_text win = "None" ->
      ScreenRecorder.occurrences "dshow" opts = 0%nat
      /\ Recorder.audio_inputs opts = []
      /\ ScreenRecorder.occurrences "-acodec" opts = 0%nat
      /\ ScreenRecorder.occurrences "-b:a" opts = 0%nat)
  /\ (ScreenRecorder.audio_text win <> "None" ->
      ScreenRecorder.occurrences "dshow" opts = 1%nat
      /\ Recorder.audio_inputs opts
         = [("audio=" ++ ScreenRecorder.audio_text win)%string]
      /\ ScreenRecorder.occurrences "-acodec" opts = 1%nat
      /\ ScreenRecorder.occurrences "-b:a" opts = 1%nat
      /\ exists pre mid : list string,
           opts = (pre
                   ++ ["-f"; "dshow"; "-i";
                       ("audio=" ++ ScreenRecorder.audio_text win)%string]
                   ++ mid
                   ++ ["-acodec"; "aac"; "-b:a";
                       ScreenRecorder.bit_rate_text win; "-y"])%list).
Proof.
  intros Hres Hbr cmd opts. subst opts cmd.
  unfold ScreenRecorder.built_cmd, ScreenRecorder.options.
  pose proof (resolve_numeric_head screenGeometry win Hres) as Hg.
  set (g := fst (ScreenRecorder.resolve screenGeometry win)) in *.
  destruct (numeric_head_not_audio _ Hg) as (R1 & R2 & R3 & R4).
  destruct (numeric_head_not_audio _
              (str_numeric_head (ScreenRecorder.fps_value win)))
    as (F1 & F2 & F3 & F4).
  destruct (numeric_head_not_audio _
              (str_numeric_head (ScreenRecorder.offset_x g)))
    as (X1 & X2 & X3 & X4).
  destruct (numeric_head_not_audio _
              (str_numeric_head (ScreenRecorder.offset_y g)))
    as (Y1 & Y2 & Y3 & Y4).
  destruct (numeric_head_not_audio _
              (item_numeric_head _ (or_intror Hbr)))
    as (B1 & B2 & B3 & B4).
  set (fps := Py.str (ScreenRecorder.fps_value win)) in *.
  set (ox := Py.str (ScreenRecorder.offset_x g)) in *.
  set (oy := Py.str (ScreenRecorder.offset_y g)) in *.
  set (res := ScreenRecorder.resolution g) in *.
  set (br := ScreenRecorder.bit_rate_text win) in *.
  set (capture := ["ffmpeg"; "-f"; "gdigrab"; "-framerate"; fps;
                   "-offset_x"; ox; "-offset_y"; oy;
                   "-video_size"; res; "-i"; "desktop"]).
  set (video := ["-vcodec"; "libx264"; "-pix_fmt"; "yuv420p";
                 "-preset"; "ultrafast"]).
  destruct (string_dec (ScreenRecorder.audio_text win) "None") as [E|E].
  - rewrite E, build_cmd_silent. cbn [removelast].
    split; [reflexivity|]. split; [|intros C; now contradiction C].
    intros _. repeat split.
    + apply occurrences_zero; each_argument.
    + apply audio_inputs_zero; each_argument.
    + apply occurrences_zero; each_argument.
    + apply occurrences_zero; each_argument.
  - rewrite (build_cmd_audio _ _ _ _ _ E). cbn [removelast].
    set (dev := ScreenRecorder.audio_text win) in *.
    split; [reflexivity|]. split; [intros C; now contradiction E|].
    intros _. repeat split.
    + apply (occurrences_one "dshow" (capture ++ ["-f"])
               (["-i"; ("audio=" ++ dev)%string] ++ video
                ++ ["-acodec"; "aac"; "-b:a"; br; "-y"]));
        each_argument.
    + apply (audio_inputs_one dev (capture ++ ["-f"; "dshow"; "-i"])
               (video ++ ["-acodec"; "aac"; "-b:a"; br; "-y"]));
        each_argument.
    + apply (occurrences_one "-acodec"
               (capture ++ ["-f"; "dshow"; "-i"; ("audio=" ++ dev)%string]
                ++ video)
               ["aac"; "-b:a"; br; "-y"]);
        each_argument.
    + apply (occurrences_one "-b:a"
               (capture ++ ["-f"; "dshow"; "-i"; ("audio=" ++ dev)%string]
                ++ video ++ ["-acodec"; "aac"])
               [br; "-y"]);
        each_argument.
    + exists capture, video. reflexivity.
Qed.

(** C5 at two concrete windows: the fresh one, whose audio combo box shows
    ["None"], and one with a microphone and 128k selected. *)
Lemma audio_stages_follow_device_witness :
  ScreenRecorder.built_cmd Recorder.hd_desktop Recorder.fresh "/tmp/out.mp4"
  = ["ffmpeg"; "-f"; "gdigrab"; "-framerate"; "30";
     "-offset_x"; "0"; "-offset_y"; "0"; "-video_size"; "1920x1080";
     "-i"; "desktop"; "-vcodec"; "libx264"; "-pix_fmt"; "yuv420p";
     "-preset"; "ultrafast"; "-y"; "/tmp/out.mp4"]
  /\ ScreenRecorder.built_cmd Recorder.hd_desktop Recorder.with_microphone
       "/tmp/out.mp4"
     = ["ffmpeg"; "-f"; "gdigrab"; "-framerate"; "30";
        "-offset_x"; "0"; "-offset_y"; "0"; "-video_size"; "1920x1080";
        "-i"; "desktop"; "-f"; "dshow"; "-i"; "audio=Microphone";
        "-vcodec"; "libx264"; "-pix_fmt"; "yuv420p"; "-preset"; "ultrafast";
        "-acodec"; "aac"; "-b:a"; "128k"; "-y"; "/tmp/out.mp4"]
  /\ ScreenRecorder.occurrences "-acodec"
       (ScreenRecorder.options
          (ScreenRecorder.built_cmd Recorder.hd_desktop Recorder.fresh
             "/tmp/out.mp4")) = 0%nat
  /\ ScreenRecorder.occurrences "-acodec"
       (ScreenRecorder.options
          (ScreenRecorder.built_cmd Recorder.hd_desktop
             Recorder.with_microphone "/tmp/out.mp4")) = 1%nat.
Proof.
  split; [reflexivity|]. split; [reflexivity|]. split.
  - assert (Hres : In (ScreenRecorder.res_text Recorder.fresh)
                      ScreenRecorder.res_items) by (left; reflexivity).
    assert (Hbr : In (ScreenRecorder.bit_rate_text Recorder.fresh)
                     ScreenRecorder.bit_rate_items) by (left; reflexivity).
    exact (proj1 (proj2 (proj2 (proj1 (proj2
             (audio_stages_follow_device Recorder.hd_desktop Recorder.fresh
                "/tmp/out.mp4" Hres Hbr)) eq_refl)))).
  - assert (Hres : In (ScreenRecorder.res_text Recorder.with_microphone)
                      ScreenRecorder.res_items) by (left; reflexivity).
    assert (Hbr : In (ScreenRecorder.bit_rate_text Recorder.with_microphone)
                     ScreenRecorder.bit_rate_items)
      by (right; left; reflexivity).
    assert (Hdev : ScreenRecorder.audio_text Recorder.with_microphone
                   <> "None") by discriminate.
    exact (proj1 (proj2 (proj2 (proj2 (proj2
             (audio_stages_follow_device Recorder.hd_desktop
                Recorder.with_microphone "/tmp/out.mp4" Hres Hbr)) Hdev)))).
Defined.

(* ================================================================== *)
(** ** Theorems on the window *)

(** C6, as the code has it.  [start_recording] looks at the output path
    and at nothing else: without a path it returns at once and changes
    nothing; with a path set it always creates and starts one more encoder
    thread, whether or not an earlier one is still running, and reports no
    error.  What keeps a second start away is that it disables the Start
    button, so that a further click starts nothing. *)
Theorem start_recording_always_spawns
        (screenGeometry : Z -> QRect.t) (win : ScreenRecorder.t) :
  (ScreenRecorder.output_path win = None
   \/ ScreenRecorder.output_path win = Some EmptyString ->
   ScreenRecorder.start_recording screenGeometry win = win)
  /\ (forall out : string,
        ScreenRecorder.output_path win = Some out ->
        out <> EmptyString ->
        let win' := ScreenRecorder.start_recording screenGeometry win in
        ScreenRecorder.threads win'
        = (ScreenRecorder.threads win
           ++ [Session.init
                 (ScreenRecorder.built_cmd screenGeometry win out)])%list
        /\ ScreenRecorder.ffmpeg_thread win'
           = Some (List.length (ScreenRecorder.threads win))
        /\ ScreenRecorder.alive_processes win'
           = ScreenRecorder.alive_processes win
        /\ ScreenRecorder.dialogs win' = ScreenRecorder.dialogs win
        /\ ScreenRecorder.log win' = ScreenRecorder.log win
        /\ ScreenRecorder.enabled win' ScreenRecorder.start_button = false
        /\ ScreenRecorder.click_start screenGeometry win' = win').
Proof.
  split.
  - unfold ScreenRecorder.start_recording. intros [->| ->]; reflexivity.
  - intros out Hout Hne win'.
    destruct (start_recording_proceeds screenGeometry win out Hout Hne)
      as (T & _ & F & D & L & E).
    fold win' in T, F, D, L, E.
    assert (Hb : ScreenRecorder.enabled win' ScreenRecorder.start_button
                 = false)
      by (rewrite E; reflexivity).
    repeat split; auto.
    + unfold ScreenRecorder.alive_processes.
      rewrite T, filter_app, length_app. cbn. lia.
    + unfold ScreenRecorder.click_start. now rewrite Hb.
Qed.

(** C6 at concrete windows: Start is called while an encoder runs, with
    the output path set and with the path taken away. *)
Lemma start_recording_always_spawns_witness :
  List.length
    (ScreenRecorder.threads
       (ScreenRecorder.start_recording Recorder.hd_desktop Recorder.recording))
  = 2%nat
  /\ ScreenRecorder.dialogs
       (ScreenRecorder.start_recording Recorder.hd_desktop Recorder.recording)
     = ScreenRecorder.dialogs Recorder.recording
  /\ ScreenRecorder.start_recording Recorder.hd_desktop Lifecycle.pathless
     = Lifecycle.pathless.
Proof.
  pose proof (proj2 (start_recording_always_spawns Recorder.hd_desktop
                       Recorder.recording)
                    "/tmp/out.mp4" eq_refl ltac:(discriminate)) as H.
  cbv zeta in H. destruct H as (T & _ & _ & D & _).
  split; [rewrite T; reflexivity|]. split; [exact D|].
  apply (proj1 (start_recording_always_spawns Recorder.hd_desktop
                  Lifecycle.pathless)).
  left. reflexivity.
Defined.

(** C6 fails as stated.  While an encoder runs, a call of
    [start_recording] reports nothing and starts a second thread, whose
    encoder then runs beside the first.  The window itself gets there:
    when a stop cannot send its signal, [recording_failed] enables the
    Start button again although the encoder still runs, and the next click
    spawns a second one. *)
Lemma second_encoder_counterexample :
  ScreenRecorder.alive_processes Recorder.recording = 1%nat
  /\ ScreenRecorder.dialogs
       (ScreenRecorder.start_recording Recorder.hd_desktop Recorder.recording)
     = []
  /\ ScreenRecorder.alive_processes
       (Recorder.after_event false Supervision.ascii_decode 1 Session.Popen_returns
          (ScreenRecorder.start_recording Recorder.hd_desktop
             Recorder.recording)) = 2%nat
  /\ ScreenRecorder.alive_processes Recorder.stop_failed = 1%nat
  /\ ScreenRecorder.enabled Recorder.stop_failed ScreenRecorder.start_button
     = true
  /\ ScreenRecorder.dialogs Recorder.started_again
     = ScreenRecorder.dialogs Recorder.stop_failed
  /\ ScreenRecorder.alive_processes Recorder.started_again = 2%nat.
Proof. repeat split. Qed.

(** C8 on the code.  A session whose encoder cannot be launched, and one
    whose encoder exits with status 1, both show the diagnostic text in an
    error dialog and start nothing again; but they leave every settings
    control disabled and the window minimized, with only the Start button
    enabled, whereas a session that ends well enables them all. *)
Theorem failed_session_leaves_controls_disabled :
  ScreenRecorder.dialogs Recorder.spawn_failed
  = [ScreenRecorder.critical "Error"
       ("Recording failed:" ++ ScreenRecorder.nl
        ++ "[WinError 2] file not found")%string]
  /\ ScreenRecorder.dialogs Recorder.encoder_failed
     = [ScreenRecorder.critical "Error"
          ("Recording failed:" ++ ScreenRecorder.nl ++ "bad option")%string]
  /\ List.length (ScreenRecorder.threads Recorder.spawn_failed) = 1%nat
  /\ List.length (ScreenRecorder.threads Recorder.encoder_failed) = 1%nat
  /\ ScreenRecorder.alive_processes Recorder.spawn_failed = 0%nat
  /\ ScreenRecorder.alive_processes Recorder.encoder_failed = 0%nat
  /\ ScreenRecorder.enabled Recorder.spawn_failed ScreenRecorder.start_button
     = true
  /\ ScreenRecorder.enabled Recorder.encoder_failed ScreenRecorder.start_button
     = true
  /\ map (ScreenRecorder.enabled Recorder.spawn_failed)
         Recorder.setting_controls
     = [false; false; false; false; false; false; false; false]
  /\ map (ScreenRecorder.enabled Recorder.encoder_failed)
         Recorder.setting_controls
     = [false; false; false; false; false; false; false; false]
  /\ ScreenRecorder.minimized Recorder.spawn_failed = true
  /\ ScreenRecorder.minimized Recorder.encoder_failed = true
  /\ map (ScreenRecorder.enabled Recorder.encoder_finished)
         Recorder.setting_controls
     = [true; true; true; true; true; true; true; true]
  /\ ScreenRecorder.minimized Recorder.encoder_finished = false.
Proof. repeat split. Qed.


(* ================================================================== *)
(** ** More on the supervisor *)

Section LifecycleFacts.

Variable windows : bool.
Variable decode : list byte -> string.

#[local] Abbreviation step := (Session.step windows decode).
#[local] Abbreviation exec := (Session.exec windows decode).
#[local] Abbreviation stop := (FFmpegThread.stop windows).

(** The signals after a call of [stop]. *)
Lemma stop_signals (raises : option string) (s : Session.t)
      (th : FFmpegThread.t) (out : list Notification) :
  stop raises (Session.thread s) = (th, out) ->
  forall ph em,
    Session.signals (Session.mk th ph em)
    = (Session.signals s
       ++ match raises with
          | None => if Session.alive s
                    then [FFmpegThread.interrupt windows] else []
          | Some _ => []
          end)%list.
Proof.
  unfold FFmpegThread.stop, Session.signals, Session.alive; cbn.
  destruct (FFmpegThread.process (Session.thread s)) as [p|] eqn:Hp.
  - unfold poll. destruct (returncode p) eqn:Hrc.
    + intros [= <- _] _ _. rewrite Hp. now destruct raises; rewrite app_nil_r.
    + destruct raises; intros [= <- _] _ _; cbn; [now rewrite app_nil_r|].
      reflexivity.
  - intros [= <- _] _ _. rewrite Hp. now destruct raises.
Qed.

Lemma stop_keeps_process_none (raises : option string) (th th' : FFmpegThread.t)
      (out : list Notification) :
  stop raises th = (th', out) ->
  FFmpegThread.process th = None -> FFmpegThread.process th' = None.
Proof.
  unfold FFmpegThread.stop. intros H Hp. rewrite Hp in H.
  now injection H as <- _.
Qed.

Lemma stop_keeps_cmd (raises : option string) (th th' : FFmpegThread.t)
      (out : list Notification) :
  stop raises th = (th', out) -> FFmpegThread.cmd th' = FFmpegThread.cmd th.
Proof.
  unfold FFmpegThread.stop.
  destruct (FFmpegThread.process th) as [p|]; [|now intros [= <- _]].
  destruct (poll p); [now intros [= <- _]|].
  destruct raises; now intros [= <- _].
Qed.

Lemma step_fresh_handle (s s' : Session.t) (ev : Session.Event) :
  step s ev = Some s' -> Lifecycle.fresh_handle s -> Lifecycle.fresh_handle s'.
Proof.
  unfold Lifecycle.fresh_handle. destruct ev; cbn [Session.step].
  - destruct (Session.phase s); try discriminate. intros [= <-]. discriminate.
  - destruct (Session.phase s); try discriminate. intros [= <-]. discriminate.
  - destruct (FFmpegThread.process (Session.thread s)) as [p|] eqn:Hp;
      [|discriminate].
    destruct (returncode p); [discriminate|]. intros [= <-] H Hph.
    cbn in Hph. specialize (H Hph). discriminate.
  - destruct (Session.phase s); try discriminate.
    destruct (Session.exit_status s); [|discriminate].
    intros [= <-]. discriminate.
  - destruct (Session.phase s); try discriminate. intros [= <-]. discriminate.
  - destruct (stop raises (Session.thread s)) as [th out] eqn:Hs.
    intros [= <-] H Hph. cbn in *.
    apply (stop_keeps_process_none _ _ _ _ Hs), H, Hph.
Qed.

Lemma sends_cons (b : bool) (ev : Session.Event)
      (tr : list Session.Event) :
  Lifecycle.sends_from b (ev :: tr)
  = (Lifecycle.sends_from b [ev]
     + Lifecycle.sends_from
         match ev with
         | Session.Popen_returns => true
         | Session.Process_exits _ => false
         | _ => b
         end tr)%nat.
Proof.
  destruct ev; cbn; try reflexivity.
  destruct raises; cbn; [reflexivity|lia].
Qed.

(** One step appends to the signals what [stop] has sent. *)
Lemma step_signals (s s' : Session.t) (ev : Session.Event) :
  step s ev = Some s' -> Lifecycle.fresh_handle s ->
  Session.signals s'
  = (Session.signals s
     ++ repeat (FFmpegThread.interrupt windows)
               (Lifecycle.sends_from (Session.alive s) [ev]))%list.
Proof.
  unfold Lifecycle.fresh_handle. destruct ev; cbn [Session.step].
  - destruct (Session.phase s); try discriminate. intros [= <-] H.
    unfold Session.signals; cbn. now rewrite (H eq_refl).
  - destruct (Session.phase s); try discriminate. intros [= <-] _.
    unfold Session.signals; cbn. now rewrite app_nil_r.
  - unfold Session.signals.
    destruct (FFmpegThread.process (Session.thread s)) as [p|];
      [|discriminate].
    destruct (returncode p); [discriminate|]. intros [= <-] _.
    cbn. now rewrite app_nil_r.
  - destruct (Session.phase s); try discriminate.
    destruct (Session.exit_status s); [|discriminate]. intros [= <-] _.
    unfold Session.signals; cbn. now rewrite app_nil_r.
  - destruct (Session.phase s); try discriminate. intros [= <-] _.
    unfold Session.signals; cbn. now rewrite app_nil_r.
  - destruct (stop raises (Session.thread s)) as [th out] eqn:Hs.
    intros [= <-] _. rewrite (stop_signals _ _ _ _ Hs).
    destruct raises; cbn; [reflexivity|].
    now destruct (Session.alive s).
Qed.

Lemma exec_signals (tr : list Session.Event) :
  forall s s' : Session.t,
    Lifecycle.fresh_handle s -> exec tr s = Some s' ->
    Session.signals s'
    = (Session.signals s
       ++ repeat (FFmpegThread.interrupt windows)
                 (Lifecycle.sends_from (Session.alive s) tr))%list.
Proof.
  induction tr as [|ev tr IH]; intros s s' Hf H; cbn [Session.exec] in H.
  - injection H as <-. cbn. now rewrite app_nil_r.
  - destruct (step s ev) as [s1|] eqn:Hstep; [|discriminate].
    rewrite (IH _ _ (step_fresh_handle _ _ _ Hstep Hf) H).
    rewrite (step_signals _ _ _ Hstep Hf), (sends_cons _ ev tr).
    rewrite <- (step_alive windows decode _ _ _ Hstep).
    now rewrite repeat_app, app_assoc.
Qed.

Lemma exec_cmd (tr : list Session.Event) :
  forall s s' : Session.t,
    exec tr s = Some s' ->
    FFmpegThread.cmd (Session.thread s') = FFmpegThread.cmd (Session.thread s).
Proof.
  induction tr as [|ev tr IH]; intros s s' H; cbn [Session.exec] in H.
  - now injection H as <-.
  - destruct (step s ev) as [s1|] eqn:Hstep; [|discriminate].
    rewrite (IH _ _ H). clear IH H.
    destruct ev; cbn [Session.step] in Hstep.
    + destruct (Session.phase s); try discriminate. now injection Hstep as <-.
    + destruct (Session.phase s); try discriminate. now injection Hstep as <-.
    + destruct (FFmpegThread.process (Session.thread s)) as [p|];
        [|discriminate].
      destruct (returncode p); [discriminate|]. now injection Hstep as <-.
    + destruct (Session.phase s); try discriminate.
      destruct (Session.exit_status s); [|discriminate].
      now injection Hstep as <-.
    + destruct (Session.phase s); try discriminate. now injection Hstep as <-.
    + destruct (stop raises (Session.thread s)) as [th out] eqn:Hs.
      injection Hstep as <-. apply (stop_keeps_cmd _ _ _ _ Hs).
Qed.

Lemma step_blocked_while_alive (s s' : Session.t) (ev : Session.Event) :
  step s ev = Some s' ->
  (forall e, ev <> Session.Communicate_raises e) ->
  Lifecycle.fresh_handle s -> Lifecycle.blocked_while_alive s -> Lifecycle.blocked_while_alive s'.
Proof.
  unfold Lifecycle.blocked_while_alive, Lifecycle.fresh_handle. intros Hstep Hne Hf Hb.
  pose proof (step_alive windows decode _ _ _ Hstep) as Ha.
  destruct ev; cbn [Session.step] in Hstep.
  - destruct (Session.phase s); try discriminate. now injection Hstep as <-.
  - destruct (Session.phase s) eqn:Hph; try discriminate.
    injection Hstep as <-. rewrite Ha. intros Hal.
    specialize (Hb Hal). discriminate.
  - rewrite Ha. discriminate.
  - destruct (Session.phase s) eqn:Hph; try discriminate.
    destruct (Session.exit_status s) as [rc|] eqn:Hrc; [|discriminate].
    injection Hstep as <-. rewrite Ha.
    unfold Session.alive, Session.exit_status, poll in *.
    destruct (FFmpegThread.process (Session.thread s)) as [p|];
      [|discriminate].
    rewrite Hrc. discriminate.
  - now contradiction (Hne e).
  - destruct (stop raises (Session.thread s)) as [th out].
    injection Hstep as <-. rewrite Ha. exact Hb.
Qed.

Lemma exec_blocked_while_alive (tr : list Session.Event) :
  forall s s' : Session.t,
    exec tr s = Some s' ->
    (forall e, ~ In (Session.Communicate_raises e) tr) ->
    Lifecycle.fresh_handle s -> Lifecycle.blocked_while_alive s -> Lifecycle.blocked_while_alive s'.
Proof.
  induction tr as [|ev tr IH]; intros s s' H Hne Hf Hb; cbn [Session.exec] in H.
  - now injection H as <-.
  - destruct (step s ev) as [s1|] eqn:Hstep; [|discriminate].
    apply (IH _ _ H).
    + intros e Hin. apply (Hne e). now right.
    + apply (step_fresh_handle _ _ _ Hstep Hf).
    + apply (step_blocked_while_alive _ _ _ Hstep); auto.
      intros e ->. apply (Hne e). now left.
Qed.

(** Once [run] has left its first statement, [Popen] cannot raise any
    more. *)
Lemma exec_no_late_spawn_failure (tr : list Session.Event) :
  forall (s s' : Session.t) (e : string),
    exec tr s = Some s' -> Session.phase s <> Session.NotStarted ->
    ~ In (Session.Popen_raises e) tr.
Proof.
  induction tr as [|ev tr IH]; intros s s' e H Hph; cbn [Session.exec] in H.
  - intros [].
  - destruct (step s ev) as [s1|] eqn:Hstep; [|discriminate].
    intros [->|Hin].
    + cbn in Hstep. destruct (Session.phase s); try discriminate.
      now contradiction Hph.
    + apply (IH _ _ e H); [|exact Hin].
      destruct ev; cbn [Session.step] in Hstep.
      * destruct (Session.phase s); try discriminate.
        injection Hstep as <-. discriminate.
      * destruct (Session.phase s); try discriminate.
        injection Hstep as <-. discriminate.
      * destruct (FFmpegThread.process (Session.thread s)) as [p|];
          [|discriminate].
        destruct (returncode p); [discriminate|].
        now injection Hstep as <-.
      * destruct (Session.phase s); try discriminate.
        destruct (Session.exit_status s); [|discriminate].
        injection Hstep as <-. discriminate.
      * destruct (Session.phase s); try discriminate.
        injection Hstep as <-. discriminate.
      * destruct (stop raises (Session.thread s)) as [th out].
        now injection Hstep as <-.
Qed.

(** After a failed spawn nothing changes any more. *)
Lemma exec_after_spawn_failure (tr : list Session.Event) :
  forall s s' : Session.t,
    exec tr s = Some s' ->
    Session.phase s = Session.Returned ->
    FFmpegThread.process (Session.thread s) = None ->
    s' = s.
Proof.
  induction tr as [|ev tr IH]; intros s s' H Hph Hp; cbn [Session.exec] in H.
  - now injection H as <-.
  - destruct (step s ev) as [s1|] eqn:Hstep; [|discriminate].
    assert (s1 = s) as ->.
    { destruct ev; cbn [Session.step] in Hstep.
      - rewrite Hph in Hstep. discriminate.
      - rewrite Hph in Hstep. discriminate.
      - rewrite Hp in Hstep. discriminate.
      - rewrite Hph in Hstep. discriminate.
      - rewrite Hph in Hstep. discriminate.
      - rewrite (stop_without_process windows raises _ Hp) in Hstep.
        injection Hstep as <-. destruct s; cbn. now rewrite app_nil_r. }
    now apply IH.
Qed.

End LifecycleFacts.

(* ================================================================== *)
(** ** Further theorems on the supervisor *)

(** X1. Every signal a session sends to its process is the interrupt of
    the host platform, and it sends one for each call of [stop] that is
    made while the process is alive and whose send does not raise. *)
Theorem signals_are_interrupts
        (windows : bool) (decode : list byte -> string) (c : list string)
        (tr : list Session.Event) (s : Session.t) :
  Session.exec windows decode tr (Session.init c) = Some s ->
  Session.signals s
  = repeat (if windows then CTRL_BREAK_EVENT else SIGINT)
           (Lifecycle.sends tr).
Proof.
  intros H.
  assert (Hf : Lifecycle.fresh_handle (Session.init c)) by (intros _; reflexivity).
  exact (exec_signals windows decode tr _ _ Hf H).
Qed.

(** X1 on a Windows host: a dropped early stop, a stop that raises and two
    whose sends succeed. *)
Lemma signals_are_interrupts_witness :
  Session.signals
    (Supervision.after true Supervision.ascii_decode
       [Session.Stop_called None; Session.Popen_returns;
        Session.Stop_called (Some "denied"); Session.Stop_called None;
        Session.Stop_called None; Session.Process_exits 1;
        Session.Stop_called None] ["ffmpeg"])
  = [CTRL_BREAK_EVENT; CTRL_BREAK_EVENT].
Proof.
  exact (signals_are_interrupts true Supervision.ascii_decode ["ffmpeg"]
           [Session.Stop_called None; Session.Popen_returns;
            Session.Stop_called (Some "denied"); Session.Stop_called None;
            Session.Stop_called None; Session.Process_exits 1;
            Session.Stop_called None] _ eq_refl).
Defined.

(** X2. Whatever happens in a session, the command of its thread stays
    the one it was created with, and the stop flag, once set, is never
    cleared. *)
Theorem command_and_flag_are_stable
        (windows : bool) (decode : list byte -> string)
        (tr : list Session.Event) (s s' : Session.t) :
  Session.exec windows decode tr s = Some s' ->
  FFmpegThread.cmd (Session.thread s') = FFmpegThread.cmd (Session.thread s)
  /\ (FFmpegThread._stopping (Session.thread s) = true ->
      FFmpegThread._stopping (Session.thread s') = true).
Proof.
  intros H. split.
  - exact (exec_cmd windows decode tr _ _ H).
  - intros Hf. rewrite (exec_stopping windows decode tr _ _ H), Hf.
    reflexivity.
Qed.

(** X2 on the session with a pending stop, through the encoder's exit. *)
Lemma command_and_flag_are_stable_witness :
  FFmpegThread.cmd
    (Session.thread
       (Supervision.after false Supervision.ascii_decode
          [Session.Popen_returns; Session.Stop_called None;
           Session.Process_exits 255; Session.Communicate_returns None]
          ["ffmpeg"]))
  = ["ffmpeg"]
  /\ FFmpegThread._stopping
       (Session.thread
          (Supervision.after false Supervision.ascii_decode
             [Session.Popen_returns; Session.Stop_called None;
              Session.Process_exits 255; Session.Communicate_returns None]
             ["ffmpeg"]))
     = true.
Proof.
  pose proof (command_and_flag_are_stable false Supervision.ascii_decode
                [Session.Process_exits 255; Session.Communicate_returns None]
                Supervision.stop_pending _ eq_refl) as [Hc Hf].
  split; [exact Hc|exact (Hf eq_refl)].
Defined.

(** X3. The text of a failure that [run] reports after [communicate()] is
    stripped: it neither starts nor ends with white space and stripping it
    again changes nothing; and it is empty when the encoder wrote nothing
    to its standard error. *)
Theorem failure_text_is_stripped
        (decode : list byte -> string) (th : FFmpegThread.t) (rc : Z)
        (stderr : option (list byte)) (msg : string) :
  FFmpegThread.run_classify decode th rc stderr = error_occurred msg ->
  Py.strip msg = msg
  /\ Lifecycle.solid (Lifecycle.first_char msg)
  /\ Lifecycle.solid (Lifecycle.last_char msg)
  /\ (stderr = None \/ stderr = Some [] -> msg = EmptyString).
Proof.
  unfold FFmpegThread.run_classify.
  destruct (FFmpegThread._stopping th); [discriminate|].
  destruct (negb (Py.int_in rc [0; 2; 130])); [|discriminate].
  intros [= <-]. repeat split.
  - apply strip_fixed.
  - apply rstrip_first, lstrip_first.
  - apply rstrip_last.
  - intros [->| ->]; reflexivity.
Qed.

(** X3 at an exit status 1 with a diagnostic between blank lines. *)
Lemma failure_text_is_stripped_witness :
  Py.strip "Unknown option" = "Unknown option".
Proof.
  exact (proj1 (failure_text_is_stripped Supervision.ascii_decode
                  (FFmpegThread.init ["ffmpeg"]) 1
                  (Some (list_byte_of_string
                           (ScreenRecorder.nl ++ "  Unknown option "
                            ++ ScreenRecorder.nl)))
                  "Unknown option" eq_refl)).
Defined.

(** X4. When [Popen] raises, the session ends with one notification,
    [error_occurred] with the exception's text; no process exists, no
    signal is sent and the stop flag stays clear, however many calls of
    [stop] come before or after. *)
Theorem spawn_failure_is_reported
        (windows : bool) (decode : list byte -> string) (c : list string)
        (tr : list Session.Event) (e : string) (s : Session.t) :
  Session.exec windows decode tr (Session.init c) = Some s ->
  In (Session.Popen_raises e) tr ->
  s = {| Session.thread := FFmpegThread.init c;
         Session.phase := Session.Returned;
         Session.emitted := [(Session.InRun, error_occurred e)] |}.
Proof.
  revert s. induction tr as [|ev tr IH]; intros s H Hin; [destruct Hin|].
  cbn [Session.exec] in H.
  destruct (Session.step windows decode (Session.init c) ev) as [s1|] eqn:Hstep;
    [|discriminate].
  destruct ev; cbn in Hstep; try discriminate.
  - injection Hstep as <-. destruct Hin as [Hin|Hin]; [discriminate|].
    exfalso. revert Hin.
    apply (exec_no_late_spawn_failure windows decode tr _ _ e H). discriminate.
  - injection Hstep as <-. destruct Hin as [[= ->]|Hin].
    + now apply (exec_after_spawn_failure windows decode tr _ _ H).
    + exfalso. revert Hin.
      apply (exec_no_late_spawn_failure windows decode tr _ _ e H).
      discriminate.
  - injection Hstep as <-. destruct Hin as [Hin|Hin]; [discriminate|].
    now apply IH.
Qed.

(** X4 at a missing executable, with a stop before and after. *)
Lemma spawn_failure_is_reported_witness :
  Supervision.after true Supervision.ascii_decode
    [Session.Stop_called None; Session.Popen_raises "not found";
     Session.Stop_called (Some "late")] ["ffmpeg"]
  = {| Session.thread := FFmpegThread.init ["ffmpeg"];
       Session.phase := Session.Returned;
       Session.emitted := [(Session.InRun, error_occurred "not found")] |}.
Proof.
  apply (spawn_failure_is_reported true Supervision.ascii_decode ["ffmpeg"]
           [Session.Stop_called None; Session.Popen_raises "not found";
            Session.Stop_called (Some "late")] "not found").
  - reflexivity.
  - right. left. reflexivity.
Defined.

(** X5. As long as the encoder is alive and [communicate()] has not
    raised, [run] is blocked in [communicate()] and has emitted nothing:
    its notification never comes before the process is gone. *)
Theorem no_notification_while_alive
        (windows : bool) (decode : list byte -> string) (c : list string)
        (tr : list Session.Event) (s : Session.t) :
  Session.exec windows decode tr (Session.init c) = Some s ->
  (forall e, ~ In (Session.Communicate_raises e) tr) ->
  Session.alive s = true ->
  Session.phase s = Session.Communicating
  /\ Session.emitted_by Session.InRun s = [].
Proof.
  intros H Hne Ha.
  assert (Hf : Lifecycle.fresh_handle (Session.init c)) by (intros _; reflexivity).
  assert (Hb : Lifecycle.blocked_while_alive (Session.init c))
    by (intros Hx; discriminate Hx).
  pose proof (exec_blocked_while_alive windows decode tr _ _ H Hne Hf Hb Ha)
    as Hph.
  split; [exact Hph|].
  destruct (exec_emissions windows decode tr _ _ H) as (R & _).
  unfold Supervision.returned in R. rewrite Hph in R. cbn in R.
  apply length_zero_iff_nil. lia.
Qed.

(** X5 on the session with a pending stop. *)
Lemma no_notification_while_alive_witness :
  Session.phase Supervision.stop_pending = Session.Communicating
  /\ Session.emitted_by Session.InRun Supervision.stop_pending = [].
Proof.
  apply (no_notification_while_alive false Supervision.ascii_decode ["ffmpeg"]
           [Session.Popen_returns; Session.Stop_called None]).
  - reflexivity.
  - intros e [H|[H|[]]]; discriminate H.
  - reflexivity.
Defined.

(* ================================================================== *)
(** ** Theorems on the region selector *)

(** X6. A press at [a] and a release at [b] select, along each axis,
    both positions and what lies between them, whichever way the mouse
    went; only a release exactly one pixel before the press selects
    nothing along that axis.  The selected rectangle is therefore never
    of negative size, and it counts as a region exactly when neither axis
    is such a one-pixel step back. *)
Theorem selection_spans_press_and_release
        (a b : RegionSelector.QMouseEvent) :
  exists sel selg : QRect.t,
    RegionSelector.drag a b = Some (sel, selg)
    /\ QRect.width selg
       = Lifecycle.extent (px (RegionSelector.globalPos a))
                          (px (RegionSelector.globalPos b))
    /\ QRect.height selg
       = Lifecycle.extent (py (RegionSelector.globalPos a))
                          (py (RegionSelector.globalPos b))
    /\ 0 <= QRect.width selg /\ 0 <= QRect.height selg
    /\ (QRect.truth selg = true <->
        px (RegionSelector.globalPos b) <> px (RegionSelector.globalPos a) - 1
        /\ py (RegionSelector.globalPos b)
           <> py (RegionSelector.globalPos a) - 1)
    /\ (QRect.truth selg = true ->
        QRect.x selg = Z.min (px (RegionSelector.globalPos a))
                             (px (RegionSelector.globalPos b))
        /\ QRect.y selg = Z.min (py (RegionSelector.globalPos a))
                                (py (RegionSelector.globalPos b))).
Proof.
  destruct a as [[ax ay] [gax gay]], b as [[bx by_] [gbx gby]].
  eexists; eexists; split; [reflexivity|].
  cbn [RegionSelector.globalPos px py].
  unfold QRect.normalized, QRect.of_points, QRect.width, QRect.height,
    QRect.x, QRect.y, QRect.truth, QRect.isValid.
  cbn [px py QRect.x1 QRect.x2 QRect.y1 QRect.y2].
  unfold Lifecycle.extent.
  destruct (Z.ltb_spec gbx (gax - 1)); destruct (Z.ltb_spec gby (gay - 1));
    destruct (Z.eqb_spec gbx (gax - 1)); destruct (Z.eqb_spec gby (gay - 1));
    cbn [QRect.x1 QRect.x2 QRect.y1 QRect.y2];
    rewrite andb_true_iff, !Z.leb_le;
    repeat split; intros; lia.
Qed.

Lemma moves_keep_start (moves : list RegionSelector.QMouseEvent) :
  forall w : RegionSelector.t,
    RegionSelector.start_pos
      (fold_left (fun w m => RegionSelector.mouseMoveEvent m w) moves w)
    = RegionSelector.start_pos w
    /\ RegionSelector.start_pos_global
         (fold_left (fun w m => RegionSelector.mouseMoveEvent m w) moves w)
       = RegionSelector.start_pos_global w.
Proof.
  induction moves as [|m moves IH]; intros w; cbn [fold_left]; [now split|].
  destruct (IH (RegionSelector.mouseMoveEvent m w)) as [H1 H2].
  now rewrite H1, H2.
Qed.

(** X7. The rectangles a gesture selects depend on its press and its
    release alone: neither the moves in between nor anything the selector
    held from before change them. *)
Theorem selection_ignores_moves
        (w : RegionSelector.t) (a b : RegionSelector.QMouseEvent)
        (moves : list RegionSelector.QMouseEvent) :
  Lifecycle.gesture w a moves b = RegionSelector.drag a b.
Proof.
  unfold Lifecycle.gesture, RegionSelector.drag,
    RegionSelector.mouseReleaseEvent.
  destruct (moves_keep_start moves (RegionSelector.mousePressEvent a w))
    as [H1 H2].
  rewrite H1, H2. reflexivity.
Qed.

(** X8. On a selector whose corner is at [origin] on the desktop, the
    global rectangle of a selection is its local rectangle moved by
    [origin]: the two have the same width and height. *)
Theorem global_selection_is_shifted_local (origin p q : QPoint) :
  exists sel selg : QRect.t,
    RegionSelector.drag (Lifecycle.mouse_on origin p)
                        (Lifecycle.mouse_on origin q) = Some (sel, selg)
    /\ QRect.x selg = px origin + QRect.x sel
    /\ QRect.y selg = py origin + QRect.y sel
    /\ QRect.width selg = QRect.width sel
    /\ QRect.height selg = QRect.height sel
    /\ QRect.truth selg = QRect.truth sel.
Proof.
  destruct origin as [ox oy], p as [ax ay], q as [bx by_].
  eexists; eexists; split; [reflexivity|].
  unfold QRect.normalized, QRect.of_points, QRect.width, QRect.height,
    QRect.x, QRect.y, QRect.truth, QRect.isValid, Lifecycle.mouse_on.
  cbn [px py RegionSelector.pos RegionSelector.globalPos
       QRect.x1 QRect.x2 QRect.y1 QRect.y2].
  destruct (Z.ltb_spec (ox + bx) (ox + ax - 1));
    destruct (Z.ltb_spec bx (ax - 1)); try lia;
    destruct (Z.ltb_spec (oy + by_) (oy + ay - 1));
    destruct (Z.ltb_spec by_ (ay - 1)); try lia;
    cbn [QRect.x1 QRect.x2 QRect.y1 QRect.y2];
    repeat split; try lia;
    f_equal;
    match goal with
    | |- (?a <=? ?b) = (?c <=? ?d) =>
        destruct (Z.leb_spec a b); destruct (Z.leb_spec c d);
        try reflexivity; lia
    end.
Qed.

(* ================================================================== *)
(** ** Lemmas on the window and its threads *)

Section WindowFacts.

Import ScreenRecorder.

Variable screenGeometry : Z -> QRect.t.
Variable screen_count : Z.
Variable windows : bool.
Variable decode : list byte -> string.

Lemma list_set_same {A : Type} (l : list A) :
  forall (i : nat) (v : A), nth_error l i = Some v -> list_set i v l = l.
Proof.
  induction l as [|a l IH]; intros [|i] v H; cbn in *; try discriminate.
  - now injection H as ->.
  - now rewrite (IH _ _ H).
Qed.

Lemma list_set_length {A : Type} (l : list A) :
  forall (i : nat) (v : A), List.length (list_set i v l) = List.length l.
Proof.
  induction l as [|a l IH]; intros [|i] v; cbn; try reflexivity.
  now rewrite IH.
Qed.

Lemma list_set_last {A : Type} (l : list A) (x v : A) :
  list_set (List.length l) v (l ++ [x]) = (l ++ [v])%list.
Proof. induction l as [|a l IH]; cbn; [reflexivity|now rewrite IH]. Qed.

Lemma nth_error_last {A : Type} (l : list A) (x : A) :
  nth_error (l ++ [x]) (List.length l) = Some x.
Proof. induction l as [|a l IH]; cbn; [reflexivity|exact IH]. Qed.

(** What the slots leave alone. *)
Lemma deliver_keeps (ns : list Notification) :
  forall win : t,
    output_path (fold_left deliver ns win) = output_path win
    /\ ffmpeg_thread (fold_left deliver ns win) = ffmpeg_thread win
    /\ threads (fold_left deliver ns win) = threads win
    /\ selector (fold_left deliver ns win) = selector win
    /\ capture_rect_global (fold_left deliver ns win)
       = capture_rect_global win.
Proof.
  induction ns as [|n ns IH]; intros win; cbn [fold_left]; [now repeat split|].
  destruct (IH (deliver win n)) as (H1 & H2 & H3 & H4 & H5).
  rewrite H1, H2, H3, H4, H5. now destruct n.
Qed.

(** An event of the thread at position [i]. *)
Lemma thread_event_at (win : t) (i : nat) (s s' : Session.t)
      (ev : Session.Event) :
  nth_error (threads win) i = Some s ->
  Session.step windows decode s ev = Some s' ->
  thread_event windows decode i ev win
  = Some (fold_left deliver
            (map snd (skipn (List.length (Session.emitted s))
                            (Session.emitted s')))
            (Lifecycle.with_threads (list_set i s' (threads win)) win)).
Proof.
  intros Hn Hs. unfold thread_event. rewrite Hn, Hs. reflexivity.
Qed.

(** An event of the thread started last. *)
Lemma after_event_last (win : t) (l : list Session.t) (s s' : Session.t)
      (ev : Session.Event) :
  threads win = (l ++ [s])%list ->
  Session.step windows decode s ev = Some s' ->
  Recorder.after_event windows decode (List.length l) ev win
  = fold_left deliver
      (map snd (skipn (List.length (Session.emitted s)) (Session.emitted s')))
      (Lifecycle.with_threads (l ++ [s']) win).
Proof.
  intros Ht Hs. unfold Recorder.after_event.
  rewrite (thread_event_at win (List.length l) s s' ev);
    [|rewrite Ht; apply nth_error_last|exact Hs].
  now rewrite Ht, list_set_last.
Qed.

Lemma step_stop_not_alive (raises : option string) (s : Session.t) :
  Session.alive s = false ->
  Session.step windows decode s (Session.Stop_called raises) = Some s.
Proof.
  intros Ha. cbn [Session.step]. rewrite (stop_not_alive windows raises s Ha).
  destruct s; cbn. now rewrite app_nil_r.
Qed.

Lemma with_threads_same (win : t) :
  Lifecycle.with_threads (threads win) win = win.
Proof. now destruct win. Qed.

Lemma stop_recording_not_alive (raises : option string) (win : t) :
  Lifecycle.encoder_alive win = false ->
  stop_recording windows decode raises win = win.
Proof.
  unfold Lifecycle.encoder_alive, Lifecycle.current_session, stop_recording.
  destruct (ffmpeg_thread win) as [i|]; [|reflexivity].
  destruct (nth_error (threads win) i) as [s|] eqn:Hn.
  - intros Ha.
    rewrite (thread_event_at win i s s _ Hn (step_stop_not_alive raises s Ha)).
    rewrite skipn_all, (list_set_same _ _ _ Hn). cbn.
    apply with_threads_same.
  - intros _. unfold thread_event. now rewrite Hn.
Qed.

End WindowFacts.

(* ================================================================== *)
(** ** Further theorems on the window *)

(** X9. While no encoder of the current thread is alive (none was
    started, it is not spawned yet, or it has exited) the Stop button and
    every key send no signal and leave every attribute of the window as it
    is: no thread, control, dialog, stored region or INFO or ERROR log
    line changes.  All they do is to close the region selector if there
    is one (Stop, and the key s), to print the key, and for the key s to
    write one DEBUG log line. *)
Theorem stop_needs_live_encoder
        (windows : bool) (decode : list byte -> string)
        (win : ScreenRecorder.t) (raises : option string) (key : string) :
  Lifecycle.encoder_alive win = false ->
  ScreenRecorder.stop_recording windows decode raises win = win
  /\ MainWindow.handle_key windows decode raises key win = win
  /\ (Lifecycle.selector_closed (Lifecycle.stop_recording_aside win) = true
      <-> ScreenRecorder.selector win <> None)
  /\ Lifecycle.printed (Lifecycle.stop_recording_aside win) = []
  /\ Lifecycle.debug (Lifecycle.stop_recording_aside win) = []
  /\ Lifecycle.printed (Lifecycle.handle_key_aside key win)
     = [("Key pressed: " ++ key)%string]
  /\ (key = "s" ->
      Lifecycle.debug (Lifecycle.handle_key_aside key win)
      = [("The key " ++ Lifecycle.quote ++ "s" ++ Lifecycle.quote
          ++ " was pressed to stop recording")%string]
      /\ Lifecycle.selector_closed (Lifecycle.handle_key_aside key win)
         = Lifecycle.selector_closed (Lifecycle.stop_recording_aside win))
  /\ (key <> "s" ->
      Lifecycle.debug (Lifecycle.handle_key_aside key win) = []
      /\ Lifecycle.selector_closed (Lifecycle.handle_key_aside key win)
         = false).
Proof.
  intros Ha.
  pose proof (stop_recording_not_alive windows decode raises win Ha) as H.
  split; [exact H|]. split.
  { unfold MainWindow.handle_key. now destruct (key =? "s")%string. }
  split.
  { unfold Lifecycle.stop_recording_aside; cbn.
    destruct (ScreenRecorder.selector win); split; congruence. }
  split; [reflexivity|]. split; [reflexivity|]. split; [reflexivity|].
  unfold Lifecycle.handle_key_aside; cbn. split.
  - intros ->. now split.
  - intros Hk. apply String.eqb_neq in Hk. rewrite Hk. now split.
Qed.

(** X9 on a window whose session has ended with a failure. *)
Lemma stop_needs_live_encoder_witness :
  ScreenRecorder.stop_recording false Supervision.ascii_decode (Some "boom")
    Recorder.encoder_failed = Recorder.encoder_failed
  /\ MainWindow.handle_key false Supervision.ascii_decode (Some "boom") "s"
       Recorder.encoder_failed = Recorder.encoder_failed.
Proof.
  pose proof (stop_needs_live_encoder false Supervision.ascii_decode
                Recorder.encoder_failed (Some "boom") "s" eq_refl)
    as (H1 & H2 & _).
  exact (conj H1 H2).
Defined.

Section SessionAtTheWindow.

Import ScreenRecorder.

Variable screenGeometry : Z -> QRect.t.
Variable screen_count : Z.
Variable windows : bool.
Variable decode : list byte -> string.

#[local] Abbreviation apply_op :=
  (MainWindow.apply_op screenGeometry screen_count windows decode).

Lemma thread_does_last (base : t) (l : list Session.t) (s s' : Session.t)
      (ev : Session.Event) :
  Session.step windows decode s ev = Some s' ->
  apply_op (Lifecycle.with_threads (l ++ [s]) base)
           (MainWindow.Thread_does (List.length l) ev)
  = fold_left deliver
      (map snd (skipn (List.length (Session.emitted s)) (Session.emitted s')))
      (Lifecycle.with_threads (l ++ [s']) base).
Proof.
  intros Hs. cbn [MainWindow.apply_op].
  now rewrite (after_event_last windows decode
                 (Lifecycle.with_threads (l ++ [s]) base) l s s' ev
                 eq_refl Hs).
Qed.

Lemma click_stop_last (base : t) (l : list Session.t) (s s' : Session.t)
      (raises : option string) :
  ffmpeg_thread base = Some (List.length l) ->
  enabled base stop_button = true ->
  Session.step windows decode s (Session.Stop_called raises) = Some s' ->
  apply_op (Lifecycle.with_threads (l ++ [s]) base)
           (MainWindow.Click_stop raises)
  = fold_left deliver
      (map snd (skipn (List.length (Session.emitted s)) (Session.emitted s')))
      (Lifecycle.with_threads (l ++ [s']) base).
Proof.
  intros Hf He Hs. cbn [MainWindow.apply_op].
  change (enabled (Lifecycle.with_threads (l ++ [s]) base) stop_button)
    with (enabled base stop_button).
  rewrite He. unfold stop_recording.
  change (ffmpeg_thread (Lifecycle.with_threads (l ++ [s]) base))
    with (ffmpeg_thread base).
  rewrite Hf.
  rewrite (thread_event_at windows decode
             (Lifecycle.with_threads (l ++ [s]) base) (List.length l) s s' _
             (nth_error_last l s) Hs).
  change (threads (Lifecycle.with_threads (l ++ [s]) base))
    with (l ++ [s])%list.
  now rewrite list_set_last.
Qed.

Lemma classify_graceful (th : FFmpegThread.t) (rc : Z)
      (stderr : option (list byte)) :
  FFmpegThread._stopping th = true \/ Supervision.acceptable rc ->
  FFmpegThread.run_classify decode th rc stderr = finished.
Proof.
  unfold FFmpegThread.run_classify. intros [->|H]; [reflexivity|].
  apply int_in_acceptable in H. rewrite H. now destruct (FFmpegThread._stopping th).
Qed.

(** The session of the last thread, event by event. *)
Lemma session_at_the_window (base : t) (l : list Session.t) (c : list string)
      (stopped : bool) (rc : Z) (stderr : option (list byte)) :
  ffmpeg_thread base = Some (List.length l) ->
  enabled base stop_button = true ->
  stopped = true \/ Supervision.acceptable rc ->
  exists s : Session.t,
    Session.alive s = false
    /\ MainWindow.apply_ops screenGeometry screen_count windows decode
         (Lifecycle.session_ops (List.length l) stopped rc stderr)
         (Lifecycle.with_threads (l ++ [Session.init c]) base)
       = recording_finished (Lifecycle.with_threads (l ++ [s]) base).
Proof.
  intros F He Hok.
  unfold MainWindow.apply_ops, Lifecycle.session_ops.
  pose (s1 := Session.mk (FFmpegThread.run_spawn (FFmpegThread.init c))
                         Session.Communicating []).
  assert (H1 : Session.step windows decode (Session.init c)
                 Session.Popen_returns = Some s1) by reflexivity.
  destruct stopped; cbn [List.app fold_left].
  - pose (s2 := Session.mk
                  (FFmpegThread.mk c
                     (Some (mkPopen None [FFmpegThread.interrupt windows]))
                     true)
                  Session.Communicating []).
    pose (s3 := Session.mk
                  (FFmpegThread.mk c
                     (Some (mkPopen (Some rc)
                                    [FFmpegThread.interrupt windows]))
                     true)
                  Session.Communicating []).
    pose (s4 := Session.mk
                  (FFmpegThread.mk c
                     (Some (mkPopen (Some rc)
                                    [FFmpegThread.interrupt windows]))
                     true)
                  Session.Returned [(Session.InRun, finished)]).
    assert (H2 : Session.step windows decode s1 (Session.Stop_called None)
                 = Some s2) by reflexivity.
    assert (H3 : Session.step windows decode s2 (Session.Process_exits rc)
                 = Some s3) by reflexivity.
    assert (H4 : Session.step windows decode s3
                   (Session.Communicate_returns stderr) = Some s4)
      by reflexivity.
    rewrite (thread_does_last base l _ _ _ H1).
    cbn [Session.emitted Session.init s1 List.length skipn map fold_left].
    rewrite (click_stop_last base l _ _ None F He H2).
    cbn [Session.emitted s1 s2 List.length skipn map fold_left].
    rewrite (thread_does_last base l _ _ _ H3).
    cbn [Session.emitted s2 s3 List.length skipn map fold_left].
    rewrite (thread_does_last base l _ _ _ H4).
    cbn [Session.emitted s3 s4 List.length skipn map fold_left snd deliver].
    exists s4. split; reflexivity.
  - destruct Hok as [Hs|Hacc]; [discriminate|].
    pose (s3 := Session.mk
                  (FFmpegThread.mk c (Some (mkPopen (Some rc) [])) false)
                  Session.Communicating []).
    pose (s4 := Session.mk
                  (FFmpegThread.mk c (Some (mkPopen (Some rc) [])) false)
                  Session.Returned [(Session.InRun, finished)]).
    assert (H3 : Session.step windows decode s1 (Session.Process_exits rc)
                 = Some s3) by reflexivity.
    assert (H4 : Session.step windows decode s3
                   (Session.Communicate_returns stderr) = Some s4).
    { cbn [Session.step Session.phase Session.exit_status Session.thread
           FFmpegThread.process returncode s3].
      unfold Session.finish. cbn [Session.thread Session.emitted List.app].
      now rewrite (classify_graceful _ rc stderr (or_intror Hacc)). }
    rewrite (thread_does_last base l _ _ _ H1).
    cbn [Session.emitted Session.init s1 List.length skipn map fold_left].
    rewrite (thread_does_last base l _ _ _ H3).
    cbn [Session.emitted s1 s3 List.length skipn map fold_left].
    rewrite (thread_does_last base l _ _ _ H4).
    cbn [Session.emitted s3 s4 List.length skipn map fold_left snd deliver].
    exists s4. split; reflexivity.
Qed.

End SessionAtTheWindow.

(** X10. A session that the user stops with the Stop button, or whose
    encoder ends by itself with the exit status 0, 2 or 130, ends at the
    window with the dialog "Recording stopped and saved.", every control
    but Stop enabled, the window restored and the overlay hidden,
    whatever the exit status of a stopped encoder is; the session's own
    encoder has exited, and as many encoders are alive as before it. *)
Theorem graceful_session_ends_in_done
        (screenGeometry : Z -> QRect.t) (screen_count : Z) (windows : bool)
        (decode : list byte -> string) (win : ScreenRecorder.t)
        (out : string) (stopped : bool) (rc : Z)
        (stderr : option (list byte)) :
  ScreenRecorder.output_path win = Some out ->
  out <> EmptyString ->
  stopped = true \/ Supervision.acceptable rc ->
  let i := List.length (ScreenRecorder.threads win) in
  let w :=
    MainWindow.apply_ops screenGeometry screen_count windows decode
      (Lifecycle.session_ops i stopped rc stderr)
      (ScreenRecorder.start_recording screenGeometry win) in
  ScreenRecorder.dialogs w
  = (ScreenRecorder.dialogs win
     ++ [ScreenRecorder.information "Done" "Recording stopped and saved."])%list
  /\ (forall x : ScreenRecorder.Widget,
        ScreenRecorder.enabled w x
        = negb (ScreenRecorder.widget_eqb x ScreenRecorder.stop_button))
  /\ ScreenRecorder.minimized w = false
  /\ ScreenRecorder.overlay_shown w = false
  /\ ScreenRecorder.alive_processes w = ScreenRecorder.alive_processes win
  /\ ScreenRecorder.ffmpeg_thread w = Some i
  /\ List.length (ScreenRecorder.threads w) = S i
  /\ Lifecycle.encoder_alive w = false.
Proof.
  intros Hout Hne Hok i w. subst w i.
  destruct (start_recording_proceeds screenGeometry win out Hout Hne)
    as (T & _ & F & D & _ & E).
  set (base := ScreenRecorder.start_recording screenGeometry win) in *.
  set (l := ScreenRecorder.threads win) in *.
  set (c := ScreenRecorder.built_cmd screenGeometry win out) in *.
  assert (He : ScreenRecorder.enabled base ScreenRecorder.stop_button = true)
    by (rewrite E; reflexivity).
  pose proof (with_threads_same base) as WB. rewrite T in WB.
  destruct (session_at_the_window screenGeometry screen_count windows decode
              base l c stopped rc stderr F He Hok) as (s & Ha & Hw).
  rewrite WB in Hw. rewrite Hw.
  assert (Hea : Lifecycle.encoder_alive
                  (ScreenRecorder.recording_finished
                     (Lifecycle.with_threads (l ++ [s]) base)) = false).
  { unfold Lifecycle.encoder_alive, Lifecycle.current_session.
    cbn [ScreenRecorder.recording_finished ScreenRecorder.ffmpeg_thread
         ScreenRecorder.threads Lifecycle.with_threads].
    now rewrite F, nth_error_last. }
  revert Hea.
  generalize (Lifecycle.encoder_alive
                (ScreenRecorder.recording_finished
                   (Lifecycle.with_threads (l ++ [s]) base))).
  intros ea Hea.
  cbn [ScreenRecorder.recording_finished ScreenRecorder.dialogs
       ScreenRecorder.enabled ScreenRecorder.minimized
       ScreenRecorder.overlay_shown ScreenRecorder.ffmpeg_thread
       ScreenRecorder.threads Lifecycle.with_threads].
  unfold ScreenRecorder.alive_processes.
  cbn [ScreenRecorder.recording_finished ScreenRecorder.threads
       Lifecycle.with_threads].
  rewrite D, F, filter_app, !length_app. cbn [filter]. rewrite Ha.
  cbn [List.length]. fold l.
  repeat split; try reflexivity; try lia. exact Hea.
Qed.

(** X10 on the fresh window: the user stops and the encoder exits with
    status 255. *)
Lemma graceful_session_ends_in_done_witness :
  ScreenRecorder.dialogs
    (MainWindow.apply_ops Recorder.hd_desktop 1 false Supervision.ascii_decode
       (Lifecycle.session_ops 0 true 255 None)
       (ScreenRecorder.start_recording Recorder.hd_desktop Recorder.fresh))
  = [ScreenRecorder.information "Done" "Recording stopped and saved."].
Proof.
  exact (proj1 (graceful_session_ends_in_done Recorder.hd_desktop 1 false
                  Supervision.ascii_decode Recorder.fresh "/tmp/out.mp4"
                  true 255 None eq_refl ltac:(discriminate)
                  (or_introl eq_refl))).
Defined.

(* ================================================================== *)
(** ** What the window keeps through everything that happens to it *)

Section WindowInvariant.

Import ScreenRecorder.

Variable screenGeometry : Z -> QRect.t.
Variable screen_count : Z.
Variable windows : bool.
Variable decode : list byte -> string.

Lemma thread_event_keeps (i : nat) (ev : Session.Event) (win win' : t) :
  thread_event windows decode i ev win = Some win' ->
  output_path win' = output_path win
  /\ ffmpeg_thread win' = ffmpeg_thread win
  /\ List.length (threads win') = List.length (threads win).
Proof.
  unfold thread_event.
  destruct (nth_error (threads win) i) as [s|]; [|discriminate].
  destruct (Session.step windows decode s ev) as [s'|]; [|discriminate].
  intros [= <-].
  match goal with
  | |- context [fold_left deliver ?ns ?w] =>
      destruct (deliver_keeps ns w) as (H1 & H2 & H3 & _)
  end.
  rewrite H1, H2, H3. cbn. now rewrite list_set_length.
Qed.

Lemma after_event_settled (i : nat) (ev : Session.Event) (win : t) :
  Lifecycle.settled win ->
  Lifecycle.settled (Recorder.after_event windows decode i ev win).
Proof.
  unfold Recorder.after_event.
  destruct (thread_event windows decode i ev win) as [win'|] eqn:H; [|trivial].
  destruct (thread_event_keeps _ _ _ _ H) as (H1 & H2 & H3).
  unfold Lifecycle.settled, Lifecycle.path_set, Lifecycle.points_at_last.
  now rewrite H1, H2, H3.
Qed.

Lemma stop_recording_settled (raises : option string) (win : t) :
  Lifecycle.settled win ->
  Lifecycle.settled (stop_recording windows decode raises win).
Proof.
  unfold stop_recording. destruct (ffmpeg_thread win) as [i|]; [|trivial].
  apply (after_event_settled i (Session.Stop_called raises) win).
Qed.

Lemma start_recording_settled (win : t) :
  Lifecycle.settled win ->
  Lifecycle.settled (start_recording screenGeometry win).
Proof.
  intros [(out & Ho & Hne) Hp].
  destruct (start_recording_proceeds screenGeometry win out Ho Hne)
    as (T & _ & F & _).
  split.
  - exists out. split; [|exact Hne].
    unfold start_recording. rewrite Ho. destruct out; [contradiction|].
    reflexivity.
  - unfold Lifecycle.points_at_last. rewrite T, F, length_app.
    cbn [List.length]. now rewrite Nat.add_1_r.
Qed.

Lemma apply_op_settled (win : t) (op : MainWindow.Op) :
  Lifecycle.settled win ->
  Lifecycle.settled
    (MainWindow.apply_op screenGeometry screen_count windows decode win op).
Proof.
  intros H. destruct op; cbn [MainWindow.apply_op].
  - unfold click_start. destruct (enabled win start_button); [|exact H].
    now apply start_recording_settled.
  - destruct (enabled win stop_button); [|exact H].
    now apply stop_recording_settled.
  - unfold MainWindow.handle_key. destruct (key =? "s")%string; [|exact H].
    now apply stop_recording_settled.
  - destruct (enabled win output_path_button); [|exact H].
    destruct H as [(out & Ho & Hne) Hp]. split; [|exact Hp].
    destruct chosen as [|ch rest].
    + now exists out.
    + exists (String ch rest). split; [reflexivity|discriminate].
  - destruct (enabled win region_checkbox); [|exact H].
    unfold MainWindow.toggle_region, MainWindow.select_region.
    cbn [region_checked]. now destruct (negb (region_checked win)).
  - unfold MainWindow.select_by_drag.
    destruct (selector win); [|exact H].
    destruct (RegionSelector.drag a b) as [[rect grect]|]; [|exact H].
    exact H.
  - now apply after_event_settled.
Qed.

End WindowInvariant.

(** X11. From its start, with a default output path that is not empty,
    and through every click on Start and Stop, key, file dialog, region
    selection and event of any encoder thread, the window keeps an output
    path set, so that Start never returns early, and [ffmpeg_thread]
    refers to the thread started last, so that Stop reaches that one
    only. *)
Theorem window_stays_settled
        (screenGeometry : Z -> QRect.t) (screen_count : Z) (windows : bool)
        (decode : list byte -> string) (ops : list MainWindow.Op)
        (out : string) :
  out <> EmptyString ->
  Lifecycle.settled
    (MainWindow.apply_ops screenGeometry screen_count windows decode ops
       (ScreenRecorder.initial out)).
Proof.
  intros Hne. unfold MainWindow.apply_ops.
  assert (H0 : Lifecycle.settled (ScreenRecorder.initial out)).
  { split; [|reflexivity]. exists out. now split. }
  revert H0. generalize (ScreenRecorder.initial out).
  induction ops as [|op ops IH]; intros win H; cbn [fold_left]; [exact H|].
  apply IH.
  now apply apply_op_settled.
Qed.

(** X11 on the fresh window: a cancelled file dialog, a session that
    fails to stop, and a second Start. *)
Lemma window_stays_settled_witness :
  Lifecycle.settled
    (MainWindow.apply_ops Recorder.hd_desktop 1 false Supervision.ascii_decode
       [MainWindow.Save_to EmptyString; MainWindow.Click_start;
        MainWindow.Thread_does 0 Session.Popen_returns;
        MainWindow.Press_key (Some "boom") "s"; MainWindow.Click_start]
       Recorder.fresh).
Proof.
  apply (window_stays_settled Recorder.hd_desktop 1 false
           Supervision.ascii_decode _ "/tmp/out.mp4").
  discriminate.
Defined.

(** X12. Ticking the region check box minimizes the window and leaves
    only Stop enabled; the drag that follows stores the normalized global
    rectangle of its press and release, enables every control, Stop
    included, clears the check box and restores the window, and it starts
    no thread and shows no dialog. *)
Theorem region_selection_restores_window
        (screen_count : Z) (win : ScreenRecorder.t)
        (a b : RegionSelector.QMouseEvent) :
  ScreenRecorder.region_checked win = false ->
  let w1 := MainWindow.toggle_region win in
  let w2 := MainWindow.select_by_drag screen_count a b w1 in
  (forall x : ScreenRecorder.Widget,
     ScreenRecorder.enabled w1 x
     = ScreenRecorder.widget_eqb x ScreenRecorder.stop_button)
  /\ ScreenRecorder.minimized w1 = true
  /\ ScreenRecorder.capture_rect_global w2
     = Some (QRect.normalized
               (QRect.of_points (RegionSelector.globalPos a)
                                (RegionSelector.globalPos b)))
  /\ (forall x : ScreenRecorder.Widget, ScreenRecorder.enabled w2 x = true)
  /\ ScreenRecorder.region_checked w2 = false
  /\ ScreenRecorder.minimized w2 = false
  /\ ScreenRecorder.threads w2 = ScreenRecorder.threads win
  /\ ScreenRecorder.dialogs w2 = ScreenRecorder.dialogs win
  /\ ScreenRecorder.output_path w2 = ScreenRecorder.output_path win.
Proof.
  intros Hc w1 w2. subst w2 w1.
  unfold MainWindow.toggle_region, MainWindow.select_region,
    MainWindow.select_by_drag.
  cbn [ScreenRecorder.region_checked]. rewrite Hc.
  cbn [negb ScreenRecorder.selector].
  destruct a as [pa ga], b as [pb gb]. cbn.
  repeat split; intros x; destruct x; reflexivity.
Qed.

(** X12 on the fresh window, with the scenario's rectangle. *)
Lemma region_selection_restores_window_witness :
  ScreenRecorder.capture_rect_global
    (MainWindow.select_by_drag 1 (Recorder.mouse_at 100 50)
       (Recorder.mouse_at 300 250) (MainWindow.toggle_region Recorder.fresh))
  = Some (QRect.of_size 100 50 201 201).
Proof.
  exact (proj1 (proj2 (proj2
           (region_selection_restores_window 1 Recorder.fresh
              (Recorder.mouse_at 100 50) (Recorder.mouse_at 300 250)
              eq_refl)))).
Defined.

(* ================================================================== *)
(** ** Theorems on closing the window *)

(** X13. While the encoder of the current thread is alive, a request to
    close the window is refused: [closeEvent] ignores the event, leaves
    the key listener alone, and stops the thread, which sets its stop
    flag and makes one send.  If the send succeeds the encoder is sent one
    interrupt signal and the window shows nothing; if it raises, no
    signal is sent and the window shows the failure through
    [recording_failed]. *)
Theorem close_is_refused_while_encoding
        (windows : bool) (decode : list byte -> string)
        (raises : option string)
        (a : MainWindow.App) (i : nat) (c : list string)
        (tr : list Session.Event) (s : Session.t) :
  ScreenRecorder.ffmpeg_thread (MainWindow.window a) = Some i ->
  nth_error (ScreenRecorder.threads (MainWindow.window a)) i = Some s ->
  Session.exec windows decode tr (Session.init c) = Some s ->
  (forall e, ~ In (Session.Communicate_raises e) tr) ->
  Session.alive s = true ->
  exists s' : Session.t,
    MainWindow.closeEvent windows decode raises a
    = ({| MainWindow.window :=
            match raises with
            | None =>
                Lifecycle.with_threads
                  (ScreenRecorder.list_set i s'
                     (ScreenRecorder.threads (MainWindow.window a)))
                  (MainWindow.window a)
            | Some e =>
                ScreenRecorder.recording_failed
                  ("Failed to stop FFmpeg: " ++ e)%string
                  (Lifecycle.with_threads
                     (ScreenRecorder.list_set i s'
                        (ScreenRecorder.threads (MainWindow.window a)))
                     (MainWindow.window a))
            end;
          MainWindow.key_listener := MainWindow.key_listener a |}, false)
    /\ Session.signals s'
       = (Session.signals s ++ Lifecycle.sent_by windows raises)%list
    /\ FFmpegThread._stopping (Session.thread s') = true
    /\ Session.emitted s'
       = (Session.emitted s ++ Lifecycle.emitted_by_stop raises)%list
    /\ Session.alive s' = true.
Proof.
  intros Hf Hn Hexec Hne Ha.
  assert (Hfr : Lifecycle.fresh_handle (Session.init c))
    by (intros _; reflexivity).
  assert (Hb : Lifecycle.blocked_while_alive (Session.init c))
    by (intros Hx; discriminate Hx).
  pose proof (exec_blocked_while_alive windows decode tr _ _ Hexec Hne Hfr Hb
                Ha) as Hph.
  destruct s as [[cm pr fl] ph em]. cbn in Hph. subst ph.
  unfold Session.alive in Ha. cbn in Ha.
  destruct pr as [[rcode rcv]|]; [|discriminate].
  unfold poll in Ha. cbn in Ha. destruct rcode; [discriminate|].
  destruct raises as [e|].
  - exists (Session.mk
              (FFmpegThread.mk cm (Some (mkPopen None rcv)) true)
              Session.Communicating
              (em ++ [(Session.InStop,
                       error_occurred ("Failed to stop FFmpeg: " ++ e))])).
    split; [|repeat split; cbn; now rewrite ?app_nil_r].
    unfold MainWindow.closeEvent. rewrite Hf, Hn.
    cbn [MainWindow.isRunning Session.phase].
    unfold Recorder.after_event.
    erewrite thread_event_at; [|exact Hn|reflexivity].
    cbn [Session.emitted].
    rewrite skipn_app, skipn_all, Nat.sub_diag. reflexivity.
  - exists (Session.mk
              (FFmpegThread.mk cm
                 (Some (mkPopen None
                                (rcv ++ [FFmpegThread.interrupt windows])))
                 true)
              Session.Communicating em).
    split; [|repeat split; cbn; now rewrite ?app_nil_r].
    unfold MainWindow.closeEvent. rewrite Hf, Hn.
    cbn [MainWindow.isRunning Session.phase].
    unfold Recorder.after_event.
    erewrite thread_event_at; [|exact Hn|reflexivity].
    cbn [Session.emitted Session.tag map]. rewrite app_nil_r, skipn_all.
    reflexivity.
Qed.

(** X13 on the recording window of a POSIX host, with a send that
    succeeds and with one that raises. *)
Lemma close_is_refused_while_encoding_witness :
  snd (MainWindow.closeEvent false Supervision.ascii_decode None
         (MainWindow.mkApp Recorder.recording KeyListenerThread.init))
  = false
  /\ map Session.signals
       (ScreenRecorder.threads
          (MainWindow.window
             (fst (MainWindow.closeEvent false Supervision.ascii_decode None
                     (MainWindow.mkApp Recorder.recording
                                       KeyListenerThread.init)))))
     = [[SIGINT]]
  /\ snd (MainWindow.closeEvent false Supervision.ascii_decode (Some "boom")
            (MainWindow.mkApp Recorder.recording KeyListenerThread.init))
     = false.
Proof.
  assert (Hno : forall e,
             ~ In (Session.Communicate_raises e) [Session.Popen_returns])
    by (intros e [H|[]]; discriminate H).
  destruct (close_is_refused_while_encoding false Supervision.ascii_decode
              None
              (MainWindow.mkApp Recorder.recording KeyListenerThread.init)
              0 _ [Session.Popen_returns] _ eq_refl eq_refl eq_refl
              Hno eq_refl)
    as (s1 & Hc1 & Hs1 & _).
  destruct (close_is_refused_while_encoding false Supervision.ascii_decode
              (Some "boom")
              (MainWindow.mkApp Recorder.recording KeyListenerThread.init)
              0 _ [Session.Popen_returns] _ eq_refl eq_refl eq_refl
              Hno eq_refl)
    as (s2 & Hc2 & _).
  rewrite Hc1, Hc2. split; [reflexivity|]. split; [|reflexivity].
  cbn. now rewrite Hs1.
Defined.

(** X14. When no encoder thread is running (none was started, or the
    [run] of the current one has returned) a request to close the window
    is accepted: nothing is signalled and no thread or dialog changes, the
    log gets its last line, and a running key listener is told to stop. *)
Theorem close_is_accepted_when_idle
        (windows : bool) (decode : list byte -> string)
        (raises : option string) (a : MainWindow.App) :
  match Lifecycle.current_session (MainWindow.window a) with
  | Some s => Session.phase s = Session.Returned
  | None => True
  end ->
  let '(a', accepted) := MainWindow.closeEvent windows decode raises a in
  accepted = true
  /\ ScreenRecorder.threads (MainWindow.window a')
     = ScreenRecorder.threads (MainWindow.window a)
  /\ ScreenRecorder.dialogs (MainWindow.window a')
     = ScreenRecorder.dialogs (MainWindow.window a)
  /\ ScreenRecorder.log (MainWindow.window a')
     = (ScreenRecorder.log (MainWindow.window a)
        ++ [(ScreenRecorder.INFO, "Application finished.")])%list
  /\ (KeyListenerThread.isRunning (MainWindow.key_listener a) = true ->
      KeyListenerThread.running (MainWindow.key_listener a') = false)
  /\ KeyListenerThread.key_pressed (MainWindow.key_listener a')
     = KeyListenerThread.key_pressed (MainWindow.key_listener a).
Proof.
  unfold Lifecycle.current_session, MainWindow.closeEvent.
  destruct (ScreenRecorder.ffmpeg_thread (MainWindow.window a)) as [i|].
  - destruct (nth_error (ScreenRecorder.threads (MainWindow.window a)) i)
      as [s|].
    + intros Hph. unfold MainWindow.isRunning. rewrite Hph. cbn.
      repeat split.
      * intros ->. reflexivity.
      * now destruct (KeyListenerThread.isRunning (MainWindow.key_listener a)).
    + intros _. cbn. repeat split.
      * intros ->. reflexivity.
      * now destruct (KeyListenerThread.isRunning (MainWindow.key_listener a)).
  - intros _. cbn. repeat split.
    + intros ->. reflexivity.
    + now destruct (KeyListenerThread.isRunning (MainWindow.key_listener a)).
Qed.

(** X14 on the window of a finished session. *)
Lemma close_is_accepted_when_idle_witness :
  snd (MainWindow.closeEvent false Supervision.ascii_decode None
         (MainWindow.mkApp Recorder.encoder_finished KeyListenerThread.init))
  = true.
Proof.
  pose proof (close_is_accepted_when_idle false Supervision.ascii_decode None
                (MainWindow.mkApp Recorder.encoder_finished
                                  KeyListenerThread.init) eq_refl) as H.
  destruct (MainWindow.closeEvent false Supervision.ascii_decode None
              (MainWindow.mkApp Recorder.encoder_finished
                                KeyListenerThread.init)) as [a' ok].
  exact (proj1 H).
Defined.

(* ================================================================== *)
(** ** Theorems on the key listener *)

Lemma emits_allowed (ev : KeyListenerThread.KeyboardEvent) :
  Forall (fun n => n = "s" \/ n = "p" \/ n = "u")%string
         (KeyListenerThread.emits ev)
  /\ (List.length (KeyListenerThread.emits ev) <= 1)%nat
  /\ (KeyListenerThread.event_type ev = KeyListenerThread.KEY_UP ->
      KeyListenerThread.emits ev = []).
Proof.
  unfold KeyListenerThread.emits, KeyListenerThread.allowed.
  destruct ev as [[] [n|]];
    cbn [KeyListenerThread.event_type KeyListenerThread.name existsb].
  - destruct (String.eqb_spec n "s") as [->|];
      [cbn; repeat split; [repeat constructor|lia|discriminate]|].
    destruct (String.eqb_spec n "p") as [->|];
      [cbn; repeat split;
       [constructor; [right; now left|constructor]|lia|discriminate]|].
    destruct (String.eqb_spec n "u") as [->|];
      [cbn; repeat split;
       [constructor; [right; now right|constructor]|lia|discriminate]|].
    cbn. repeat split; [constructor|lia].
  - cbn. repeat split; [constructor|lia].
  - cbn. repeat split; [constructor|lia].
  - cbn. repeat split; [constructor|lia].
Qed.

Lemma listener_emissions (tr : list KeyListenerThread.Event) :
  forall k k' : KeyListenerThread.t,
    KeyListenerThread.exec tr k = Some k' ->
    KeyListenerThread.key_pressed k'
    = (KeyListenerThread.key_pressed k
       ++ flat_map KeyListenerThread.emits (KeyListenerThread.reads tr))%list.
Proof.
  induction tr as [|e tr IH]; intros k k' H; cbn [KeyListenerThread.exec] in H.
  - injection H as <-. cbn. now rewrite app_nil_r.
  - destruct (KeyListenerThread.step k e) as [k1|] eqn:Hs; [|discriminate].
    rewrite (IH _ _ H). clear IH H.
    destruct e; cbn [KeyListenerThread.step] in Hs;
      cbn [KeyListenerThread.reads flat_map].
    + destruct (KeyListenerThread.pc k); now injection Hs as <-.
    + destruct (KeyListenerThread.pc k); try discriminate.
      now injection Hs as <-.
    + destruct (KeyListenerThread.pc k); try discriminate.
      injection Hs as <-. cbn. now rewrite app_assoc.
    + now injection Hs as <-.
Qed.

Lemma listener_after_stop (tr : list KeyListenerThread.Event) :
  forall k k' : KeyListenerThread.t,
    KeyListenerThread.exec tr k = Some k' ->
    KeyListenerThread.running k = false ->
    KeyListenerThread.running k' = false
    /\ (List.length (KeyListenerThread.reads tr)
        <= match KeyListenerThread.pc k with
           | KeyListenerThread.InRead => 1
           | _ => 0
           end)%nat.
Proof.
  induction tr as [|e tr IH]; intros k k' H Hr; cbn [KeyListenerThread.exec] in H.
  - injection H as <-. split; [exact Hr|]. cbn.
    destruct (KeyListenerThread.pc k); lia.
  - destruct (KeyListenerThread.step k e) as [k1|] eqn:Hs; [|discriminate].
    destruct e; cbn [KeyListenerThread.step] in Hs;
      cbn [KeyListenerThread.reads List.length].
    + destruct (KeyListenerThread.pc k) eqn:Hpc.
      * injection Hs as <-. destruct (IH _ _ H Hr) as [H1 H2]. cbn in H2.
        split; [exact H1|lia].
      * injection Hs as <-. destruct (IH _ _ H Hr) as [H1 H2].
        rewrite Hpc in H2. now split.
      * injection Hs as <-. destruct (IH _ _ H Hr) as [H1 H2].
        rewrite Hpc in H2. now split.
    + destruct (KeyListenerThread.pc k) eqn:Hpc; try discriminate.
      injection Hs as <-. destruct (IH _ _ H Hr) as [H1 H2].
      cbn in H2. rewrite Hr in H2. split; [exact H1|lia].
    + destruct (KeyListenerThread.pc k) eqn:Hpc; try discriminate.
      injection Hs as <-. destruct (IH _ _ H Hr) as [H1 H2].
      cbn in H2. split; [exact H1|lia].
    + injection Hs as <-. destruct (IH _ _ H eq_refl) as [H1 H2].
      cbn in H2. now split.
Qed.

Lemma emits_are_presses (evs : list KeyListenerThread.KeyboardEvent) :
  flat_map KeyListenerThread.emits evs = Lifecycle.presses evs.
Proof.
  induction evs as [|ev evs IH]; [reflexivity|].
  destruct ev as [[] [n|]]; cbn [flat_map Lifecycle.presses];
    try (rewrite IH; reflexivity).
  rewrite IH. unfold KeyListenerThread.emits, KeyListenerThread.allowed.
  cbn [KeyListenerThread.event_type KeyListenerThread.name existsb].
  destruct (String.eqb_spec n "s") as [->|]; [reflexivity|].
  destruct (String.eqb_spec n "p") as [->|]; [reflexivity|].
  destruct (String.eqb_spec n "u") as [->|]; reflexivity.
Qed.

Lemma presses_are_key_downs (evs : list KeyListenerThread.KeyboardEvent) :
  forall n : string,
    In n (Lifecycle.presses evs) ->
    (n = "s" \/ n = "p" \/ n = "u")%string
    /\ In (KeyListenerThread.mkKey KeyListenerThread.KEY_DOWN (Some n)) evs.
Proof.
  induction evs as [|ev evs IH]; intros n; [intros []|].
  destruct ev as [[] [m|]]; cbn [Lifecycle.presses];
    try (intros H; destruct (IH n H) as [H1 H2]; split;
         [exact H1|now right]).
  destruct (String.eqb_spec m "s") as [->|];
      [intros [<-|H];
       [split; [now left|now left]
       |destruct (IH n H) as [H1 H2]; split; [exact H1|now right]]|].
    destruct (String.eqb_spec m "p") as [->|];
      [intros [<-|H];
       [split; [right; now left|now left]
       |destruct (IH n H) as [H1 H2]; split; [exact H1|now right]]|].
    destruct (String.eqb_spec m "u") as [->|];
      [intros [<-|H];
       [split; [right; now right|now left]
       |destruct (IH n H) as [H1 H2]; split; [exact H1|now right]]|].
  intros H. destruct (IH n H) as [H1 H2]. split; [exact H1|now right].
Qed.

(** X15. The key listener reports the name of every key-down event of
    the keys s, p and u that it reads, in the order it reads them, and
    nothing else: every key it reports is s, p or u and comes from a
    key-down event, so releases, other keys and keys without a name are
    dropped.  Of the three, the window acts on s alone: p and u leave its
    attributes as they are. *)
Theorem listener_reports_only_its_keys
        (windows : bool) (decode : list byte -> string)
        (tr : list KeyListenerThread.Event) (k k' : KeyListenerThread.t) :
  KeyListenerThread.exec tr k = Some k' ->
  KeyListenerThread.key_pressed k'
  = (KeyListenerThread.key_pressed k
     ++ Lifecycle.presses (KeyListenerThread.reads tr))%list
  /\ (forall n : string,
        In n (Lifecycle.presses (KeyListenerThread.reads tr)) ->
        (n = "s" \/ n = "p" \/ n = "u")%string
        /\ In (KeyListenerThread.mkKey KeyListenerThread.KEY_DOWN (Some n))
              (KeyListenerThread.reads tr))
  /\ (forall n : string,
        (n = "s" \/ n = "p" \/ n = "u")%string ->
        Lifecycle.presses
          [KeyListenerThread.mkKey KeyListenerThread.KEY_DOWN (Some n)] = [n]
        /\ Lifecycle.presses
             [KeyListenerThread.mkKey KeyListenerThread.KEY_UP (Some n)] = [])
  /\ (forall (n : string) (raises : option string) (win : ScreenRecorder.t),
        In n (Lifecycle.presses (KeyListenerThread.reads tr)) ->
        n <> "s" ->
        MainWindow.handle_key windows decode raises n win = win).
Proof.
  intros H. split.
  - rewrite (listener_emissions tr k k' H). now rewrite emits_are_presses.
  - split; [apply presses_are_key_downs|]. split.
    + intros n [->|[->| ->]]; now split.
    + intros n raises win _ Hn. unfold MainWindow.handle_key.
      apply String.eqb_neq in Hn. now rewrite Hn.
Qed.

(** X15 on a listener that reads a release of s, a press of x, a press
    of p and a press of s. *)
Lemma listener_reports_only_its_keys_witness :
  KeyListenerThread.exec Lifecycle.some_typing KeyListenerThread.init
  = Some (KeyListenerThread.mk true KeyListenerThread.AtWhile ["p"; "s"])
  /\ KeyListenerThread.key_pressed
       (KeyListenerThread.mk true KeyListenerThread.AtWhile ["p"; "s"])
     = ["p"; "s"].
Proof.
  split; [reflexivity|].
  exact (proj1 (listener_reports_only_its_keys false Supervision.ascii_decode
                  Lifecycle.some_typing KeyListenerThread.init
                  (KeyListenerThread.mk true KeyListenerThread.AtWhile
                                        ["p"; "s"])
                  eq_refl)).
Defined.

(** X16. After [stop()] the key listener reads at most one more event,
    the one it was already waiting for, and so reports at most one more
    key; its flag is never set again, so a listener that is restarted
    returns without reading. *)
Theorem listener_reads_at_most_one_event_after_stop
        (tr : list KeyListenerThread.Event) (k k' : KeyListenerThread.t) :
  KeyListenerThread.exec (KeyListenerThread.Stop :: tr) k = Some k' ->
  KeyListenerThread.running k' = false
  /\ (List.length (KeyListenerThread.reads tr) <= 1)%nat
  /\ (List.length (KeyListenerThread.key_pressed k')
      <= List.length (KeyListenerThread.key_pressed k) + 1)%nat
  /\ (KeyListenerThread.pc k <> KeyListenerThread.InRead ->
      KeyListenerThread.key_pressed k' = KeyListenerThread.key_pressed k).
Proof.
  cbn [KeyListenerThread.exec KeyListenerThread.step]. intros H.
  destruct (listener_after_stop tr _ _ H eq_refl) as [H1 H2].
  pose proof (listener_emissions tr _ _ H) as He.
  cbn [KeyListenerThread.stop KeyListenerThread.pc
       KeyListenerThread.key_pressed] in H2, He.
  assert (Hl : (List.length (KeyListenerThread.reads tr) <= 1)%nat)
    by (destruct (KeyListenerThread.pc k); lia).
  repeat split; auto.
  - rewrite He, length_app.
    destruct (KeyListenerThread.reads tr) as [|ev [|ev2 l]];
      cbn [flat_map List.length] in *; try lia.
    rewrite app_nil_r. pose proof (emits_allowed ev) as (_ & Hle & _). lia.
  - intros Hpc. rewrite He.
    destruct (KeyListenerThread.pc k); try contradiction;
      destruct (KeyListenerThread.reads tr); cbn in H2; try lia;
      cbn; now rewrite app_nil_r.
Qed.

(** X16 on a listener that is stopped while it waits for a key. *)
Lemma listener_reads_at_most_one_event_after_stop_witness :
  KeyListenerThread.running
    (KeyListenerThread.mk false KeyListenerThread.NotRunning ["s"]) = false
  /\ (List.length
        (KeyListenerThread.reads
           [KeyListenerThread.Read
              (KeyListenerThread.mkKey KeyListenerThread.KEY_DOWN (Some "s"));
            KeyListenerThread.While; KeyListenerThread.Start;
            KeyListenerThread.While]) <= 1)%nat.
Proof.
  pose proof (listener_reads_at_most_one_event_after_stop
                [KeyListenerThread.Read
                   (KeyListenerThread.mkKey KeyListenerThread.KEY_DOWN
                                            (Some "s"));
                 KeyListenerThread.While; KeyListenerThread.Start;
                 KeyListenerThread.While]
                (KeyListenerThread.mk true KeyListenerThread.InRead [])
                (KeyListenerThread.mk false KeyListenerThread.NotRunning ["s"])
                eq_refl) as (H1 & H2 & _).
  exact (conj H1 H2).
Defined.

(* ================================================================== *)
(** ** Theorem on the overlay *)

Lemma clock_text_is_not_rec (d : Z) :
  (RecordingOverlay.toString d =? "REC")%string = false.
Proof.
  apply String.eqb_neq. intros H.
  assert (Hn : Recorder.numeric_head (RecordingOverlay.toString d) = true).
  { unfold RecordingOverlay.toString. apply numeric_head_append.
    unfold RecordingOverlay.two_digits.
    destruct (d / 3600 <? 10); [reflexivity|apply str_numeric_head]. }
  rewrite H in Hn. discriminate Hn.
Qed.

Lemma paint_shows_rec (o : RecordingOverlay.t) :
  Lifecycle.shows_rec (fst (RecordingOverlay.paintEvent o))
  = RecordingOverlay.blink o.
Proof.
  unfold RecordingOverlay.paintEvent, Lifecycle.shows_rec. cbn [fst].
  destruct (RecordingOverlay.blink o); cbn [List.app existsb orb].
  - reflexivity.
  - now rewrite clock_text_is_not_rec.
Qed.

Lemma overlay_run (tr : list RecordingOverlay.Event) :
  forall o : RecordingOverlay.t,
    RecordingOverlay.timer_active o = true ->
    0 <= RecordingOverlay.duration o < 86400 ->
    let '(ds, o') := RecordingOverlay.exec tr o in
    RecordingOverlay.duration o'
    = (RecordingOverlay.duration o + RecordingOverlay.timeouts tr) mod 86400
    /\ map Lifecycle.shows_rec ds
       = Lifecycle.alternate (RecordingOverlay.blink o)
                             (RecordingOverlay.paints tr)
    /\ RecordingOverlay.timer_active o' = true
    /\ RecordingOverlay.visible o' = RecordingOverlay.visible o.
Proof.
  induction tr as [|e tr IH]; intros o Ht Hd.
  - cbn. rewrite Z.add_0_r, Z.mod_small by lia. now repeat split.
  - cbn [RecordingOverlay.exec].
    destruct (RecordingOverlay.step o e) as [d o1] eqn:Hs.
    destruct e; cbn [RecordingOverlay.step] in Hs.
    + injection Hs as <- <-. rewrite Ht.
      assert (Ht1 : RecordingOverlay.timer_active
                      (RecordingOverlay.update_overlay o) = true) by exact Ht.
      assert (Hd1 : 0 <= RecordingOverlay.duration
                           (RecordingOverlay.update_overlay o) < 86400)
        by (cbn; unfold RecordingOverlay.addSecs; apply Z.mod_pos_bound; lia).
      specialize (IH _ Ht1 Hd1).
      destruct (RecordingOverlay.exec tr (RecordingOverlay.update_overlay o))
        as [ds o2].
      destruct IH as (I1 & I2 & I3 & I4). repeat split; auto.
      rewrite I1. cbn [RecordingOverlay.update_overlay RecordingOverlay.duration].
      unfold RecordingOverlay.addSecs, RecordingOverlay.timeouts.
      cbn [filter List.length]. rewrite Nat2Z.inj_succ.
      rewrite Zplus_mod_idemp_l. f_equal. lia.
    + pose proof (paint_shows_rec o) as Hp. rewrite Hs in Hp. cbn [fst] in Hp.
      unfold RecordingOverlay.paintEvent in Hs. injection Hs as <- <-.
      match goal with
      | |- context [RecordingOverlay.exec tr ?x] =>
          specialize (IH x Ht Hd); destruct (RecordingOverlay.exec tr x)
            as [ds o2]
      end.
      destruct IH as (I1 & I2 & I3 & I4).
      cbn [RecordingOverlay.duration RecordingOverlay.blink
           RecordingOverlay.visible] in *.
      repeat split; auto.
      unfold RecordingOverlay.paints. cbn [filter List.length map
                                           Lifecycle.alternate].
      now rewrite Hp, I2.
Qed.

Lemma two_digits_two (n : Z) :
  0 <= n < 100 -> RecordingOverlay.two_digits n = Lifecycle.two n.
Proof.
  intros H. rewrite <- (Z2Nat.id n) by lia.
  assert (Hm : (Z.to_nat n < 100)%nat) by lia.
  generalize dependent (Z.to_nat n). clear H. intros m Hm.
  do 100 (destruct m as [|m]; [reflexivity|]). lia.
Qed.

(** The text of the clock is [hh:mm:ss], two digits each. *)
Lemma toString_clock (d : Z) :
  0 <= d < 86400 -> RecordingOverlay.toString d = Lifecycle.clock d.
Proof.
  intros H. unfold RecordingOverlay.toString, Lifecycle.clock.
  assert (H1 : 0 <= d / 3600 < 100).
  { split; [apply Z.div_pos; lia|].
    apply Z.div_lt_upper_bound; lia. }
  assert (H2 : 0 <= d / 60 mod 60 < 100)
    by (pose proof (Z.mod_pos_bound (d / 60) 60); lia).
  assert (H3 : 0 <= d mod 60 < 100)
    by (pose proof (Z.mod_pos_bound d 60); lia).
  now rewrite (two_digits_two _ H1), (two_digits_two _ H2),
    (two_digits_two _ H3).
Qed.

Lemma paint_shows_clock (o : RecordingOverlay.t) :
  Lifecycle.clock_shown (fst (RecordingOverlay.paintEvent o))
  = [RecordingOverlay.toString (RecordingOverlay.duration o)].
Proof.
  unfold RecordingOverlay.paintEvent. cbn [fst].
  now destruct (RecordingOverlay.blink o).
Qed.

Lemma overlay_clocks (tr : list RecordingOverlay.Event) :
  forall (o : RecordingOverlay.t) (t : Z),
    RecordingOverlay.timer_active o = true ->
    RecordingOverlay.duration o = t mod 86400 ->
    map Lifecycle.clock_shown (fst (RecordingOverlay.exec tr o))
    = map (fun c => [c]) (Lifecycle.clocks t tr).
Proof.
  induction tr as [|e tr IH]; intros o t Ht Hd; [reflexivity|].
  cbn [RecordingOverlay.exec Lifecycle.clocks].
  destruct (RecordingOverlay.step o e) as [d o1] eqn:Hs.
  destruct e; cbn [RecordingOverlay.step] in Hs.
  - injection Hs as <- <-. rewrite Ht.
    assert (Hd1 : RecordingOverlay.duration (RecordingOverlay.update_overlay o)
                  = (t + 1) mod 86400).
    { cbn. unfold RecordingOverlay.addSecs. rewrite Hd.
      now rewrite Zplus_mod_idemp_l. }
    specialize (IH (RecordingOverlay.update_overlay o) (t + 1) Ht Hd1).
    destruct (RecordingOverlay.exec tr (RecordingOverlay.update_overlay o))
      as [ds o2].
    exact IH.
  - pose proof (paint_shows_clock o) as Hp. rewrite Hs in Hp. cbn [fst] in Hp.
    unfold RecordingOverlay.paintEvent in Hs. injection Hs as <- <-.
    match goal with
    | |- context [RecordingOverlay.exec tr ?x] =>
        specialize (IH x t Ht Hd); destruct (RecordingOverlay.exec tr x)
          as [ds o2]
    end.
    cbn [fst map] in *. rewrite Hp, IH, Hd.
    rewrite toString_clock by (apply Z.mod_pos_bound; lia).
    reflexivity.
Qed.

(** X17. From [start_blinking] on, whatever the order of timer ticks and
    paintings, the overlay's clock holds the number of ticks, in seconds
    and wrapping around after 24 hours; every painting draws it once, as
    [hh:mm:ss] with two digits each, for the ticks that came before the
    painting; and the REC indicator is drawn in the first painting and
    then in every other one. *)
Theorem overlay_counts_and_blinks
        (tr : list RecordingOverlay.Event) (o : RecordingOverlay.t) :
  let '(ds, o') :=
    RecordingOverlay.exec tr (RecordingOverlay.start_blinking o) in
  RecordingOverlay.duration o' = RecordingOverlay.timeouts tr mod 86400
  /\ map Lifecycle.shows_rec ds
     = Lifecycle.alternate true (RecordingOverlay.paints tr)
  /\ RecordingOverlay.visible o' = true
  /\ RecordingOverlay.toString (RecordingOverlay.addSecs 0 3725) = "01:02:05"
  /\ RecordingOverlay.toString (RecordingOverlay.addSecs 86399 1) = "00:00:00"
  /\ map Lifecycle.clock_shown ds
     = map (fun c => [c]) (Lifecycle.clocks 0 tr)
  /\ (forall d : Z,
        0 <= d < 86400 -> RecordingOverlay.toString d = Lifecycle.clock d)
  /\ Lifecycle.clock 45296 = "12:34:56".
Proof.
  pose proof (overlay_run tr (RecordingOverlay.start_blinking o) eq_refl) as H.
  pose proof (overlay_clocks tr (RecordingOverlay.start_blinking o) 0
                eq_refl eq_refl) as Hc.
  cbn [RecordingOverlay.start_blinking RecordingOverlay.duration
       RecordingOverlay.blink RecordingOverlay.visible] in H.
  specialize (H ltac:(lia)).
  destruct (RecordingOverlay.exec tr (RecordingOverlay.start_blinking o))
    as [ds o'].
  destruct H as (H1 & H2 & _ & H4). rewrite Z.add_0_l in H1.
  cbn [fst] in Hc.
  repeat split; auto. apply toString_clock.
Qed.
